(** * jira_dataframes: a shallow embedding of [src/jira_dataframes.py]

    The class [jira_project_dataframes] mirrors the issues of a Jira project
    into six flat tables.  This file embeds the pandas values the class
    works on (cells, rows, frames), the Python control flow of its methods
    (a small state-and-exception monad) and the methods themselves, in the
    order of the source.  It then names the notions the statements use and
    the values the methods are run on, and proves the properties of the
    merge ([update_dataframe]), of the normaliser
    ([data_part_to_dataframe]), of the watermark
    ([get_issues_file_mod_date]) and of the orchestrator
    ([get_project_data]), and after them those of the text cleaner
    ([make_delimit_ready]), of the registry ([get_data_part_element]) and
    of the refresh of one table ([refresh_data_part]).

    Frames follow pandas: a frame has ordered columns, an index and rows; a
    row maps column names to cells, and a missing value is [NaN].  Strings
    are byte strings (UTF-8).  The Jira server, the date parser, the local
    time zone and the helper module [pyIS.IS_ToolBox] are collaborators of
    the class and appear as records of functions. *)

From Stdlib Require Import ZArith String Ascii List Lia Permutation.
From stdpp Require Import base option list gmap strings sorting pretty.

Local Open Scope string_scope.
Local Open Scope list_scope.

(** ** Python exceptions and results *)

Inductive exn :=
| KeyError (name : string)
| TypeError
| AttributeError
| ValueError (message : string)
| IndexError
| FileNotFoundError
| ParserError
| JIRAError.

Inductive result (A : Type) :=
| Ok (a : A)
| Raise (e : exn).
Arguments Ok {A} a.
Arguments Raise {A} e.

Global Instance result_ret : MRet result := λ A a, Ok a.
Global Instance result_bind : MBind result := λ A B f m,
  match m with Ok a => f a | Raise e => Raise e end.
Global Instance result_fmap : FMap result := λ A B f m,
  match m with Ok a => Ok (f a) | Raise e => Raise e end.

(** ** Cells, rows and frames *)

(** A naive [datetime]: the proleptic Gregorian ordinal of its day and the
    second within that day. *)
Record datetime := { ordinal : Z; second_of_day : Z }.

Global Instance datetime_eq_dec : EqDecision datetime.
Proof. solve_decision. Defined.

(** The scalar values a frame holds: [NaN] for a missing value, numbers,
    strings ([str], as UTF-8 bytes) and [datetime] objects.  A cell is the
    value and not the way pandas stores it: [Num z] is the number [z] in a
    column of integers and in a column of floats, and [NaN] is the missing
    value of any column ([None], [nan] or [NaT]). *)
Inductive cell :=
| NaN
| Num (z : Z)
| Str (s : string)
| Stamp (d : datetime).

Global Instance cell_eq_dec : EqDecision cell.
Proof. solve_decision. Defined.

(** A row maps column names to cells; a frame lists its column names, the name
    of its index and its rows, each under its index label. *)
Record DataFrame := {
  columns : list string;
  index_name : option string;
  body : list (cell * gmap string cell)
}.

(** [pd.DataFrame()] *)
Definition empty_frame : DataFrame :=
  {| columns := []; index_name := None; body := [] |}.

(** [len(df)] *)
Definition len (df : DataFrame) : nat := length (body df).

(** The rows of a frame without their labels. *)
Definition rows (df : DataFrame) : list (gmap string cell) := (body df).*2.

(** The value of a row in a column; a missing value reads as [NaN]. *)
Definition cell_at (c : string) (r : gmap string cell) : cell :=
  default NaN (r !! c).

(** [df[c].tolist()]: the values of a column, [KeyError] without it. *)
Definition getitem (df : DataFrame) (c : string) : result (list cell) :=
  if decide (c ∈ columns df) then Ok (cell_at c <$> rows df)
  else Raise (KeyError c).

(** [list(set(xs))]: the distinct values; only membership is used of it. *)
Definition list_set (xs : list cell) : list cell := remove_dups xs.

(** [series.isin(values)], on the list of the series' values. *)
Definition isin (values xs : list cell) : list bool :=
  (λ x, bool_decide (x ∈ values)) <$> xs.

(** [~mask] *)
Definition invert (mask : list bool) : list bool := negb <$> mask.

(** [df[mask]]: the rows whose mask entry is [True], labels kept. *)
Definition select (df : DataFrame) (mask : list bool) : DataFrame :=
  {| columns := columns df;
     index_name := index_name df;
     body := (filter (λ p, p.2 = true) (zip (body df) mask)).*1 |}.

(** The columns of a concatenation: those of the first frame, then the new
    ones of the second, in order of appearance ([sort=False]). *)
Definition union_columns (c1 c2 : list string) : list string :=
  c1 ++ filter (λ c, c ∉ c1) c2.

(** A row laid out on the given columns: missing cells become [NaN]. *)
Definition reindex (cols : list string) (r : gmap string cell)
  : gmap string cell :=
  list_to_map ((λ c, (c, cell_at c r)) <$> cols).

(** [pd.concat([df1, df2], sort=False)] *)
Definition concat (df1 df2 : DataFrame) : DataFrame :=
  let cols := union_columns (columns df1) (columns df2) in
  {| columns := cols;
     index_name :=
       if decide (index_name df1 = index_name df2) then index_name df1
       else None;
     body := prod_map id (reindex cols) <$> (body df1 ++ body df2) |}.

(** The first row of every key value, in order; [seen] are the key values
    met so far.  Missing values count as equal to each other. *)
Fixpoint keep_first (k : string) (seen : list cell)
    (l : list (cell * gmap string cell)) : list (cell * gmap string cell) :=
  match l with
  | [] => []
  | p :: l =>
      if decide (cell_at k p.2 ∈ seen) then keep_first k seen l
      else p :: keep_first k (cell_at k p.2 :: seen) l
  end.

(** [df.drop_duplicates(k)] *)
Definition drop_duplicates (k : string) (df : DataFrame) : result DataFrame :=
  if decide (k ∈ columns df) then
    Ok {| columns := columns df; index_name := index_name df;
          body := keep_first k [] (body df) |}
  else Raise (KeyError k).

(** The order of the values of a column: numbers by value, strings by code
    point, dates by time, [NaN] after everything ([na_position='last']).
    Values of different kinds are ranked by kind to make the relation total;
    [sort_values] raises before it compares such values. *)
Definition kind (c : cell) : nat :=
  match c with Num _ => 0 | Str _ => 1 | Stamp _ => 2 | NaN => 3 end.

Definition cell_leb (a b : cell) : bool :=
  match a, b with
  | Num x, Num y => (x <=? y)%Z
  | Str s, Str t => String.leb s t
  | Stamp d, Stamp e =>
      if decide (ordinal d = ordinal e)
      then (second_of_day d <=? second_of_day e)%Z
      else (ordinal d <=? ordinal e)%Z
  | _, _ => (kind a <=? kind b)%nat
  end.

Definition key_le (k : string) (p q : cell * gmap string cell) : Prop :=
  cell_leb (cell_at k p.2) (cell_at k q.2) = true.

Global Instance key_le_dec k p q : Decision (key_le k p q).
Proof. unfold key_le. apply _. Defined.

(** Python compares numbers with numbers and strings with strings only: a
    column that mixes kinds (missing values apart) cannot be sorted. *)
Definition comparable (xs : list cell) : bool :=
  match filter (λ x, x ≠ NaN) xs with
  | [] => true
  | x :: xs' => forallb (λ y, (kind y =? kind x)%nat) xs'
  end.

(** [df.sort_values(k)].  pandas sorts with quicksort, which may reorder rows
    of equal keys; the merge sorts after it has dropped the duplicates, and
    on pairwise distinct keys every sorting algorithm returns the same rows
    in the same order (see [sorted_rows_unique]). *)
Definition sort_values (k : string) (df : DataFrame) : result DataFrame :=
  if decide (k ∈ columns df) then
    if comparable (cell_at k <$> rows df) then
      Ok {| columns := columns df; index_name := index_name df;
            body := merge_sort (key_le k) (body df) |}
    else Raise TypeError
  else Raise (KeyError k).

(** [df.set_index(k)]: the column becomes the index. *)
Definition set_index (k : string) (df : DataFrame) : result DataFrame :=
  if decide (k ∈ columns df) then
    Ok {| columns := filter (λ c, c ≠ k) (columns df);
          index_name := Some k;
          body := (λ p, (cell_at k p.2, delete k p.2)) <$> body df |}
  else Raise (KeyError k).

(** [df.reset_index()]: the index becomes the first column again and the
    rows are labelled 0, 1, 2, ... *)
Definition reset_index (df : DataFrame) : result DataFrame :=
  let name := default "index" (index_name df) in
  if decide (name ∈ columns df) then Raise (ValueError "cannot insert")
  else
    Ok {| columns := name :: columns df;
          index_name := None;
          body := imap (λ i p, (Num (Z.of_nat i), <[name := p.1]> p.2))
                       (body df) |}.

(** [df.loc[i, c] = v]: sets the cell of the rows labelled [i]; a new label
    adds a row and a new column name adds a column, [NaN] elsewhere.  The
    cell holds [v] as it is given.  pandas also gives every column a type and
    brings a value that is set to the type of its column: an empty string
    set in a column of dates is stored as a missing date, and whether a date
    can be set in a column of strings depends on the version of pandas.
    Frames carry no column types here, so [loc_set] is what pandas does on
    a column whose cells are of one kind (missing values apart); the tables
    are described for such columns only (see [dates_of_one_kind]). *)
Definition loc_set (i : cell) (c : string) (v : cell) (df : DataFrame)
  : DataFrame :=
  let cols := if decide (c ∈ columns df) then columns df
              else columns df ++ [c] in
  let old := prod_map id (reindex cols) <$> body df in
  {| columns := cols;
     index_name := index_name df;
     body :=
       if decide (i ∈ (body df).*1) then
         (λ p, if decide (p.1 = i) then (p.1, <[c := v]> p.2) else p) <$> old
       else old ++ [(i, <[c := v]> (reindex cols ∅))] |}.

(** ** Python values *)

(** The dynamically typed values [ifnull] and [from_date] range over.  A type
    object is a value of its own: [type(v)] is never [None]. *)
Inductive pytype := NoneType | int_type | str_type | list_type | type_type.

#[warnings="-register-all"]
Inductive pyval :=
| PyNone
| PyInt (z : Z)
| PyStr (s : string)
| PyList (l : list pyval)
| PyType (t : pytype).

(** [type(v)] *)
Definition type_ (v : pyval) : pyval :=
  PyType match v with
         | PyNone => NoneType
         | PyInt _ => int_type
         | PyStr _ => str_type
         | PyList _ => list_type
         | PyType _ => type_type
         end.

(** [v is None] *)
Definition is_None (v : pyval) : bool :=
  match v with PyNone => true | _ => false end.

(** [bool(v)]: the truth value [if v:] and [not v] test. *)
Definition truthy (v : pyval) : bool :=
  match v with
  | PyNone => false
  | PyInt z => negb (z =? 0)%Z
  | PyStr s => negb (String.eqb s "")
  | PyList l => match l with [] => false | _ => true end
  | PyType _ => true
  end.

(** The truth value of an attribute that is [None] or a [str]. *)
Definition truthy_str (x : option string) : bool :=
  match x with None => false | Some s => negb (String.eqb s "") end.

(** [str(x)] of an attribute that is [None] or renders as the given text. *)
Definition str (x : option string) : string := default "None" x.

(** A value that is [None] or a [str], as a cell. *)
Definition cell_of_str (x : option string) : cell :=
  match x with None => NaN | Some s => Str s end.

(** A value that is [None] or an [int], as a cell. *)
Definition cell_of_int (x : option Z) : cell :=
  match x with None => NaN | Some z => Num z end.

(** The items of a list when all of them are [str]. *)
Fixpoint str_items (l : list pyval) : option (list string) :=
  match l with
  | [] => Some []
  | PyStr s :: l => cons s <$> str_items l
  | _ => None
  end.

(** [sep.join(v)]: [v] is a list of [str], or a [str] (joined byte by byte
    here, which is Python's result on ASCII text); [TypeError] otherwise. *)
Definition join (sep : string) (v : pyval) : result string :=
  match v with
  | PyList l =>
      match str_items l with
      | Some items => Ok (String.concat sep items)
      | None => Raise TypeError
      end
  | PyStr s =>
      Ok (String.concat sep
            ((λ a, String a EmptyString) <$> list_ascii_of_string s))
  | _ => Raise TypeError
  end.

(** [s.replace(old, new)] for a non-empty [old]: the occurrences of [old] are
    replaced from the left, without overlap; [skip] counts the characters of
    an occurrence still to pass over. *)
Fixpoint replace_from (old new : string) (skip : nat) (s : string) : string :=
  match s with
  | EmptyString => EmptyString
  | String c s' =>
      match skip with
      | S n => replace_from old new n s'
      | O =>
          if String.prefix old s
          then new +:+ replace_from old new (String.length old - 1) s'
          else String c (replace_from old new O s')
      end
  end.

Definition replace (old new s : string) : string := replace_from old new 0 s.

(** The characters [make_delimit_ready] rewrites, as UTF-8 byte strings. *)
Definition utf8 (bytes : list nat) : string :=
  string_of_list_ascii (ascii_of_nat <$> bytes).

Definition left_double_quote : string := utf8 [226; 128; 156].
Definition right_double_quote : string := utf8 [226; 128; 157].
Definition left_single_quote : string := utf8 [226; 128; 152].
Definition right_single_quote : string := utf8 [226; 128; 153].
Definition double_quote : string := utf8 [34].
Definition single_quote : string := utf8 [39].
Definition form_feed : string := utf8 [12].
Definition carriage_return : string := utf8 [13].
Definition line_feed : string := utf8 [10].
Definition backslash : string := utf8 [92].

(** ** The records of the Jira client *)

Record user := { displayName : string }.

Record status_t := { name : string }.

Module Issue.
Record fields_t := {
  summary : option string;
  description : option string;
  priority : option string;
  issuetype : option string;
  status : status_t;
  customfield_10800 : option (list string);
  created : option string;
  duedate : option string;
  lastViewed : option string;
  resolutiondate : option string;
  resolution : option string;
  aggregatetimespent : option Z;
  assignee : option string;
  reporter : option string;
  components : list string;
  labels : list string
}.
Record t := { key : string; fields : fields_t }.
End Issue.

(** A work-log entry or a comment may come without its [author] attribute:
    reading it then raises [AttributeError]. *)
Module Worklog.
Record t := {
  author : option user;
  created : option string;
  started : option string;
  timeSpentSeconds : option Z
}.
End Worklog.

Module Comment.
Record t := {
  author : option user;
  created : option string;
  body : option string
}.
End Comment.

(** [x.author], then [.displayName]. *)
Definition getattr_author (a : option user) : result user :=
  match a with Some u => Ok u | None => Raise AttributeError end.

(** The remote collaborator: [JIRA.search_issues], [JIRA.worklogs] and
    [JIRA.comments]; each call may raise. *)
Record JIRA := {
  search_issues : string → Z → result (list Issue.t);
  worklogs : Issue.t → result (list Worklog.t);
  comments : Issue.t → result (list Comment.t)
}.

(** The libraries the class calls: [dateutil.parser.parse],
    [pyIS.IS_ToolBox.convert_date_string], [os.path.abspath] and the local
    time zone (the offset from UTC, in seconds, at a given instant). *)
Record libraries := {
  dtup_parse : string → result datetime;
  convert_date_string : string → string → string;
  abspath : string → string;
  utcoffset : Z → Z
}.

(** The attributes of an instance that its methods only read. *)
Record jira_project_dataframes := {
  project_key : string;
  jira : JIRA;
  data_directory_path : string
}.

(** A file of the data directory: the frame [pd.read_csv] reads from it and
    the time it was last written, in seconds since the epoch.  The text of
    the file belongs to the persistence layer, and so does what
    [pd.read_csv] makes of it: a file that [to_csv] wrote is taken to hold
    the frame that was written, without its index, although [pd.read_csv]
    infers the types of the columns again (an empty field is read as a
    missing value, a date as its text).  The statements about a stored
    frame are about the frame [pd.read_csv] returns, whatever wrote the
    file. *)
Record File := { content : DataFrame; mtime : Z }.

(** What the methods change: the files of the data directory, the clock, the
    messages printed, the searches sent to the server, and the attributes
    [issues] and [data_part_dataframes]. *)

Record State := {
  files : gmap string File;
  clock : Z;
  log : list string;
  requests : list (string * Z);
  issues : list Issue.t;
  data_part_dataframes : gmap string (option DataFrame)
}.

Definition set_files (f : gmap string File) (s : State) : State :=
  {| files := f; clock := clock s; log := log s; requests := requests s;
     issues := issues s; data_part_dataframes := data_part_dataframes s |}.

Definition set_log (l : list string) (s : State) : State :=
  {| files := files s; clock := clock s; log := l; requests := requests s;
     issues := issues s; data_part_dataframes := data_part_dataframes s |}.

Definition set_requests (r : list (string * Z)) (s : State) : State :=
  {| files := files s; clock := clock s; log := log s; requests := r;
     issues := issues s; data_part_dataframes := data_part_dataframes s |}.

Definition set_issues (i : list Issue.t) (s : State) : State :=
  {| files := files s; clock := clock s; log := log s; requests := requests s;
     issues := i; data_part_dataframes := data_part_dataframes s |}.

Definition set_data_part_dataframes (d : gmap string (option DataFrame))
    (s : State) : State :=
  {| files := files s; clock := clock s; log := log s; requests := requests s;
     issues := issues s; data_part_dataframes := d |}.

(** ** Statements, exceptions and loops *)

(** A computation over a mutable state [S] that returns or raises; what it
    changed before raising stays changed. *)
Definition ST (S A : Type) : Type := S → result A * S.

Global Instance ST_ret {S} : MRet (ST S) := λ A a s, (Ok a, s).
Global Instance ST_bind {S} : MBind (ST S) := λ A B f m s,
  match m s with
  | (Ok a, s') => f a s'
  | (Raise e, s') => (Raise e, s')
  end.

Definition raise {S A} (e : exn) : ST S A := λ s, (Raise e, s).

Definition lift {S A} (r : result A) : ST S A := λ s, (r, s).

Definition modify {S} (f : S → S) : ST S unit := λ s, (Ok (), f s).

Definition gets {S A} (f : S → A) : ST S A := λ s, (Ok (f s), s).

(** [try: m except: h] *)
Definition try_except {S A} (m : ST S A) (h : exn → ST S A) : ST S A := λ s,
  match m s with
  | (Raise e, s') => h e s'
  | r => r
  end.

(** [for x in xs: f(x)] *)
Fixpoint for_ {S A} (xs : list A) (f : A → ST S unit) : ST S unit :=
  match xs with
  | [] => mret ()
  | x :: xs => f x ;; for_ xs f
  end.

(** A local variable that a block of statements mutates: the block runs on
    its own state and hands back the final value. *)
Definition run_local {S L} (init : L) (m : ST L unit) : ST S L := λ s,
  match m init with
  | (Ok _, l) => (Ok l, s)
  | (Raise e, _) => (Raise e, s)
  end.

(** ** Dates: [datetime.fromtimestamp], [timedelta] and [strftime] *)

Record timedelta := { days : Z; seconds : Z }.

(** [date(1970, 1, 1).toordinal()] *)
Definition epoch_ordinal : Z := 719163.

(** [datetime.fromtimestamp(t)]: the naive local time of an instant given in
    seconds since the epoch. *)
Definition fromtimestamp (lib : libraries) (t : Z) : datetime :=
  let local := (t + utcoffset lib t)%Z in
  {| ordinal := (epoch_ordinal + local `div` 86400)%Z;
     second_of_day := (local `mod` 86400)%Z |}.

(** [d + delta] *)
Definition datetime_add (d : datetime) (delta : timedelta) : datetime :=
  let s := (second_of_day d + seconds delta)%Z in
  {| ordinal := (ordinal d + days delta + s `div` 86400)%Z;
     second_of_day := (s `mod` 86400)%Z |}.

Definition days_before_month (month : Z) : Z :=
  match month with
  | 1 => 0 | 2 => 31 | 3 => 59 | 4 => 90 | 5 => 120 | 6 => 151
  | 7 => 181 | 8 => 212 | 9 => 243 | 10 => 273 | 11 => 304 | _ => 334
  end%Z.

Definition days_in_month (month : Z) : Z :=
  match month with
  | 2 => 28
  | 4 | 6 | 9 | 11 => 30
  | _ => 31
  end%Z.

(** The year, month and day of a proleptic Gregorian ordinal, as the
    [datetime] module computes them. *)
Definition ord2ymd (n : Z) : Z * Z * Z :=
  let n := (n - 1)%Z in
  let n400 := (n `div` 146097)%Z in
  let n := (n `mod` 146097)%Z in
  let year := (n400 * 400 + 1)%Z in
  let n100 := (n `div` 36524)%Z in
  let n := (n `mod` 36524)%Z in
  let n4 := (n `div` 1461)%Z in
  let n := (n `mod` 1461)%Z in
  let n1 := (n `div` 365)%Z in
  let n := (n `mod` 365)%Z in
  let year := (year + n100 * 100 + n4 * 4 + n1)%Z in
  if ((n1 =? 4) || (n100 =? 4))%Z then ((year - 1)%Z, 12%Z, 31%Z)
  else
    let leapyear := ((n1 =? 3) && (negb (n4 =? 24) || (n100 =? 3)))%Z in
    let month := ((n + 50) `div` 32)%Z in
    let preceding :=
      (days_before_month month
       + (if (2 <? month)%Z && leapyear then 1 else 0))%Z in
    if (n <? preceding)%Z then
      let month := (month - 1)%Z in
      let preceding :=
        (preceding - (days_in_month month
                      + (if (month =? 2)%Z && leapyear then 1 else 0)))%Z in
      (year, month, (n - preceding + 1)%Z)
    else (year, month, (n - preceding + 1)%Z).

(** A decimal numeral padded with zeros on the left to the given width. *)
Definition zfill (width : nat) (z : Z) : string :=
  let digits := pretty z in
  string_of_list_ascii
    (replicate (width - String.length digits) "0"%char) +:+ digits.

(** [dt.strftime(d, "%Y-%m-%d")] *)
Definition strftime_Ymd (d : datetime) : string :=
  let '(year, month, day) := ord2ymd (ordinal d) in
  zfill 4 year +:+ "-" +:+ zfill 2 month +:+ "-" +:+ zfill 2 day.

(** ** The methods of [jira_project_dataframes] *)

(** [self.data_part_settings], set by [__init__] to the same frame for every
    instance and never changed. *)
Definition data_part_settings : DataFrame :=
  {| columns := ["data_part"; "key_name"; "file_name"];
     index_name := None;
     body :=
       imap (λ i r, (Num (Z.of_nat i), r))
         (zip_with (λ d kf,
              {[ "data_part" := Str d; "key_name" := Str kf.1;
                 "file_name" := Str kf.2 ]})
            ["issues"; "issue_components"; "issue_labels";
             "issue_stakeholders"; "issue_worklogs"; "issue_comments"]
            (zip ["issue_key"; "issue_component_key"; "issue_label_key";
                  "issue_stakeholder_key"; "issue_worklog_id";
                  "issue_comments_id"]
                 ["ISSUES.csv"; "ISSUES_COMPONENTS.csv"; "ISSUES_LABELS.csv";
                  "ISSUES_STAKEHOLDERS.csv"; "ISSUES_WORKLOGS.csv";
                  "ISSUES_COMMENTS.csv"])) |}.

(** [ist.msg(text, ...)]: prints a message. *)
Definition msg (text : string) : ST State unit :=
  modify (λ s, set_log (log s ++ [text]) s).

(** Modelled from the spec: [ist.dataframe_has_rows] of the module
    [pyIS.IS_ToolBox], which is not part of the source tree.  The merge
    takes a side as present when it is "present and non-empty": a frame, not
    [None], with at least one row. *)
Definition dataframe_has_rows (df : option DataFrame) : bool :=
  match df with
  | None => false
  | Some d => (0 <? len d)%nat
  end.

(** A cell used as a [str]. *)
Definition as_str (c : cell) : result string :=
  match c with Str s => Ok s | _ => Raise TypeError end.

(** [df[...]] on a value that may be [None]. *)
Definition subscriptable (df : option DataFrame) : result DataFrame :=
  match df with Some d => Ok d | None => Raise TypeError end.

Section methods.
Variable lib : libraries.

Definition string_to_datetime (x : option string) : result cell :=
  let return_value := Str "" in
  match x with
  | Some s =>
      if truthy_str x then Stamp <$> dtup_parse lib s else Ok return_value
  | None => Ok return_value
  end.

Definition make_delimit_ready (x : option string) : string :=
  let return_value := "" in
  match x with
  | Some x =>
      if truthy_str (Some x) then
        let x := replace left_double_quote double_quote x in
        let x := replace right_double_quote double_quote x in
        let x := replace left_single_quote single_quote x in
        let x := replace right_single_quote single_quote x in
        let x := replace form_feed "_" x in
        let x := replace carriage_return "-" x in
        let x := replace line_feed "-" x in
        replace (backslash +:+ "r") "---"
          (replace (backslash +:+ "r" +:+ backslash +:+ "n") "-"
             (replace right_single_quote single_quote
                (replace left_single_quote single_quote
                   (replace right_double_quote double_quote
                      (replace left_double_quote double_quote x)))))
      else return_value
  | None => return_value
  end.

(** The test [type(value) is None] compares a type object with [None]; no
    statement of the [try] block raises. *)
Definition ifnull (value null_value : pyval) : pyval :=
  let return_value := null_value in
  if is_None (type_ value) then value else null_value.

(** [df['data_part'] == data_part_name] *)
Definition eq_mask (xs : list cell) (v : cell) : list bool :=
  (λ x, bool_decide (x = v)) <$> xs.

Definition get_data_part_element (data_part_name element_name : string)
  : result cell :=
  flags ← getitem data_part_settings "data_part";
  data_part ← getitem
    (select data_part_settings (eq_mask flags (Str data_part_name)))
    element_name;
  match data_part with
  | [] => Raise IndexError
  | v :: _ => Ok v
  end.

(** [pd.read_csv(file_path)]: the frame the file holds, [FileNotFoundError]
    without the file.  (A file holds a frame here; the passes write no file
    without columns, which [pd.read_csv] would refuse.) *)
Definition read_csv (file_path : string) : ST State DataFrame := λ s,
  match files s !! file_path with
  | Some f => (Ok (content f), s)
  | None => (Raise FileNotFoundError, s)
  end.

Definition file_to_dataframe (file_path : string)
  : ST State (option DataFrame) :=
  try_except (return_df ← read_csv file_path; mret (Some return_df))
    (λ e, match e with
          | FileNotFoundError =>
              msg ("file_to_dataframe(): data file was not found: '"
                   +:+ file_path +:+ "'");;
              mret None
          | _ => raise e
          end).

Definition get_file_path_for_data_part (self : jira_project_dataframes)
    (data_part_name : string) : string :=
  match get_data_part_element data_part_name "file_name" ≫= as_str with
  | Ok element =>
      let file_name := project_key self +:+ "_" +:+ element in
      abspath lib (data_directory_path self +:+ "/" +:+ file_name)
  | Raise _ => ""
  end.

Definition get_issues_file_mod_date (self : jira_project_dataframes)
  : ST State pyval :=
  let file_path := get_file_path_for_data_part self "issues" in
  let date_string := "" in
  f ← gets (λ s, files s !! file_path);
  match f with
  | Some f =>
      let timestamp_modified_on := mtime f in
      let date_modified_on := fromtimestamp lib timestamp_modified_on in
      let date_modified_on :=
        datetime_add date_modified_on {| days := -1; seconds := 0 |} in
      let date_string := strftime_Ymd date_modified_on in
      mret (PyStr date_string)
  | None => mret (PyStr date_string)
  end.

Definition retrieve_issues (self : jira_project_dataframes) (jql : string)
    (max_results : Z) : ST State (list Issue.t) :=
  modify (λ s, set_requests (requests s ++ [(jql, max_results)]) s);;
  issues ← lift (search_issues (jira self) jql max_results);
  modify (set_issues issues);;
  msg (pretty (length issues) +:+ " issues retrieved");;
  mret issues.

Definition retrieve_latest_issues (self : jira_project_dataframes)
    (min_updated_date : string) : ST State (list Issue.t) :=
  let min_updated_date := convert_date_string lib min_updated_date "%F" in
  let jql :=
    "(project = " +:+ project_key self +:+ ") and (updatedDate >= "
    +:+ min_updated_date +:+ " or worklogDate >= " +:+ min_updated_date
    +:+ ")" in
  retrieve_issues self jql 0.

(** [return_dataframe.loc[i, c] = v] *)
Definition loc (i : cell) (c : string) (v : cell) : ST DataFrame unit :=
  modify (loc_set i c v).

(** [i = len(return_dataframe) + 1] *)
Definition next_label : ST DataFrame cell :=
  gets (λ df, Num (Z.of_nat (len df) + 1)).

(** The value of the custom field, [None] or a list of names, as a Python
    value. *)
Definition pyval_of_names (x : option (list string)) : pyval :=
  match x with None => PyNone | Some l => PyList (PyStr <$> l) end.

(** The body of the loop over the issues, for the [issues] table. *)
Definition issues_row (issue : Issue.t) : ST DataFrame unit :=
  let f := Issue.fields issue in
  i ← next_label;
  loc i "issue_key" (Str (Issue.key issue));;
  loc i "summary" (cell_of_str (Issue.summary f));;
  loc i "description" (Str (make_delimit_ready (Issue.description f)));;
  loc i "priority" (Str (str (Issue.priority f)));;
  loc i "issue_type" (Str (str (Issue.issuetype f)));;
  loc i "status" (Str (name (Issue.status f)));;
  stakeholders ← lift
    (join ","
       (ifnull (pyval_of_names (Issue.customfield_10800 f))
          (PyList [PyStr ""])));
  loc i "stakeholders" (Str stakeholders);;
  create_date ← lift (string_to_datetime (Issue.created f));
  loc i "create_date" create_date;;
  due_date ← lift (string_to_datetime (Issue.duedate f));
  loc i "due_date" due_date;;
  last_viewed ← lift (string_to_datetime (Issue.lastViewed f));
  loc i "last_viewed" last_viewed;;
  resolution_date ← lift (string_to_datetime (Issue.resolutiondate f));
  loc i "resolution_date" resolution_date;;
  loc i "resolution" (Str (str (Issue.resolution f)));;
  loc i "total_seconds_spent" (cell_of_int (Issue.aggregatetimespent f));;
  loc i "assignee" (Str (str (Issue.assignee f)));;
  loc i "reporter" (Str (str (Issue.reporter f)));;
  loc i "components" (Str (String.concat "," (Issue.components f)));;
  loc i "labels" (Str (String.concat "," (Issue.labels f))).

Definition issues_part (issues : list Issue.t) : ST DataFrame unit :=
  for_ issues issues_row.

Definition issue_components_part (issues : list Issue.t)
  : ST DataFrame unit :=
  for_ issues (λ issue,
    for_ (Issue.components (Issue.fields issue)) (λ component,
      i ← next_label;
      loc i "issue_component_key" i;;
      loc i "issue_key" (Str (Issue.key issue));;
      loc i "component" (Str (make_delimit_ready (Some component))))).

Definition issue_stakeholders_part (issues : list Issue.t)
  : ST DataFrame unit :=
  for_ issues (λ issue,
    let customfield := Issue.customfield_10800 (Issue.fields issue) in
    if truthy (pyval_of_names customfield) then
      for_ (default [] customfield) (λ stakeholder,
        i ← next_label;
        loc i "issue_stakeholder_key" i;;
        loc i "issue_key" (Str (Issue.key issue));;
        loc i "stakeholder" (Str (make_delimit_ready (Some stakeholder))))
    else mret ()).

Definition issue_labels_part (issues : list Issue.t) : ST DataFrame unit :=
  for_ issues (λ issue,
    for_ (Issue.labels (Issue.fields issue)) (λ label,
      i ← next_label;
      loc i "issue_label_key" i;;
      loc i "issue_key" (Str (Issue.key issue));;
      loc i "label" (Str (make_delimit_ready (Some label))))).

Definition issue_worklogs_part (self : jira_project_dataframes)
    (issues : list Issue.t) : ST DataFrame unit :=
  for_ issues (λ issue,
    logs ← lift (worklogs (jira self) issue);
    for_ logs (λ worklog,
      i ← next_label;
      loc i "issue_worklog_id" i;;
      loc i "issue_key" (Str (Issue.key issue));;
      author ← lift (getattr_author (Worklog.author worklog));
      loc i "author" (Str (displayName author));;
      created ← lift (string_to_datetime (Worklog.created worklog));
      loc i "created" created;;
      started ← lift (string_to_datetime (Worklog.started worklog));
      loc i "started" started;;
      loc i "seconds_spent" (cell_of_int (Worklog.timeSpentSeconds worklog)))).

(** The body of the loop over the comments of an issue. *)
Definition issue_comment_row (issue : Issue.t) (comment : Comment.t)
  : ST DataFrame unit :=
  i ← next_label;
  try_except
    (loc i "issue_comments_id" i;;
     loc i "issue_key" (Str (Issue.key issue));;
     author ← lift (getattr_author (Comment.author comment));
     loc i "author" (Str (displayName author));;
     created ← lift (string_to_datetime (Comment.created comment));
     loc i "created" created;;
     loc i "body_text" (Str (make_delimit_ready (Comment.body comment))))
    (λ e,
       match e with
       | AttributeError =>
           loc i "issue_comments_id" i;;
           loc i "issue_key" (Str (Issue.key issue));;
           loc i "author" (Str "Unknown");;
           created ← lift (string_to_datetime (Comment.created comment));
           loc i "created" created;;
           loc i "body_text" (Str (make_delimit_ready (Comment.body comment)))
       | _ => raise e
       end).

Definition issue_comments_part (self : jira_project_dataframes)
    (issues : list Issue.t) : ST DataFrame unit :=
  for_ issues (λ issue,
    remarks ← lift (comments (jira self) issue);
    for_ remarks (issue_comment_row issue)).

Definition data_part_to_dataframe (self : jira_project_dataframes)
    (issues : list Issue.t) (data_part_name : string) : ST State DataFrame :=
  return_dataframe ← run_local empty_frame
    (if decide (data_part_name = "issues") then issues_part issues
     else if decide (data_part_name = "issue_components")
     then issue_components_part issues
     else if decide (data_part_name = "issue_stakeholders")
     then issue_stakeholders_part issues
     else if decide (data_part_name = "issue_labels")
     then issue_labels_part issues
     else if decide (data_part_name = "issue_worklogs")
     then issue_worklogs_part self issues
     else if decide (data_part_name = "issue_comments")
     then issue_comments_part self issues
     else raise (ValueError ("The data_part_name given: '" +:+ data_part_name
                    +:+ "' does not have a dataframe definition.")));
  msg (pretty (len return_dataframe) +:+ " records converted for "
       +:+ data_part_name);;
  mret return_dataframe.

Definition update_dataframe (existing_df updated_df : option DataFrame)
    (key_column : string) : ST State (option DataFrame) :=
  let return_df := None in
  let existing := dataframe_has_rows existing_df in
  let updated := dataframe_has_rows updated_df in
  if updated && existing then
    lift (
      updated_df ← subscriptable updated_df;
      issue_keys ← list_set <$> getitem updated_df "issue_key";
      existing_df ← subscriptable existing_df;
      modified ← isin issue_keys <$> getitem existing_df "issue_key";
      let existing_df := select existing_df (invert modified) in
      let return_df := concat updated_df existing_df in
      return_df ← drop_duplicates key_column return_df;
      return_df ← sort_values key_column return_df;
      return_df ← set_index key_column return_df;
      return_df ← reset_index return_df;
      mret (Some return_df))
  else if updated && negb existing then
    msg ("updated_dataframe(): missing existing dataframe; "
         +:+ "returning updated dataframe");;
    mret updated_df
  else if negb updated && existing then
    msg ("updated_dataframe(): missing updated dataframe; "
         +:+ "returning existing dataframe");;
    mret existing_df
  else
    msg ("update_dataframe(): there is neither an existing nor "
         +:+ "updated dataframe passed");;
    mret return_df.

(** The frame a file holds once written with [index=False] and read back:
    the index is not stored, so the rows are labelled 0, 1, 2, ... *)
Definition without_index (df : DataFrame) : DataFrame :=
  {| columns := columns df;
     index_name := None;
     body := imap (λ i p, (Num (Z.of_nat i), p.2)) (body df) |}.

(** [final_df.to_csv(file_path, index=False)]; [None] has no such method. *)
Definition to_csv (final_df : option DataFrame) (file_path : string)
  : ST State unit :=
  match final_df with
  | None => raise AttributeError
  | Some df =>
      modify (λ s,
        set_files
          (<[file_path := {| content := without_index df; mtime := clock s |}]>
             (files s)) s)
  end.

Definition refresh_data_part (self : jira_project_dataframes)
    (data_part_name : string) (issues : list Issue.t)
  : ST State (option DataFrame) :=
  let file_path := get_file_path_for_data_part self data_part_name in
  key_name ← lift (get_data_part_element data_part_name "key_name" ≫= as_str);
  updated_df ← data_part_to_dataframe self issues data_part_name;
  existing_df ← file_to_dataframe file_path;
  final_df ← update_dataframe existing_df (Some updated_df) key_name;
  modify (λ s,
    set_data_part_dataframes
      (<[data_part_name := final_df]> (data_part_dataframes s)) s);;
  to_csv final_df file_path;;
  mret final_df.

(** [self.data_part_settings['data_part'].to_list()] *)
Definition data_parts : result (list string) :=
  getitem data_part_settings "data_part" ≫= mapM as_str.

Definition get_project_data (self : jira_project_dataframes)
    (from_date : pyval) : ST State bool :=
  (if negb (truthy (PyStr (project_key self))) then
     raise (ValueError ("A project_key is required to refresh the project "
              +:+ "information. Update the project_key attribute and rerun."))
   else mret ());;
  msg "###################################################";;
  msg "Begin updating issues...";;
  from_date ←
    (if is_None from_date then
       msg "No update_date given, using file modified date instead";;
       get_issues_file_mod_date self
     else mret from_date);
  issues ←
    (if negb (truthy from_date) then
       msg "No issues file found.  Retrieving all issues for the project.";;
       retrieve_issues self ("project=" +:+ project_key self) 0
     else
       date ← lift (match from_date with
                    | PyStr s => Ok s
                    | _ => Raise TypeError
                    end);
       msg ("Retrieving issues modified on or after: " +:+ date);;
       retrieve_latest_issues self date);
  parts ← lift data_parts;
  for_ parts (λ data_part,
    msg ("Updating data_part " +:+ data_part);;
    refresh_data_part self data_part issues;;
    mret ());;
  msg "Issue Information update completed...";;
  msg "###################################################";;
  mret true.

End methods.

(** * Notions the statements use *)

(** The order of cells as a relation. *)
Definition cell_le (a b : cell) : Prop := cell_leb a b = true.

Global Instance cell_le_dec a b : Decision (cell_le a b).
Proof. unfold cell_le. apply _. Defined.

(** The order of rows by a key column. *)
Definition row_le (k : string) (r1 r2 : gmap string cell) : Prop :=
  cell_leb (cell_at k r1) (cell_at k r2) = true.

(** The key of a labelled row. *)
Definition key_of (k : string) (p : cell * gmap string cell) : cell :=
  cell_at k p.2.

(** The parents a frame refers to: the values of its [issue_key] column. *)
Definition parents (df : DataFrame) : list cell :=
  cell_at "issue_key" <$> rows df.

(** The rows of the existing frame whose parent is not among those of the
    updated frame. *)
Definition retained (u e : DataFrame) : list (cell * gmap string cell) :=
  filter (λ p, cell_at "issue_key" p.2 ∉ parents u) (body e).

(** The rows of both frames on the columns of the concatenation. *)
Definition stacked (u e : DataFrame) : list (cell * gmap string cell) :=
  prod_map id (reindex (union_columns (columns u) (columns e)))
    <$> (body u ++ retained u e).

(** The rows of the merge, before they are labelled again. *)
Definition merged (k : string) (u e : DataFrame)
  : list (cell * gmap string cell) :=
  merge_sort (key_le k) (keep_first k [] (stacked u e)).

(** The frame the merge returns. *)
Definition merge_frame (k : string) (u e : DataFrame) : DataFrame :=
  {| columns :=
       k :: filter (λ c, c ≠ k) (union_columns (columns u) (columns e));
     index_name := None;
     body := imap (λ i p, (Num (Z.of_nat i), p.2)) (merged k u e) |}.

(** The conditions under which no statement of the merge raises. *)
Definition mergeable (k : string) (u e : DataFrame) : Prop :=
  "issue_key" ∈ columns u ∧ "issue_key" ∈ columns e ∧
  k ∈ union_columns (columns u) (columns e) ∧
  comparable (key_of k <$> keep_first k [] (stacked u e)) = true.

(** A frame whose last row is labelled [i]. *)
Definition snoc_frame (cols : list string)
    (old : list (cell * gmap string cell)) (i : cell)
    (r : gmap string cell) : DataFrame :=
  {| columns := cols; index_name := None; body := old ++ [(i, r)] |}.

(** The columns after [df.loc[i, c] = v]. *)
Definition with_column (cols : list string) (c : string) : list string :=
  if decide (c ∈ cols) then cols else cols ++ [c].

Definition comment_columns : list string :=
  ["issue_comments_id"; "issue_key"; "author"; "created"; "body_text"].

(** The author a comment is recorded under. *)
Definition comment_author (comment : Comment.t) : string :=
  match Comment.author comment with
  | Some a => displayName a
  | None => "Unknown"
  end.

(** The comments of a list of issues, each with its issue, in the order the
    normaliser meets them. *)
Definition comments_of (self : jira_project_dataframes)
    (issues : list Issue.t) : list (Issue.t * Comment.t) :=
  issue ← issues;
  match comments (jira self) issue with
  | Ok remarks => pair issue <$> remarks
  | Raise _ => []
  end.

(** The row of the [n]-th comment (counting from 0). *)
Definition comment_row (lib : libraries) (n : nat) (e : Issue.t * Comment.t)
  : gmap string cell :=
  {[ "issue_comments_id" := Num (Z.of_nat n + 1);
     "issue_key" := Str (Issue.key e.1);
     "author" := Str (comment_author e.2);
     "created" :=
       match string_to_datetime lib (Comment.created e.2) with
       | Ok d => d
       | Raise _ => NaN
       end;
     "body_text" := Str (make_delimit_ready (Comment.body e.2)) ]}.

(** The frame of a list of comments. *)
Definition comments_frame (lib : libraries)
    (es : list (Issue.t * Comment.t)) : DataFrame :=
  {| columns := match es with [] => [] | _ => comment_columns end;
     index_name := None;
     body := imap (λ n e, (Num (Z.of_nat n + 1), comment_row lib n e)) es |}.

(** The dates of the comments can be read. *)
Definition readable (lib : libraries)
    (es : list (Issue.t * Comment.t)) : Prop :=
  ∀ e, e ∈ es → ∃ d, string_to_datetime lib (Comment.created e.2) = Ok d.


(** The cell of a date field that can be read. *)
Definition date_cell (lib : libraries) (x : option string) : cell :=
  match string_to_datetime lib x with
  | Ok d => d
  | Raise _ => NaN
  end.






(** A computation that sends no search to the server. *)
Definition quiet {A} (m : ST State A) : Prop :=
  ∀ s, requests (m s).2 = requests s.

(** The day before the local day of an instant, as an ordinal. *)
Definition watermark_day (lib : libraries) (t : Z) : Z :=
  (epoch_ordinal + (t + utcoffset lib t) `div` 86400 - 1)%Z.

(** The date of an ordinal in the form year-month-day. *)
Definition day_string (n : Z) : string :=
  strftime_Ymd {| ordinal := n; second_of_day := 0 |}.

(** The search for every issue of the project. *)
Definition full_query (self : jira_project_dataframes) : string :=
  "project=" +:+ project_key self.

(** The search for the issues updated or worked on since a date. *)
Definition incremental_query (lib : libraries)
    (self : jira_project_dataframes) (date : string) : string :=
  "(project = " +:+ project_key self +:+ ") and (updatedDate >= "
  +:+ convert_date_string lib date "%F" +:+ " or worklogDate >= "
  +:+ convert_date_string lib date "%F" +:+ ")".

(** What the watermark is, and which search it leads to. *)
Definition watermark (lib : libraries) (self : jira_project_dataframes)
    (s : State) : string :=
  match files s !! get_file_path_for_data_part lib self "issues" with
  | None => ""
  | Some f => day_string (watermark_day lib (mtime f))
  end.

(** The tables in the order of the registry. *)
Definition tables : list string :=
  ["issues"; "issue_components"; "issue_labels"; "issue_stakeholders";
   "issue_worklogs"; "issue_comments"].

(** The statements of [get_project_data] before the loop: they check the
    project key, find the watermark and fetch the issues. *)
Definition before_tables (lib : libraries) (self : jira_project_dataframes)
    (from_date : pyval) : ST State (list Issue.t) :=
  (if negb (truthy (PyStr (project_key self))) then
     raise (ValueError ("A project_key is required to refresh the project "
              +:+ "information. Update the project_key attribute and rerun."))
   else mret ());;
  msg "###################################################";;
  msg "Begin updating issues...";;
  from_date ←
    (if is_None from_date then
       msg "No update_date given, using file modified date instead";;
       get_issues_file_mod_date lib self
     else mret from_date);
  if negb (truthy from_date) then
    msg "No issues file found.  Retrieving all issues for the project.";;
    retrieve_issues self ("project=" +:+ project_key self) 0
  else
    date ← lift (match from_date with
                 | PyStr s => Ok s
                 | _ => Raise TypeError
                 end);
    msg ("Retrieving issues modified on or after: " +:+ date);;
    retrieve_latest_issues lib self date.

(** The body of the loop. *)
Definition table_step (lib : libraries) (self : jira_project_dataframes)
    (issues : list Issue.t) (data_part : string) : ST State unit :=
  msg ("Updating data_part " +:+ data_part);;
  refresh_data_part lib self data_part issues;;
  mret ().

(** The statements after the loop. *)
Definition after_tables : ST State bool :=
  msg "Issue Information update completed...";;
  msg "###################################################";;
  mret true.

(** ** The texts [make_delimit_ready] replaces *)

(** [t in s]: the text [t] occurs in [s]. *)
Fixpoint occurs (t s : string) : bool :=
  String.prefix t s
  || match s with
     | EmptyString => false
     | String _ s' => occurs t s'
     end.

(** Two texts that share no character. *)
Definition apart (t new : string) : bool :=
  forallb (λ c, negb (existsb (Ascii.eqb c) (list_ascii_of_string new)))
    (list_ascii_of_string t).

(** The texts [make_delimit_ready] replaces: the four curly quotes, the form
    feed, the carriage return, the line feed, and the two-character and
    four-character escapes written with a backslash. *)
Definition rewritten : list string :=
  [left_double_quote; right_double_quote; left_single_quote;
   right_single_quote; form_feed; carriage_return; line_feed;
   backslash +:+ "r" +:+ backslash +:+ "n"; backslash +:+ "r"].

(** ** The child tables *)

(** The items of a child table: the items of every issue, each with the key
    of its issue, in the order the normaliser meets them. *)
Definition items_of (items : Issue.t → list string) (issues : list Issue.t)
  : list (string * string) :=
  issue ← issues; pair (Issue.key issue) <$> items issue.

(** The row of the [n]-th item (counting from 0) of a child table with the
    key column [kc] and the value column [vc]. *)
Definition child_row (kc vc : string) (n : nat) (e : string * string)
  : gmap string cell :=
  <[vc := Str (make_delimit_ready (Some e.2))]>
    (<["issue_key" := Str e.1]> {[ kc := Num (Z.of_nat n + 1) ]}).

(** The frame of a list of items. *)
Definition child_frame (kc vc : string) (es : list (string * string))
  : DataFrame :=
  {| columns := match es with [] => [] | _ => [kc; "issue_key"; vc] end;
     index_name := None;
     body := imap (λ n e, (Num (Z.of_nat n + 1), child_row kc vc n e)) es |}.

(** The body of the loops over the components, the stakeholders and the
    labels of an issue. *)
Definition child_step (kc vc issue_key item : string) : ST DataFrame unit :=
  i ← next_label;
  loc i kc i;;
  loc i "issue_key" (Str issue_key);;
  loc i vc (Str (make_delimit_ready (Some item))).

(** The stakeholders of an issue: the names of the custom field, none when
    the field is [None]. *)
Definition stakeholders_of (issue : Issue.t) : list string :=
  default [] (Issue.customfield_10800 (Issue.fields issue)).

(** ** The table of the work-log *)

Definition worklog_columns : list string :=
  ["issue_worklog_id"; "issue_key"; "author"; "created"; "started";
   "seconds_spent"].

(** The work-log entries of a list of issues, each with its issue, in the
    order the normaliser meets them. *)
Definition worklogs_of (self : jira_project_dataframes)
    (issues : list Issue.t) : list (Issue.t * Worklog.t) :=
  issue ← issues;
  match worklogs (jira self) issue with
  | Ok logs => pair issue <$> logs
  | Raise _ => []
  end.

(** The row of the [n]-th work-log entry (counting from 0); only an entry
    with an author gets a row. *)
Definition worklog_row (lib : libraries) (n : nat) (e : Issue.t * Worklog.t)
  : gmap string cell :=
  list_to_map
    [("issue_worklog_id", Num (Z.of_nat n + 1));
     ("issue_key", Str (Issue.key e.1));
     ("author", Str (from_option displayName "" (Worklog.author e.2)));
     ("created", date_cell lib (Worklog.created e.2));
     ("started", date_cell lib (Worklog.started e.2));
     ("seconds_spent", cell_of_int (Worklog.timeSpentSeconds e.2))].

(** The frame of a list of work-log entries. *)
Definition worklogs_frame (lib : libraries)
    (es : list (Issue.t * Worklog.t)) : DataFrame :=
  {| columns := match es with [] => [] | _ => worklog_columns end;
     index_name := None;
     body := imap (λ n e, (Num (Z.of_nat n + 1), worklog_row lib n e)) es |}.

(** The two dates of a work-log entry can be read. *)
Definition timed (lib : libraries) (e : Issue.t * Worklog.t) : Prop :=
  (∃ d, string_to_datetime lib (Worklog.created e.2) = Ok d)
  ∧ (∃ d, string_to_datetime lib (Worklog.started e.2) = Ok d).

(** The body of the loop over the work-log entries of an issue. *)
Definition worklog_step (lib : libraries) (e : Issue.t * Worklog.t)
  : ST DataFrame unit :=
  i ← next_label;
  loc i "issue_worklog_id" i;;
  loc i "issue_key" (Str (Issue.key e.1));;
  author ← lift (getattr_author (Worklog.author e.2));
  loc i "author" (Str (displayName author));;
  created ← lift (string_to_datetime lib (Worklog.created e.2));
  loc i "created" created;;
  started ← lift (string_to_datetime lib (Worklog.started e.2));
  loc i "started" started;;
  loc i "seconds_spent" (cell_of_int (Worklog.timeSpentSeconds e.2)).

(** ** The merge, the refresh and the pass *)

(** [len(df)] of a frame that may be [None], counting [None] as empty. *)
Definition len_or_0 (df : option DataFrame) : nat := from_option len 0 df.

(** A computation whose final state is related to its initial state by [R],
    whether it returns or raises. *)
Definition steps {A} (R : State → State → Prop) (m : ST State A) : Prop :=
  ∀ s, R s (m s).2.

(** Two states that differ in the messages printed only, the second having
    those of the first and possibly more. *)
Definition only_printed (s s' : State) : Prop :=
  files s' = files s ∧ clock s' = clock s ∧ requests s' = requests s
  ∧ issues s' = issues s ∧ data_part_dataframes s' = data_part_dataframes s
  ∧ log s `prefix_of` log s'.

(** Two states of which the second has, beside new messages, searches and
    issues, changed at most the files at [paths] and the frames stored under
    [names], and still has every file the first has. *)
Definition touches (paths names : list string) (s s' : State) : Prop :=
  (∀ p, p ∉ paths → files s' !! p = files s !! p)
  ∧ (∀ p, is_Some (files s !! p) → is_Some (files s' !! p))
  ∧ (∀ d, d ∉ names →
       data_part_dataframes s' !! d = data_part_dataframes s !! d)
  ∧ clock s' = clock s
  ∧ log s `prefix_of` log s'.

(** Two states with the same clock, of which the second has the file at [p]
    stamped with the clock when the first has. *)
Definition stamped (p : string) (s s' : State) : Prop :=
  clock s' = clock s
  ∧ ((∃ f, files s !! p = Some f ∧ mtime f = clock s) →
     ∃ f, files s' !! p = Some f ∧ mtime f = clock s').

(** Two states of which the second has every file of the first, with the
    same columns and the same rows. *)
Definition same_rows (s s' : State) : Prop :=
  ∀ p f, files s !! p = Some f →
    ∃ f', files s' !! p = Some f'
          ∧ columns (content f') = columns (content f)
          ∧ rows (content f') = rows (content f).

(** A state in which every table has a file with rows. *)
Definition all_stored (lib : libraries) (self : jira_project_dataframes)
    (s : State) : Prop :=
  ∀ d, d ∈ tables →
    ∃ f, files s !! get_file_path_for_data_part lib self d = Some f
         ∧ dataframe_has_rows (Some (content f)) = true.

(** * Values to run the methods on *)

(** A state with no files, no messages and no requests. *)
Definition no_files : State :=
  {| files := ∅; clock := 0; log := []; requests := []; issues := [];
     data_part_dataframes := ∅ |}.

(** A frame of the [issue_components] table. *)
Definition component_row (key : Z) (issue component : string)
  : gmap string cell :=
  {[ "issue_component_key" := Num key; "issue_key" := Str issue;
     "component" := Str component ]}.

Definition components_frame (l : list (gmap string cell)) : DataFrame :=
  {| columns := ["issue_component_key"; "issue_key"; "component"];
     index_name := None;
     body := imap (λ i r, (Num (Z.of_nat i), r)) l |}.

(** A frame of the [issues] table, with two of its columns. *)
Definition issue_row (issue summary : string) : gmap string cell :=
  {[ "issue_key" := Str issue; "summary" := Str summary ]}.

Definition issues_frame (l : list (gmap string cell)) : DataFrame :=
  {| columns := ["issue_key"; "summary"];
     index_name := None;
     body := imap (λ i r, (Num (Z.of_nat i), r)) l |}.

(** The stored components of the issues Q and P, an update for P that was
    keyed 1, 2 by its own pass, and their merge. *)
Definition stored_components : DataFrame :=
  components_frame [component_row 1 "Q" "ui"; component_row 2 "P" "db";
                    component_row 5 "Q" "api"].

Definition updated_components : DataFrame :=
  components_frame [component_row 1 "P" "db"; component_row 2 "P" "cache"].

Definition merged_components : DataFrame :=
  components_frame [component_row 1 "P" "db"; component_row 2 "P" "cache";
                    component_row 5 "Q" "api"].

(** The issues of a first pass, as the server lists them, and the same
    issues in the order of their keys. *)
Definition fetched_issues : DataFrame :=
  issues_frame [issue_row "DEMO-2" "second"; issue_row "DEMO-1" "first"].

Definition sorted_issues : DataFrame :=
  issues_frame [issue_row "DEMO-1" "first"; issue_row "DEMO-2" "second"].

(** A date parser that knows the one timestamp of the examples. *)
Definition demo_lib : libraries :=
  {| dtup_parse := λ s,
       if String.prefix "2019-10-15" s
       then Ok {| ordinal := 737347; second_of_day := 32400 |}
       else Raise ParserError;
     convert_date_string := λ s _, s;
     abspath := λ path, path;
     utcoffset := λ _, 0%Z |}.

Definition demo_fields : Issue.fields_t :=
  {| Issue.summary := Some "Login fails";
     Issue.description := Some "Steps to reproduce";
     Issue.priority := Some "High";
     Issue.issuetype := Some "Bug";
     Issue.status := {| name := "Open" |};
     Issue.customfield_10800 := Some ["Alice"; "Bob"];
     Issue.created := Some "2019-10-15T09:00:00";
     Issue.duedate := None;
     Issue.lastViewed := None;
     Issue.resolutiondate := None;
     Issue.resolution := None;
     Issue.aggregatetimespent := Some 3600%Z;
     Issue.assignee := Some "Carol";
     Issue.reporter := Some "Dave";
     Issue.components := ["ui"; "db"];
     Issue.labels := ["bug"] |}.

Definition demo_issue : Issue.t :=
  {| Issue.key := "DEMO-1"; Issue.fields := demo_fields |}.

(** The same issue without components. *)
Definition plain_issue : Issue.t :=
  {| Issue.key := "DEMO-1";
     Issue.fields :=
       {| Issue.summary := Some "Login fails";
          Issue.description := Some "Steps to reproduce";
          Issue.priority := Some "High";
          Issue.issuetype := Some "Bug";
          Issue.status := {| name := "Open" |};
          Issue.customfield_10800 := Some ["Alice"; "Bob"];
          Issue.created := Some "2019-10-15T09:00:00";
          Issue.duedate := None;
          Issue.lastViewed := None;
          Issue.resolutiondate := None;
          Issue.resolution := None;
          Issue.aggregatetimespent := Some 3600%Z;
          Issue.assignee := Some "Carol";
          Issue.reporter := Some "Dave";
          Issue.components := [];
          Issue.labels := ["bug"] |} |}.

Definition demo_worklog : Worklog.t :=
  {| Worklog.author := Some {| displayName := "Carol" |};
     Worklog.created := Some "2019-10-15T09:00:00";
     Worklog.started := Some "2019-10-15T09:00:00";
     Worklog.timeSpentSeconds := Some 3600%Z |}.

Definition signed_comment : Comment.t :=
  {| Comment.author := Some {| displayName := "Dave" |};
     Comment.created := Some "2019-10-15T09:00:00";
     Comment.body := Some "Seen on the test server" |}.

(** A comment that arrived by e-mail and has no author. *)
Definition anonymous_comment : Comment.t :=
  {| Comment.author := None;
     Comment.created := Some "2019-10-15T09:00:00";
     Comment.body := Some "Me too" |}.

(** A server with one issue, one work-log entry and two comments. *)
Definition demo_jira (issue : Issue.t) : JIRA :=
  {| search_issues := λ _ _, Ok [issue];
     worklogs := λ _, Ok [demo_worklog];
     comments := λ _, Ok [signed_comment; anonymous_comment] |}.

(** A server whose work-log request fails. *)
Definition failing_jira : JIRA :=
  {| search_issues := λ _ _, Ok [demo_issue];
     worklogs := λ _, Raise JIRAError;
     comments := λ _, Ok [signed_comment; anonymous_comment] |}.

Definition demo (server : JIRA) : jira_project_dataframes :=
  {| project_key := "DEMO"; jira := server;
     data_directory_path := "/data/DEMO" |}.

(** A data directory whose [issues] file was written on 15 October 2019 at
    noon (UTC). *)
Definition synced : State :=
  {| files :=
       {[ "/data/DEMO/DEMO_ISSUES.csv" :=
            {| content := sorted_issues; mtime := 1571140800 |} ]};
     clock := 1571227200; log := []; requests := []; issues := [];
     data_part_dataframes := ∅ |}.

(** A work-log entry without an author. *)
Definition anonymous_worklog : Worklog.t :=
  {| Worklog.author := None;
     Worklog.created := Some "2019-10-15T09:00:00";
     Worklog.started := Some "2019-10-15T09:00:00";
     Worklog.timeSpentSeconds := Some 600%Z |}.

(** A server whose work-log holds such an entry. *)
Definition anonymous_jira : JIRA :=
  {| search_issues := λ _ _, Ok [demo_issue];
     worklogs := λ _, Ok [demo_worklog; anonymous_worklog];
     comments := λ _, Ok [signed_comment; anonymous_comment] |}.

(** A server that rejects every search. *)
Definition closed_jira : JIRA :=
  {| search_issues := λ _ _, Raise JIRAError;
     worklogs := λ _, Ok [];
     comments := λ _, Ok [] |}.

(** An instance without a project key. *)
Definition keyless : jira_project_dataframes :=
  {| project_key := ""; jira := demo_jira demo_issue;
     data_directory_path := "/data/DEMO" |}.

(** A server that finds no issue. *)
Definition idle_jira : JIRA :=
  {| search_issues := λ _ _, Ok [];
     worklogs := λ _, Ok [];
     comments := λ _, Ok [] |}.

(** The data directory after a first pass over one issue. *)
Definition filled : State :=
  (get_project_data demo_lib (demo (demo_jira demo_issue)) PyNone no_files).2.

(** A second issue, with two components of its own. *)
Definition second_issue : Issue.t :=
  {| Issue.key := "DEMO-2";
     Issue.fields :=
       {| Issue.summary := Some "Slow search";
          Issue.description := Some "The search page takes a minute";
          Issue.priority := Some "Low";
          Issue.issuetype := Some "Task";
          Issue.status := {| name := "Open" |};
          Issue.customfield_10800 := Some ["Erin"];
          Issue.created := Some "2019-10-15T09:00:00";
          Issue.duedate := None;
          Issue.lastViewed := None;
          Issue.resolutiondate := None;
          Issue.resolution := None;
          Issue.aggregatetimespent := Some 600%Z;
          Issue.assignee := Some "Carol";
          Issue.reporter := Some "Erin";
          Issue.components := ["cache"; "api"];
          Issue.labels := ["speed"] |} |}.

(** A server with the issues DEMO-1 and DEMO-2, of which only DEMO-2 was
    updated of late: the search for the whole project lists both, the search
    from a date lists DEMO-2 alone. *)
Definition busy_jira : JIRA :=
  {| search_issues := λ jql _,
       if String.prefix "project=" jql then Ok [demo_issue; second_issue]
       else Ok [second_issue];
     worklogs := λ _, Ok [demo_worklog];
     comments := λ _, Ok [signed_comment; anonymous_comment] |}.

(** The data directory after a first pass on that server, and after the pass
    that follows it. *)
Definition first_pass : State :=
  (get_project_data demo_lib (demo busy_jira) PyNone no_files).2.

Definition second_pass : State :=
  (get_project_data demo_lib (demo busy_jira) PyNone first_pass).2.

(** * Properties *)

(** ** The order of keys *)

Lemma cell_leb_total a b : cell_leb a b = true ∨ cell_leb b a = true.
Proof.
  destruct a as [|x|s|d], b as [|y|t|e]; simpl; auto.
  - destruct (Z.leb_spec x y); auto. right. apply Z.leb_le. lia.
  - apply String.leb_total.
  - destruct (decide (ordinal d = ordinal e)) as [Heq|Hne].
    + rewrite decide_True by done.
      destruct (Z.leb_spec (second_of_day d) (second_of_day e)); auto.
      right. apply Z.leb_le. lia.
    + rewrite decide_False by done.
      destruct (Z.leb_spec (ordinal d) (ordinal e)); auto.
      right. apply Z.leb_le. lia.
Qed.

Lemma cell_leb_trans a b c :
  cell_leb a b = true → cell_leb b c = true → cell_leb a c = true.
Proof.
  destruct a as [|x|s|d], b as [|y|t|e], c as [|z|v|f]; simpl;
    try done.
  - rewrite !Z.leb_le. lia.
  - intros H1 H2. apply Is_true_true.
    apply Is_true_true in H1, H2.
    exact (transitivity (R := String.le) H1 H2).
  - repeat case_decide; rewrite ?Z.leb_le; intros; try lia.
    all: try (exfalso; congruence).
Qed.

Lemma cell_leb_antisym a b :
  cell_leb a b = true → cell_leb b a = true → a = b.
Proof.
  destruct a as [|x|s|d], b as [|y|t|e]; simpl; try done.
  - rewrite !Z.leb_le. intros. f_equal. lia.
  - intros. f_equal. by apply String.leb_antisym.
  - destruct d as [d1 d2], e as [e1 e2]; simpl.
    repeat case_decide; rewrite ?Z.leb_le; intros; subst; try lia.
    f_equal. f_equal. lia.
Qed.

Global Instance key_le_total k : Total (key_le k).
Proof. intros p q. apply cell_leb_total. Qed.

Global Instance key_le_trans k : Transitive (key_le k).
Proof. intros p q r. apply cell_leb_trans. Qed.

Global Instance row_le_trans k : Transitive (row_le k).
Proof. intros p q r. apply cell_leb_trans. Qed.

(** Two lists of rows with pairwise distinct keys that are sorted by key and
    hold the same rows are the same list: the result of [sort_values] on
    distinct keys does not depend on the sorting algorithm. *)
Lemma sorted_rows_unique k (l1 l2 : list (gmap string cell)) :
  NoDup (cell_at k <$> l1) →
  Sorted (row_le k) l1 → Sorted (row_le k) l2 → l1 ≡ₚ l2 → l1 = l2.
Proof.
  intros Hnd H1 H2 Hp. apply (Sorted_unique_strong (row_le k)); try done.
  intros x1 x2 Hx1 Hx2 Hle1 Hle2.
  assert (cell_at k x1 = cell_at k x2) as Heq
    by (by apply cell_leb_antisym).
  rewrite <- Hp in Hx2.
  apply list_elem_of_lookup in Hx1 as [i Hi], Hx2 as [j Hj].
  assert (i = j) as ->; [|congruence].
  eapply NoDup_lookup; [exact Hnd| |].
  - rewrite list_lookup_fmap, Hi. done.
  - rewrite list_lookup_fmap, Hj. simpl. by rewrite Heq.
Qed.

(** Python can sort a column exactly when its values, missing ones apart, are
    all of one kind. *)
Lemma comparable_spec xs :
  comparable xs = true ↔
  ∀ x y, x ∈ xs → y ∈ xs → x ≠ NaN → y ≠ NaN → kind x = kind y.
Proof.
  unfold comparable.
  destruct (filter (λ x, x ≠ NaN) xs) as [|h t] eqn:Hf.
  - split; [|done]. intros _ x y Hx _ Hnx _.
    assert (x ∈ filter (λ x, x ≠ NaN) xs) as Hin
      by (by apply list_elem_of_filter).
    rewrite Hf in Hin. by apply not_elem_of_nil in Hin.
  - assert (∀ x, x ∈ xs → x ≠ NaN → x ∈ h :: t) as Hin.
    { intros x Hx Hn. rewrite <- Hf. by apply list_elem_of_filter. }
    assert (∀ x, x ∈ h :: t → x ∈ xs ∧ x ≠ NaN) as Hout.
    { intros x Hx. rewrite <- Hf in Hx.
      apply list_elem_of_filter in Hx. tauto. }
    rewrite forallb_forall. split.
    + intros Hall x y Hx Hy Hnx Hny.
      assert (∀ z, z ∈ h :: t → kind z = kind h) as Hk.
      { intros z Hz. apply elem_of_cons in Hz as [->|Hz]; [done|].
        apply Nat.eqb_eq, Hall. by apply list_elem_of_In. }
      rewrite (Hk x), (Hk y); auto.
    + intros Hall y Hy. apply Nat.eqb_eq.
      apply list_elem_of_In in Hy.
      destruct (Hout h) as [? ?]; [left|].
      destruct (Hout y) as [? ?]; [by right|].
      by apply Hall.
Qed.

Lemma comparable_Permutation xs ys :
  xs ≡ₚ ys → comparable xs = comparable ys.
Proof.
  intros Hp. apply eq_true_iff_eq. rewrite !comparable_spec.
  split; intros H x y Hx Hy Hnx Hny; apply H; try done.
  - by rewrite Hp.
  - by rewrite Hp.
  - by rewrite <- Hp.
  - by rewrite <- Hp.
Qed.

(** ** Dropping duplicates *)

Section keep_first.
Context (k : string).
Implicit Types (l : list (cell * gmap string cell)) (seen : list cell).

Lemma keep_first_elem seen l p :
  p ∈ keep_first k seen l → p ∈ l ∧ key_of k p ∉ seen.
Proof.
  revert seen. induction l as [|x l IH]; intros seen; simpl.
  - by intros ?%not_elem_of_nil.
  - case_decide as Hx.
    + intros [? ?]%IH. split; [by right|done].
    + intros [->|Hp]%elem_of_cons; [split; [by left|done]|].
      apply IH in Hp as [? Hn]. split; [by right|].
      intros ?. apply Hn. by right.
Qed.

Lemma keep_first_NoDup seen l : NoDup (key_of k <$> keep_first k seen l).
Proof.
  revert seen. induction l as [|x l IH]; intros seen; simpl.
  - constructor.
  - case_decide as Hx; [apply IH|].
    rewrite fmap_cons. constructor; [|apply IH].
    intros (p & Hk & Hp)%list_elem_of_fmap.
    apply keep_first_elem in Hp as [_ Hn]. apply Hn.
    unfold key_of in *. rewrite <- Hk. by left.
Qed.

Lemma keep_first_ext seen1 seen2 l :
  (∀ x, x ∈ seen1 ↔ x ∈ seen2) → keep_first k seen1 l = keep_first k seen2 l.
Proof.
  revert seen1 seen2. induction l as [|x l IH]; intros seen1 seen2 He; simpl.
  - done.
  - destruct (decide (cell_at k x.2 ∈ seen1)) as [H1|H1].
    + rewrite decide_True by (by apply He). by apply IH.
    + rewrite decide_False by (by rewrite <- He). f_equal. apply IH.
      intros y. rewrite !elem_of_cons, He. done.
Qed.

Lemma keep_first_app seen l1 l2 :
  keep_first k seen (l1 ++ l2)
  = keep_first k seen l1 ++ keep_first k ((key_of k <$> l1) ++ seen) l2.
Proof.
  revert seen. induction l1 as [|x l1 IH]; intros seen; simpl.
  - done.
  - case_decide as Hx.
    + rewrite IH. f_equal. apply keep_first_ext. intros y.
      rewrite elem_of_cons, !elem_of_app. unfold key_of.
      split; [tauto|]. intros [->|?]; tauto.
    + simpl. f_equal. rewrite IH. f_equal. apply keep_first_ext. intros y.
      rewrite !elem_of_cons, !elem_of_app, elem_of_cons. unfold key_of. tauto.
Qed.

Lemma keep_first_id seen l :
  NoDup (key_of k <$> l) → (∀ p, p ∈ l → key_of k p ∉ seen) →
  keep_first k seen l = l.
Proof.
  revert seen. induction l as [|x l IH]; intros seen Hnd Hs; simpl.
  - done.
  - rewrite fmap_cons in Hnd. apply NoDup_cons in Hnd as [Hx Hnd].
    rewrite decide_False by (apply (Hs x); by left).
    f_equal. apply IH; [done|]. intros p Hp. apply not_elem_of_cons. split.
    + intros Heq. apply Hx. apply list_elem_of_fmap. exists p.
      split; [symmetry; exact Heq|done].
    + apply (Hs p). by right.
Qed.

Lemma keep_first_keeps seen l1 p l2 :
  key_of k p ∉ seen → (∀ q, q ∈ l1 → key_of k q ≠ key_of k p) →
  p ∈ keep_first k seen (l1 ++ p :: l2).
Proof.
  intros Hs Hl. rewrite keep_first_app. apply elem_of_app. right. simpl.
  rewrite decide_False; [by left|].
  intros [Hin|Hin]%elem_of_app; [|done].
  apply list_elem_of_fmap in Hin as (q & Hq & Hin). by apply (Hl q).
Qed.

Lemma keep_first_not_nil l : l ≠ [] → keep_first k [] l ≠ [].
Proof.
  destruct l as [|x l]; [done|]. intros _. simpl. done.
Qed.

End keep_first.

(** ** Rows laid out on columns *)

Lemma lookup_reindex cols r c :
  reindex cols r !! c = if decide (c ∈ cols) then Some (cell_at c r) else None.
Proof.
  unfold reindex. induction cols as [|x cols IH].
  - destruct (decide (c ∈ [])) as [H|H]; [by apply not_elem_of_nil in H|].
    apply lookup_empty.
  - rewrite fmap_cons, list_to_map_cons.
    destruct (decide (x = c)) as [->|Hne].
    + rewrite lookup_insert_eq. rewrite decide_True by left. done.
    + rewrite lookup_insert_ne by done. rewrite IH.
      destruct (decide (c ∈ cols)).
      * rewrite decide_True by (by right). done.
      * rewrite decide_False; [done|].
        intros [->|?]%elem_of_cons; done.
Qed.

Lemma cell_at_reindex cols r c :
  c ∈ cols → cell_at c (reindex cols r) = cell_at c r.
Proof.
  intros Hc. unfold cell_at at 1. rewrite lookup_reindex.
  by rewrite decide_True.
Qed.

Lemma reindex_ext cols1 cols2 r :
  (∀ c, c ∈ cols1 ↔ c ∈ cols2) → reindex cols1 r = reindex cols2 r.
Proof.
  intros He. apply map_eq. intros c. rewrite !lookup_reindex.
  destruct (decide (c ∈ cols1)) as [H1|H1].
  - rewrite decide_True by (by apply He). done.
  - rewrite decide_False by (by rewrite <- He). done.
Qed.

Lemma reindex_reindex cols1 cols2 r :
  (∀ c, c ∈ cols1 → c ∈ cols2) →
  reindex cols1 (reindex cols2 r) = reindex cols1 r.
Proof.
  intros Hs. apply map_eq. intros c. rewrite !lookup_reindex.
  case_decide; [|done]. rewrite cell_at_reindex; auto.
Qed.

(** Taking a column out as the index and putting it back leaves a row that
    has the column as it was. *)
Lemma insert_delete_key k (r : gmap string cell) :
  is_Some (r !! k) → <[k := cell_at k r]> (delete k r) = r.
Proof.
  intros [v Hv]. rewrite insert_delete_eq. apply insert_id.
  unfold cell_at. by rewrite Hv.
Qed.

(** ** Selecting rows *)

Lemma zip_filter_fmap {A} (f : A → bool) (l : list A) :
  (filter (λ p, p.2 = true) (zip l (f <$> l))).*1
  = filter (λ x, f x = true) l.
Proof.
  induction l as [|x l IH]; [done|]. csimpl.
  rewrite !filter_cons. csimpl. destruct (f x) eqn:Hf.
  - rewrite !decide_True by done. csimpl. by rewrite IH.
  - rewrite !decide_False by done. done.
Qed.

Lemma body_select_isin df c values :
  body (select df (invert (isin (list_set values) (cell_at c <$> rows df))))
  = filter (λ p, cell_at c p.2 ∉ values) (body df).
Proof.
  unfold select, invert, isin, rows, list_set. simpl.
  rewrite <- !list_fmap_compose.
  rewrite (zip_filter_fmap
    (negb ∘ (λ x, bool_decide (x ∈ remove_dups values)) ∘ cell_at c ∘ snd)).
  apply list_filter_iff. intros p. simpl.
  rewrite negb_true_iff, bool_decide_eq_false, elem_of_remove_dups. done.
Qed.

(** ** The merge of two frames that both have rows *)

Lemma stacked_has_key k u e p :
  k ∈ union_columns (columns u) (columns e) →
  p ∈ stacked u e → is_Some (p.2 !! k).
Proof.
  intros Hk (q & -> & _)%list_elem_of_fmap. simpl.
  rewrite lookup_reindex, decide_True by done. eauto.
Qed.

Lemma merged_Permutation k u e : merged k u e ≡ₚ keep_first k [] (stacked u e).
Proof. apply merge_sort_Permutation. Qed.

Lemma merged_elem k u e p : p ∈ merged k u e → p ∈ stacked u e.
Proof.
  rewrite merged_Permutation. intros H. by apply keep_first_elem in H as [? _].
Qed.

Lemma rows_merge_frame k u e : rows (merge_frame k u e) = (merged k u e).*2.
Proof.
  unfold rows, merge_frame. simpl. rewrite fmap_imap.
  rewrite <- (imap_const snd). done.
Qed.

Lemma concat_select u e :
  concat u
    (select e (invert (isin (list_set (parents u))
                         (cell_at "issue_key" <$> rows e))))
  = {| columns := union_columns (columns u) (columns e);
       index_name :=
         if decide (index_name u = index_name e) then index_name u else None;
       body := stacked u e |}.
Proof.
  unfold concat. cbn [columns index_name select]. f_equal.
  fold (select e (invert (isin (list_set (parents u))
                            (cell_at "issue_key" <$> rows e)))).
  by rewrite body_select_isin.
Qed.

(** What [update_dataframe] does when both frames have rows. *)
Lemma update_dataframe_both e u k s :
  dataframe_has_rows (Some e) = true → dataframe_has_rows (Some u) = true →
  update_dataframe (Some e) (Some u) k s =
  (if decide ("issue_key" ∈ columns u) then
     if decide ("issue_key" ∈ columns e) then
       if decide (k ∈ union_columns (columns u) (columns e)) then
         if comparable (key_of k <$> keep_first k [] (stacked u e))
         then Ok (Some (merge_frame k u e))
         else Raise TypeError
       else Raise (KeyError k)
     else Raise (KeyError "issue_key")
   else Raise (KeyError "issue_key"), s).
Proof.
  intros He Hu. unfold update_dataframe. rewrite He, Hu.
  cbn [andb]. unfold lift. f_equal.
  cbn [subscriptable mbind result_bind]. unfold getitem.
  destruct (decide ("issue_key" ∈ columns u)) as [Hcu|Hcu]; [|done].
  cbn [fmap result_fmap mbind result_bind]. fold (parents u).
  destruct (decide ("issue_key" ∈ columns e)) as [Hce|Hce]; [|done].
  cbn [fmap result_fmap mbind result_bind]. rewrite concat_select.
  unfold drop_duplicates. cbn [columns index_name body].
  destruct (decide (k ∈ union_columns (columns u) (columns e))) as [Hk|Hk];
    [|done].
  cbn [mbind result_bind]. unfold sort_values. cbn [columns index_name body].
  rewrite decide_True by done.
  unfold rows. cbn [body]. rewrite <- list_fmap_compose. fold (key_of k).
  destruct (comparable _); [|done].
  cbn [mbind result_bind]. unfold set_index. cbn [columns index_name body].
  rewrite decide_True by done.
  cbn [mbind result_bind]. unfold reset_index.
  cbn [columns index_name body default].
  rewrite decide_False.
  2:{ intros [Hne _]%list_elem_of_filter. done. }
  cbn [mbind result_bind mret result_ret]. unfold merge_frame, id.
  do 3 f_equal. fold (merged k u e). rewrite ?imap_fmap. apply imap_ext.
  intros i p Hp. simpl. f_equal. apply insert_delete_key.
  apply (stacked_has_key k u e); [done|].
  apply merged_elem with k. by apply list_elem_of_lookup_2 in Hp.
Qed.

Lemma update_dataframe_both_ok e u k s :
  dataframe_has_rows (Some e) = true → dataframe_has_rows (Some u) = true →
  mergeable k u e →
  update_dataframe (Some e) (Some u) k s = (Ok (Some (merge_frame k u e)), s).
Proof.
  intros He Hu (Hcu & Hce & Hk & Hc). rewrite update_dataframe_both by done.
  by rewrite !decide_True, Hc by done.
Qed.

Lemma update_dataframe_both_inv e u k s r s' :
  dataframe_has_rows (Some e) = true → dataframe_has_rows (Some u) = true →
  update_dataframe (Some e) (Some u) k s = (Ok r, s') →
  mergeable k u e ∧ r = Some (merge_frame k u e) ∧ s' = s.
Proof.
  intros He Hu. rewrite update_dataframe_both by done. unfold mergeable.
  repeat case_decide; try (intros [=]; fail).
  destruct (comparable _) eqn:Hc; intros [= <- <-]. repeat split; done.
Qed.

Lemma merge_columns_equiv k (cols : list string) c :
  k ∈ cols → c ∈ k :: filter (λ c, c ≠ k) cols ↔ c ∈ cols.
Proof.
  intros Hk. rewrite elem_of_cons, list_elem_of_filter.
  destruct (decide (c = k)) as [->|]; intuition.
Qed.

Lemma union_columns_l c1 c2 c : c ∈ c1 → c ∈ union_columns c1 c2.
Proof. intros. apply elem_of_app. by left. Qed.

Lemma union_columns_r c1 c2 c : c ∈ c2 → c ∈ union_columns c1 c2.
Proof.
  intros. apply elem_of_app. destruct (decide (c ∈ c1)); [by left|right].
  by apply list_elem_of_filter.
Qed.

Lemma elem_of_stacked u e p :
  p ∈ stacked u e ↔
  ∃ q, p = prod_map id (reindex (union_columns (columns u) (columns e))) q
       ∧ (q ∈ body u ∨ q ∈ body e ∧ cell_at "issue_key" q.2 ∉ parents u).
Proof.
  unfold stacked, retained. rewrite list_elem_of_fmap.
  setoid_rewrite elem_of_app. setoid_rewrite list_elem_of_filter.
  split; intros (q & Hq & H); exists q; intuition.
Qed.

Lemma elem_of_parents u (p : cell * gmap string cell) :
  p ∈ body u → cell_at "issue_key" p.2 ∈ parents u.
Proof.
  intros Hp. unfold parents, rows. rewrite <- list_fmap_compose.
  apply list_elem_of_fmap. by exists p.
Qed.

Lemma merged_sorted k u e : Sorted (row_le k) (merged k u e).*2.
Proof.
  apply (Sorted_fmap _ (key_le k)); [done|]. apply Sorted_merge_sort, _.
Qed.

Lemma merged_keys k u e :
  cell_at k <$> (merged k u e).*2 ≡ₚ key_of k <$> keep_first k [] (stacked u e).
Proof. rewrite <- list_fmap_compose. by rewrite merged_Permutation. Qed.

Lemma merged_NoDup k u e : NoDup (cell_at k <$> (merged k u e).*2).
Proof. rewrite merged_keys. apply keep_first_NoDup. Qed.

(** ** C1: rows of a parent that the update mentions *)

(** C1.  When both frames have rows and the merge returns a frame, every row
    of that frame whose [issue_key] value occurs in the updated frame is a
    row of the updated frame (laid out on the columns of the result, with
    its key): no row of the existing frame that refers to such a parent
    survives. *)
Theorem update_dataframe_full_replacement e u k s r s' :
  dataframe_has_rows (Some e) = true → dataframe_has_rows (Some u) = true →
  update_dataframe (Some e) (Some u) k s = (Ok (Some r), s') →
  ∀ row, row ∈ rows r → cell_at "issue_key" row ∈ parents u →
    ∃ row_u, row_u ∈ rows u ∧ row = reindex (columns r) row_u
             ∧ cell_at k row = cell_at k row_u.
Proof.
  intros He Hu Hr row Hrow Hfk.
  apply update_dataframe_both_inv in Hr as ((Hcu & Hce & Hk & Hc) & [= ->] & _);
    [|done..].
  rewrite rows_merge_frame in Hrow.
  apply list_elem_of_fmap in Hrow as (p & -> & Hp).
  apply merged_elem, elem_of_stacked in Hp as (q & -> & [Hq|[Hq Hn]]).
  - exists q.2. split; [by apply list_elem_of_fmap_2|]. simpl. split.
    + apply reindex_ext. intros c. symmetry. by apply merge_columns_equiv.
    + by apply cell_at_reindex.
  - exfalso. apply Hn. simpl in Hfk. rewrite cell_at_reindex in Hfk; [done|].
    by apply union_columns_l.
Qed.

(** ** Rows of a parent that the update does not mention *)

(** The rows the merge keeps.  When both frames have rows and the merge
    returns a frame, a row of the existing frame whose [issue_key] value
    does not occur in the updated frame is in the result with the value it
    had in every column of the existing frame, provided its key is not the
    key of a row of the updated frame nor of an earlier row of the existing
    frame that the merge retains too. *)
Lemma update_dataframe_preservation e u k s r s' before p after :
  dataframe_has_rows (Some e) = true → dataframe_has_rows (Some u) = true →
  update_dataframe (Some e) (Some u) k s = (Ok (Some r), s') →
  body e = before ++ p :: after →
  cell_at "issue_key" p.2 ∉ parents u →
  cell_at k p.2 ∉ cell_at k <$> rows u →
  (∀ q, q ∈ before → cell_at "issue_key" q.2 ∉ parents u →
        cell_at k q.2 ≠ cell_at k p.2) →
  reindex (columns r) p.2 ∈ rows r
  ∧ ∀ c, c ∈ columns e → cell_at c (reindex (columns r) p.2) = cell_at c p.2.
Proof.
  intros He Hu Hr Hbody Hfk Hkey Hfirst.
  apply update_dataframe_both_inv in Hr as ((Hcu & Hce & Hk & Hc) & [= ->] & _);
    [|done..].
  set (cols := union_columns (columns u) (columns e)) in *.
  assert (∀ x, reindex (columns (merge_frame k u e)) x = reindex cols x)
    as Hre.
  { intros x. apply reindex_ext. intros c. by apply merge_columns_equiv. }
  split.
  - rewrite Hre, rows_merge_frame.
    apply (list_elem_of_fmap_2' snd _ (prod_map id (reindex cols) p)); [|done].
    rewrite merged_Permutation. unfold stacked, retained.
    rewrite Hbody, filter_app, filter_cons, decide_True by done.
    rewrite !fmap_app, fmap_cons, app_assoc. fold cols.
    apply keep_first_keeps; [apply not_elem_of_nil|].
    intros q Hq. unfold key_of. simpl. rewrite cell_at_reindex by done.
    apply elem_of_app in Hq as [Hq|Hq];
      apply list_elem_of_fmap in Hq as (q' & -> & Hq'); simpl;
      rewrite cell_at_reindex by done.
    + intros Heq. apply Hkey. rewrite <- Heq. unfold rows.
      rewrite <- list_fmap_compose. apply list_elem_of_fmap. by exists q'.
    + apply list_elem_of_filter in Hq' as [? ?]. by apply Hfirst.
  - intros c Hc'. rewrite Hre. apply cell_at_reindex.
    by apply union_columns_r.
Qed.

(** ** C4: the keys of a merge *)

(** C4, as the code has it.  With rows in both frames, a frame that the
    merge returns has pairwise distinct keys, of one kind, in ascending
    order.  With rows in one frame only, the merge returns that frame as it
    was given, in its own order and whatever its keys are. *)
Theorem update_dataframe_keys_sorted e u k s :
  (dataframe_has_rows e = true → dataframe_has_rows u = true →
   ∀ r s', update_dataframe e u k s = (Ok (Some r), s') →
     NoDup (cell_at k <$> rows r)
     ∧ Sorted cell_le (cell_at k <$> rows r)
     ∧ comparable (cell_at k <$> rows r) = true)
  ∧ (dataframe_has_rows e = false → dataframe_has_rows u = true →
     (update_dataframe e u k s).1 = Ok u)
  ∧ (dataframe_has_rows e = true → dataframe_has_rows u = false →
     (update_dataframe e u k s).1 = Ok e).
Proof.
  split; [|split].
  - intros He Hu r s' Hr.
    destruct e as [e|]; [|done]. destruct u as [u|]; [|done].
    apply update_dataframe_both_inv in Hr
      as ((Hcu & Hce & Hk & Hc) & [= ->] & _); [|done..].
    rewrite rows_merge_frame. split; [apply merged_NoDup|]. split.
    + apply (Sorted_fmap _ (row_le k)); [done|]. apply merged_sorted.
    + by rewrite (comparable_Permutation _ _ (merged_keys k u e)).
  - intros He Hu. unfold update_dataframe. by rewrite He, Hu.
  - intros He Hu. unfold update_dataframe. by rewrite He, Hu.
Qed.

(** ** C3: merging the same update twice *)

Lemma filter_none {A} (P : A → Prop) `{∀ x, Decision (P x)} (l : list A) :
  (∀ x, x ∈ l → ¬ P x) → filter P l = [].
Proof.
  induction l as [|x l IH]; intros Hl; [done|].
  rewrite filter_cons, decide_False by (apply Hl; left).
  apply IH. intros y Hy. apply Hl. by right.
Qed.

Lemma filter_all {A} (P : A → Prop) `{∀ x, Decision (P x)} (l : list A) :
  (∀ x, x ∈ l → P x) → filter P l = l.
Proof.
  induction l as [|x l IH]; intros Hl; [done|].
  rewrite filter_cons, decide_True by (apply Hl; left).
  f_equal. apply IH. intros y Hy. apply Hl. by right.
Qed.

Lemma fmap_fixed {A} (f : A → A) (l : list A) :
  (∀ x, x ∈ l → f x = x) → f <$> l = l.
Proof.
  induction l as [|x l IH]; intros Hl; [done|].
  rewrite fmap_cons, Hl by left. f_equal. apply IH.
  intros y Hy. apply Hl. by right.
Qed.

Lemma filter_snd {A B} (P : B → Prop) `{∀ x, Decision (P x)}
    (l : list (A * B)) :
  (filter (λ p, P p.2) l).*2 = filter P l.*2.
Proof.
  induction l as [|x l IH]; [done|].
  rewrite fmap_cons, !filter_cons.
  destruct (decide (P x.2)); [rewrite fmap_cons; by f_equal|done].
Qed.

Lemma key_of_fmap k (l : list (cell * gmap string cell)) :
  key_of k <$> l = cell_at k <$> l.*2.
Proof. by rewrite <- list_fmap_compose. Qed.

Lemma relabel_rows (l : list (cell * gmap string cell)) :
  imap (λ i p, (Num (Z.of_nat i), p.2)) l
  = imap (λ i r, (Num (Z.of_nat i), r)) l.*2.
Proof. by rewrite imap_fmap. Qed.

(** The columns of a second merge are those of the first. *)
Lemma merge_columns_again k (cu ce : list string) :
  filter (λ c, c ≠ k)
    (union_columns cu (k :: filter (λ c, c ≠ k) (union_columns cu ce)))
  = filter (λ c, c ≠ k) (union_columns cu ce).
Proof.
  unfold union_columns.
  rewrite !filter_app. f_equal.
  rewrite list_filter_filter, filter_cons, decide_False by (by intros [? _]).
  rewrite filter_app.
  rewrite (filter_none _ (filter _ cu)).
  2:{ intros c [_ Hc]%list_elem_of_filter [_ Hn]. done. }
  apply filter_all. intros c [Hne [Hn _]%list_elem_of_filter]%list_elem_of_filter.
  done.
Qed.

Lemma union_columns_again k (cu ce : list string) c :
  k ∈ union_columns cu ce →
  c ∈ union_columns cu (k :: filter (λ c, c ≠ k) (union_columns cu ce))
  ↔ c ∈ union_columns cu ce.
Proof.
  intros Hk. split.
  - intros [Hc|[_ Hc]%list_elem_of_filter]%elem_of_app.
    + by apply union_columns_l.
    + by apply merge_columns_equiv in Hc.
  - intros Hc. apply union_columns_r. by apply merge_columns_equiv.
Qed.

(** The rows a second merge stacks, keeps and sorts are those of the
    first. *)
Lemma kept_rows_again k u e :
  "issue_key" ∈ columns u → k ∈ union_columns (columns u) (columns e) →
  (keep_first k [] (stacked u (merge_frame k u e))).*2
  ≡ₚ (keep_first k [] (stacked u e)).*2.
Proof.
  intros Hcu Hk.
  set (cols := union_columns (columns u) (columns e)).
  set (f := prod_map id (reindex cols) : _ → cell * gmap string cell).
  set (P := λ r : gmap string cell, cell_at "issue_key" r ∉ parents u).
  set (U := f <$> body u).
  set (seen := (key_of k <$> U) ++ []).
  set (B := keep_first k seen (f <$> retained u e)).
  assert (Hfk : ∀ q, cell_at "issue_key" (f q).2 = cell_at "issue_key" q.2).
  { intros q. simpl. apply cell_at_reindex. by apply union_columns_l. }
  assert (stacked u e = U ++ (f <$> retained u e)) as ->.
  { unfold stacked. by rewrite fmap_app. }
  assert (stacked u (merge_frame k u e)
          = U ++ (f <$> retained u (merge_frame k u e))) as ->.
  { unfold stacked. rewrite fmap_app. f_equal; apply list_fmap_ext;
      intros i [l r] _; unfold f, prod_map; simpl; f_equal;
      apply reindex_ext; intros c; by apply union_columns_again. }
  rewrite !keep_first_app. fold seen B.
  (* the rows the second merge retains are the rows [B] of the first *)
  assert ((f <$> retained u (merge_frame k u e)).*2 ≡ₚ B.*2) as HE.
  { assert (∀ l, (f <$> l).*2 = reindex cols <$> l.*2) as ->.
    { intros l. rewrite <- !list_fmap_compose. apply list_fmap_ext.
      by intros i [a b] _. }
    assert ((retained u (merge_frame k u e)).*2
            = filter P (rows (merge_frame k u e))) as ->
      by exact (filter_snd P (body (merge_frame k u e))).
    rewrite rows_merge_frame.
    rewrite merged_Permutation.
    assert (stacked u e = U ++ (f <$> retained u e)) as ->.
    { unfold stacked. by rewrite fmap_app. }
    rewrite keep_first_app. fold seen B.
    rewrite fmap_app, filter_app.
    rewrite (filter_none P).
    2:{ intros r (p & -> & Hp)%list_elem_of_fmap HP.
        apply keep_first_elem in Hp as [Hp _].
        apply list_elem_of_fmap in Hp as (q & -> & Hq).
        apply HP. rewrite Hfk. by apply elem_of_parents. }
    rewrite (filter_all P).
    2:{ intros r (p & -> & Hp)%list_elem_of_fmap.
        apply keep_first_elem in Hp as [Hp _].
        apply list_elem_of_fmap in Hp as (q & -> & Hq).
        unfold P. rewrite Hfk.
        by apply list_elem_of_filter in Hq as [? _]. }
    simpl. rewrite fmap_fixed; [done|].
    intros r (p & -> & Hp)%list_elem_of_fmap.
    apply keep_first_elem in Hp as [Hp _].
    apply list_elem_of_fmap in Hp as (q & -> & Hq). simpl.
    by apply reindex_reindex. }
  assert (key_of k <$> (f <$> retained u (merge_frame k u e))
          ≡ₚ key_of k <$> B) as HK.
  { rewrite !key_of_fmap. by rewrite HE. }
  rewrite (keep_first_id k seen (f <$> retained u (merge_frame k u e))).
  - by rewrite !fmap_app, HE.
  - rewrite HK. apply keep_first_NoDup.
  - intros p Hp.
    assert (key_of k p ∈ key_of k <$> B) as (b & -> & Hb)%list_elem_of_fmap.
    { rewrite <- HK. by apply list_elem_of_fmap_2. }
    by apply keep_first_elem in Hb as [_ ?].
Qed.

Lemma merged_rows_again k u e :
  "issue_key" ∈ columns u → k ∈ union_columns (columns u) (columns e) →
  (merged k u (merge_frame k u e)).*2 = (merged k u e).*2.
Proof.
  intros Hcu Hk. apply (sorted_rows_unique k).
  - apply merged_NoDup.
  - apply merged_sorted.
  - apply merged_sorted.
  - by rewrite !merged_Permutation, kept_rows_again.
Qed.

Lemma merge_frame_again k u e :
  "issue_key" ∈ columns u → k ∈ union_columns (columns u) (columns e) →
  merge_frame k u (merge_frame k u e) = merge_frame k u e.
Proof.
  intros Hcu Hk. unfold merge_frame at 1 3. f_equal.
  - f_equal. apply merge_columns_again.
  - rewrite !relabel_rows. f_equal. by apply merged_rows_again.
Qed.

Lemma mergeable_again k u e :
  mergeable k u e → mergeable k u (merge_frame k u e).
Proof.
  intros (Hcu & Hce & Hk & Hc). repeat split.
  - done.
  - apply merge_columns_equiv; [done|]. by apply union_columns_l.
  - by apply union_columns_again.
  - rewrite <- Hc, !key_of_fmap.
    apply comparable_Permutation. by rewrite kept_rows_again.
Qed.

Lemma merge_frame_has_rows k u e :
  dataframe_has_rows (Some u) = true →
  dataframe_has_rows (Some (merge_frame k u e)) = true.
Proof.
  unfold dataframe_has_rows, len. rewrite !Nat.ltb_lt. intros Hu.
  unfold merge_frame. simpl. rewrite length_imap.
  rewrite merged_Permutation.
  assert (keep_first k [] (stacked u e) ≠ []) as Hne.
  { apply keep_first_not_nil. unfold stacked.
    destruct (body u); [simpl in Hu; lia|done]. }
  destruct (keep_first k [] (stacked u e)); [done|simpl; lia].
Qed.

(** A frame merged with itself: every row refers to a parent of the update,
    so no row is retained and the rows of the update alone are stacked. *)
Lemma union_columns_same (cols : list string) : union_columns cols cols = cols.
Proof.
  unfold union_columns. rewrite (filter_none (λ c, c ∉ cols)).
  - apply app_nil_r.
  - intros c Hc Hn. done.
Qed.

Lemma stacked_same u :
  stacked u u = prod_map id (reindex (columns u)) <$> body u.
Proof.
  unfold stacked, retained. rewrite union_columns_same.
  rewrite (filter_none (λ p : cell * gmap string cell,
                          cell_at "issue_key" p.2 ∉ parents u)).
  - by rewrite app_nil_r.
  - intros p Hp Hn. apply Hn. by apply elem_of_parents.
Qed.

(** C3, as the code has it.  When the existing frame has rows, or the update
    has none, and the merge of the update returns, merging the same update
    into the result returns the same result again.  When the update alone
    has rows, the first merge returns the update as it was given; merging
    the update into that result returns exactly when the update has the
    columns [issue_key] and [k] and keys of one kind, and the frame it
    returns has the key column first and holds the rows of the update
    without the later rows of a key already met, sorted by key. *)
Theorem update_dataframe_idempotent e u k s r s1 :
  update_dataframe e u k s = (Ok r, s1) →
  (dataframe_has_rows e = true ∨ dataframe_has_rows u = false →
   ∃ s2, update_dataframe r u k s1 = (Ok r, s2))
  ∧ (dataframe_has_rows e = false → dataframe_has_rows u = true →
     r = u
     ∧ ∃ u', u = Some u'
         ∧ (mergeable k u' u' →
            ∃ r', update_dataframe r u k s1 = (Ok (Some r'), s1))
         ∧ ∀ r2 s2, update_dataframe r u k s1 = (Ok r2, s2) →
             ∃ r', r2 = Some r'
               ∧ mergeable k u' u'
               ∧ columns r' = k :: filter (λ c, c ≠ k) (columns u')
               ∧ rows r'
                 = (merge_sort (key_le k)
                      (keep_first k []
                         (prod_map id (reindex (columns u')) <$> body u'))).*2
               ∧ NoDup (cell_at k <$> rows r')
               ∧ Sorted cell_le (cell_at k <$> rows r')).
Proof.
  intros Hr. split.
  - intros Hcase. destruct (dataframe_has_rows u) eqn:Hu.
    + destruct Hcase as [He|?]; [|done].
      destruct e as [e|]; [|done]. destruct u as [u|]; [|done].
      apply update_dataframe_both_inv in Hr as (Hm & -> & ->); [|done..].
      exists s. rewrite update_dataframe_both_ok.
      * do 3 f_equal. destruct Hm as (? & ? & ? & ?).
        by apply merge_frame_again.
      * by apply merge_frame_has_rows.
      * done.
      * by apply mergeable_again.
    + unfold update_dataframe in Hr. rewrite Hu in Hr.
      destruct (dataframe_has_rows e) eqn:He; simpl in Hr;
        injection Hr as <- <-; eexists; unfold update_dataframe;
        rewrite Hu; [rewrite He|]; simpl; done.
  - intros He Hu. unfold update_dataframe in Hr. rewrite He, Hu in Hr.
    cbn [andb negb] in Hr.
    cbv beta iota zeta delta [mbind mret ST_bind ST_ret msg modify] in Hr.
    injection Hr as <- <-.
    split; [done|]. destruct u as [u|]; [|done]. exists u.
    split; [done|]. split.
    + intros Hm. eexists. by apply update_dataframe_both_ok.
    + intros r2 s2 H2.
      apply update_dataframe_both_inv in H2 as (Hm & -> & _); [|done..].
      eexists. split; [done|]. split; [done|]. split.
      { cbn [columns merge_frame]. by rewrite union_columns_same. }
      split.
      { rewrite rows_merge_frame. unfold merged. by rewrite stacked_same. }
      rewrite rows_merge_frame. split; [apply merged_NoDup|].
      apply (Sorted_fmap _ (row_le k)); [done|]. apply merged_sorted.
Qed.

(** ** The merge on concrete frames *)

(** The merge of the stored and the updated components. *)
Lemma merge_components :
  update_dataframe (Some stored_components) (Some updated_components)
    "issue_component_key" no_files
  = (Ok (Some merged_components), no_files).
Proof. vm_compute. reflexivity. Qed.

(** C1 on the stored and updated components: the row of P keyed 2 in the
    merge is the row of the update. *)
Lemma update_dataframe_full_replacement_witness :
  ∃ row_u, row_u ∈ rows updated_components
    ∧ component_row 2 "P" "cache"
      = reindex (columns merged_components) row_u
    ∧ cell_at "issue_component_key" (component_row 2 "P" "cache")
      = cell_at "issue_component_key" row_u.
Proof.
  apply (update_dataframe_full_replacement stored_components
           updated_components "issue_component_key" no_files merged_components
           no_files).
  - reflexivity.
  - reflexivity.
  - vm_compute. reflexivity.
  - compute_done.
  - compute_done.
Defined.

(** The row of Q keyed 1 is in the existing frame, Q is not among the
    parents of the update, and the merge has no row equal to it nor any row
    of Q keyed 1, because the update has a row keyed 1. *)
Lemma merge_components_loses_row :
  dataframe_has_rows (Some stored_components) = true
  ∧ dataframe_has_rows (Some updated_components) = true
  ∧ update_dataframe (Some stored_components) (Some updated_components)
      "issue_component_key" no_files
    = (Ok (Some merged_components), no_files)
  ∧ component_row 1 "Q" "ui" ∈ rows stored_components
  ∧ (Str "Q" ∉ parents updated_components)
  ∧ (component_row 1 "Q" "ui" ∉ rows merged_components)
  ∧ Forall (λ r, ¬ (cell_at "issue_key" r = Str "Q"
                    ∧ cell_at "issue_component_key" r = Num 1))
      (rows merged_components).
Proof.
  split; [reflexivity|]. split; [reflexivity|].
  split; [exact merge_components|].
  split; [compute_done|]. split; [compute_done|]. split; compute_done.
Qed.

(** The row of Q keyed 5, a key the update does not use, is kept. *)
Lemma merge_components_keeps_row :
  reindex (columns merged_components) (component_row 5 "Q" "api")
    ∈ rows merged_components
  ∧ ∀ c, c ∈ columns stored_components →
      cell_at c (reindex (columns merged_components)
                   (component_row 5 "Q" "api"))
      = cell_at c (component_row 5 "Q" "api").
Proof.
  apply (update_dataframe_preservation stored_components updated_components
           "issue_component_key" no_files merged_components no_files
           [(Num 0, component_row 1 "Q" "ui");
            (Num 1, component_row 2 "P" "db")]
           (Num 2, component_row 5 "Q" "api") []).
  - reflexivity.
  - reflexivity.
  - vm_compute. reflexivity.
  - reflexivity.
  - compute_done.
  - compute_done.
  - intros q Hq _. apply elem_of_cons in Hq as [->|Hq]; [compute_done|].
    apply list_elem_of_singleton in Hq as ->. compute_done.
Defined.

(** C4 fails as stated: with no existing frame the merge returns the updated
    frame as it is, here with its keys in descending order. *)
Lemma update_dataframe_keys_sorted_counterexample :
  (update_dataframe None (Some fetched_issues) "issue_key" no_files).1
  = Ok (Some fetched_issues)
  ∧ ¬ Sorted cell_le (cell_at "issue_key" <$> rows fetched_issues).
Proof. split; [reflexivity|compute_done]. Qed.

(** The keys of the merged components are 1, 2, 5; the fetched issues come
    back as they are when the other frame is missing or empty. *)
Lemma update_dataframe_keys_sorted_witness :
  (NoDup (cell_at "issue_component_key" <$> rows merged_components)
   ∧ Sorted cell_le (cell_at "issue_component_key" <$> rows merged_components)
   ∧ comparable (cell_at "issue_component_key" <$> rows merged_components)
     = true)
  ∧ (update_dataframe None (Some fetched_issues) "issue_key" no_files).1
    = Ok (Some fetched_issues)
  ∧ (update_dataframe (Some fetched_issues) (Some empty_frame) "issue_key"
       no_files).1
    = Ok (Some fetched_issues).
Proof.
  split; [|split].
  - apply (proj1 (update_dataframe_keys_sorted (Some stored_components)
                    (Some updated_components) "issue_component_key"
                    no_files) eq_refl eq_refl merged_components no_files).
    vm_compute. reflexivity.
  - apply (proj1 (proj2 (update_dataframe_keys_sorted None
                           (Some fetched_issues) "issue_key" no_files)));
      reflexivity.
  - apply (proj2 (proj2 (update_dataframe_keys_sorted
                           (Some fetched_issues) (Some empty_frame)
                           "issue_key" no_files))); reflexivity.
Defined.

(** C3 fails as stated: with no existing frame the first merge returns the
    fetched issues as they are, and merging them into that result returns
    them sorted by key, which is another frame. *)
Lemma update_dataframe_idempotent_counterexample :
  ∃ s1,
    update_dataframe None (Some fetched_issues) "issue_key" no_files
    = (Ok (Some fetched_issues), s1)
    ∧ update_dataframe (Some fetched_issues) (Some fetched_issues)
        "issue_key" s1
      = (Ok (Some sorted_issues), s1)
    ∧ sorted_issues ≠ fetched_issues
    ∧ rows sorted_issues ≠ rows fetched_issues.
Proof.
  eexists. split; [reflexivity|]. split; [vm_compute; reflexivity|].
  split; [|compute_done]. intros H. by apply (f_equal rows) in H.
Qed.

(** Merging the updated components into the merge returns the merge; the
    fetched issues merged into themselves come back sorted by key. *)
Lemma update_dataframe_idempotent_witness :
  (∃ s2,
     update_dataframe (Some merged_components) (Some updated_components)
       "issue_component_key" no_files
     = (Ok (Some merged_components), s2))
  ∧ ∃ s1,
      update_dataframe None (Some fetched_issues) "issue_key" no_files
      = (Ok (Some fetched_issues), s1)
      ∧ ∃ r',
          update_dataframe (Some fetched_issues) (Some fetched_issues)
            "issue_key" s1 = (Ok (Some r'), s1)
          ∧ rows r' = rows sorted_issues.
Proof.
  split.
  - apply (proj1 (update_dataframe_idempotent (Some stored_components)
                    (Some updated_components) "issue_component_key" no_files
                    (Some merged_components) no_files
                    ltac:(vm_compute; reflexivity))).
    left. reflexivity.
  - eexists. split; [reflexivity|].
    destruct (proj2 (update_dataframe_idempotent None (Some fetched_issues)
                       "issue_key" no_files (Some fetched_issues) _
                       ltac:(reflexivity)))
      as (_ & u' & [= <-] & Hret & Hrows); [reflexivity..|].
    destruct Hret as [r' Hr'].
    { repeat split; compute_done. }
    exists r'. split; [exact Hr'|].
    destruct (Hrows _ _ Hr') as (r2 & [= <-] & _ & _ & -> & _).
    vm_compute. reflexivity.
Defined.

(** ** C10: [ifnull] always substitutes *)

Lemma ifnull_substitutes value null_value :
  ifnull value null_value = null_value.
Proof. by destruct value. Qed.

(** C10.  Whatever the value and the substitute, [ifnull] returns the
    substitute: [type(value)] is a type object, never [None].  The caller in
    the [issues] table therefore joins the substitute, the list of one empty
    string, whatever the custom field holds. *)
Theorem ifnull_returns_null_value :
  (∀ value null_value, ifnull value null_value = null_value)
  ∧ (∀ names,
       join "," (ifnull (pyval_of_names names) (PyList [PyStr ""])) = Ok "").
Proof.
  split; [apply ifnull_substitutes|]. intros names.
  by rewrite ifnull_substitutes.
Qed.

(** ** C9: comments without an author *)

Lemma loc_set_new cols old i c v :
  i ∉ old.*1 →
  loc_set i c v {| columns := cols; index_name := None; body := old |}
  = snoc_frame (with_column cols c)
      (prod_map id (reindex (with_column cols c)) <$> old) i
      (<[c := v]> (reindex (with_column cols c) ∅)).
Proof.
  intros Hi. unfold loc_set, snoc_frame, with_column. cbn [columns body].
  f_equal. by rewrite decide_False.
Qed.

Lemma loc_set_last cols old i r c v :
  i ∉ old.*1 →
  loc_set i c v (snoc_frame cols old i r)
  = snoc_frame (with_column cols c)
      (prod_map id (reindex (with_column cols c)) <$> old) i
      (<[c := v]> (reindex (with_column cols c) r)).
Proof.
  intros Hi. unfold loc_set, snoc_frame, with_column.
  cbn [columns body index_name]. f_equal.
  rewrite decide_True.
  2:{ rewrite fmap_app. apply elem_of_app. right. by left. }
  rewrite !fmap_app. f_equal.
  - rewrite <- list_fmap_compose. apply list_fmap_ext. intros j p Hp.
    simpl. rewrite decide_False; [done|]. intros <-. apply Hi.
    apply list_elem_of_fmap. exists p. split; [done|].
    by apply list_elem_of_lookup_2 in Hp.
  - simpl. by rewrite decide_True.
Qed.

Section comments.
Variable lib : libraries.

Lemma comment_label_new (es : list (Issue.t * Comment.t)) :
  Num (Z.of_nat (length es) + 1)
  ∉ (imap (λ n e, (Num (Z.of_nat n + 1), comment_row lib n e)) es).*1.
Proof.
  intros (p & Hp1 & Hp)%list_elem_of_fmap.
  apply list_elem_of_lookup in Hp as [j Hj].
  rewrite list_lookup_imap in Hj.
  destruct (es !! j) as [e|] eqn:He; [|done].
  apply lookup_lt_Some in He. simpl in Hj. injection Hj as <-.
  simpl in Hp1. injection Hp1 as Hp1. lia.
Qed.

Lemma comment_row_reindex n e :
  reindex comment_columns (comment_row lib n e) = comment_row lib n e.
Proof. unfold comment_row. vm_compute. reflexivity. Qed.

Lemma comment_rows_reindex (es : list (Issue.t * Comment.t)) :
  prod_map id (reindex comment_columns)
    <$> imap (λ n e, (Num (Z.of_nat n + 1), comment_row lib n e)) es
  = imap (λ n e, (Num (Z.of_nat n + 1), comment_row lib n e)) es.
Proof.
  rewrite fmap_imap. apply imap_ext. intros n e _. unfold prod_map. simpl.
  by rewrite comment_row_reindex.
Qed.

(** One comment adds its row, with or without an author. *)
Lemma issue_comment_row_spec issue comment es :
  readable lib [(issue, comment)] →
  issue_comment_row lib issue comment (comments_frame lib es)
  = (Ok (), comments_frame lib (es ++ [(issue, comment)])).
Proof.
  intros Hd. destruct (Hd (issue, comment)) as [d Hdate]; [by left|].
  simpl in Hdate.
  assert (comments_frame lib (es ++ [(issue, comment)])
          = snoc_frame comment_columns
              (imap (λ n e, (Num (Z.of_nat n + 1), comment_row lib n e)) es)
              (Num (Z.of_nat (length es) + 1))
              (comment_row lib (length es) (issue, comment))) as ->.
  { unfold comments_frame, snoc_frame. f_equal.
    - by destruct es.
    - rewrite imap_app. simpl. by rewrite Nat.add_0_r. }
  pose proof (comment_label_new es) as Hnew.
  set (i := Num (Z.of_nat (length es) + 1)) in *.
  set (old := imap (λ n e, (Num (Z.of_nat n + 1), comment_row lib n e)) es) in *.
  assert (comments_frame lib es
          = {| columns := match es with [] => [] | _ => comment_columns end;
               index_name := None; body := old |}) as -> by done.
  assert (length old = length es) as Hlen by (unfold old; apply length_imap).
  assert (∀ r, snoc_frame comment_columns
                 (prod_map id (reindex comment_columns) <$> old) i r
               = snoc_frame comment_columns old i r) as Hold.
  { intros r. unfold old. by rewrite comment_rows_reindex. }
  unfold issue_comment_row.
  cbv beta iota zeta delta [mbind mret ST_bind ST_ret modify gets lift raise
                            try_except next_label loc len body].
  rewrite Hlen. fold i. rewrite Hdate.
  unfold comment_row, comment_author. cbn [fst snd]. rewrite Hdate.
  destruct es as [|e0 es'].
  - (* the first row of the frame: the columns appear one by one *)
    destruct (Comment.author comment) as [a|]; vm_compute; reflexivity.
  - (* a later row: the columns are there *)
    rewrite loc_set_new by done.
    change (with_column comment_columns "issue_comments_id")
      with comment_columns.
    rewrite Hold, loc_set_last by done.
    change (with_column comment_columns "issue_key") with comment_columns.
    rewrite Hold.
    destruct (Comment.author comment) as [a|]; cbv beta iota delta [getattr_author].
    + rewrite loc_set_last by done.
      change (with_column comment_columns "author") with comment_columns.
      rewrite Hold, loc_set_last by done.
      change (with_column comment_columns "created") with comment_columns.
      rewrite Hold, loc_set_last by done.
      change (with_column comment_columns "body_text") with comment_columns.
      rewrite Hold.
      do 2 f_equal; vm_compute; reflexivity.
    + rewrite loc_set_last by done.
      change (with_column comment_columns "issue_comments_id")
        with comment_columns.
      rewrite Hold, loc_set_last by done.
      change (with_column comment_columns "issue_key") with comment_columns.
      rewrite Hold, loc_set_last by done.
      change (with_column comment_columns "author") with comment_columns.
      rewrite Hold, loc_set_last by done.
      change (with_column comment_columns "created") with comment_columns.
      rewrite Hold, loc_set_last by done.
      change (with_column comment_columns "body_text") with comment_columns.
      rewrite Hold.
      do 2 f_equal; vm_compute; reflexivity.
Qed.

Lemma readable_app es1 es2 :
  readable lib (es1 ++ es2) ↔ readable lib es1 ∧ readable lib es2.
Proof.
  unfold readable. setoid_rewrite elem_of_app. split.
  - intros H. split; intros e He; apply H; auto.
  - intros [H1 H2] e [He|He]; auto.
Qed.

(** The comments of one issue add their rows. *)
Lemma issue_comments_rows issue remarks es :
  readable lib (pair issue <$> remarks) →
  for_ remarks (issue_comment_row lib issue) (comments_frame lib es)
  = (Ok (), comments_frame lib (es ++ (pair issue <$> remarks))).
Proof.
  revert es. induction remarks as [|comment remarks IH]; intros es Hd.
  - simpl. by rewrite app_nil_r.
  - rewrite fmap_cons in Hd.
    apply (readable_app [_]) in Hd as [Hd1 Hd2].
    cbn [for_]. unfold mbind at 1, ST_bind at 1.
    rewrite issue_comment_row_spec by done.
    rewrite IH by done. by rewrite fmap_cons, <- app_assoc.
Qed.

(** The comments of all issues add their rows, when the server answers. *)
Lemma issue_comments_part_spec self issues es :
  (∀ issue, issue ∈ issues → ∃ remarks, comments (jira self) issue = Ok remarks) →
  readable lib (comments_of self issues) →
  issue_comments_part lib self issues (comments_frame lib es)
  = (Ok (), comments_frame lib (es ++ comments_of self issues)).
Proof.
  unfold issue_comments_part. revert es.
  induction issues as [|issue issues IH]; intros es Hj Hd.
  - simpl. by rewrite app_nil_r.
  - destruct (Hj issue) as [remarks Hr]; [by left|].
    assert (comments_of self (issue :: issues)
            = (pair issue <$> remarks) ++ comments_of self issues) as Hc.
    { unfold comments_of. rewrite bind_cons. by rewrite Hr. }
    rewrite Hc in *. apply readable_app in Hd as [Hd1 Hd2].
    cbn [for_]. unfold mbind at 1, ST_bind at 1.
    unfold mbind at 1, ST_bind at 1, lift at 1. rewrite Hr.
    rewrite issue_comments_rows by done.
    rewrite IH; [by rewrite <- app_assoc| |done].
    intros i Hi. apply Hj. by right.
Qed.

Lemma comments_dataframe self issues s :
  (∀ issue, issue ∈ issues → ∃ remarks, comments (jira self) issue = Ok remarks) →
  readable lib (comments_of self issues) →
  data_part_to_dataframe lib self issues "issue_comments" s
  = (Ok (comments_frame lib (comments_of self issues)),
     set_log (log s ++ [pretty (length (comments_of self issues))
                        +:+ " records converted for issue_comments"]) s).
Proof.
  intros Hj Hd. unfold data_part_to_dataframe.
  repeat (rewrite decide_False by done). rewrite decide_True by done.
  unfold mbind at 1, ST_bind at 1, run_local.
  change empty_frame with (comments_frame lib []).
  rewrite issue_comments_part_spec by done. simpl.
  unfold len. simpl. by rewrite length_imap.
Qed.

(** C9.  When the server returns the comments of every issue and their
    dates can be read, normalising the comments table returns a frame with
    one row per comment; the row of a comment that has no author is labelled
    and keyed by its position, refers to its issue, has the author
    [Unknown], and holds the date and the text of the comment. *)
Theorem comment_without_author self issues s :
  (∀ issue, issue ∈ issues → ∃ remarks, comments (jira self) issue = Ok remarks) →
  readable lib (comments_of self issues) →
  ∃ df s',
    data_part_to_dataframe lib self issues "issue_comments" s = (Ok df, s')
    ∧ len df = length (comments_of self issues)
    ∧ ∀ n issue comment,
        comments_of self issues !! n = Some (issue, comment) →
        Comment.author comment = None →
        ∃ row,
          body df !! n = Some (Num (Z.of_nat n + 1), row)
          ∧ cell_at "author" row = Str "Unknown"
          ∧ cell_at "issue_comments_id" row = Num (Z.of_nat n + 1)
          ∧ cell_at "issue_key" row = Str (Issue.key issue)
          ∧ Ok (cell_at "created" row)
            = string_to_datetime lib (Comment.created comment)
          ∧ cell_at "body_text" row
            = Str (make_delimit_ready (Comment.body comment)).
Proof.
  intros Hj Hd. eexists _, _. split; [by apply comments_dataframe|].
  split; [unfold len; simpl; by rewrite length_imap|].
  intros n issue comment Hn Ha.
  exists (comment_row lib n (issue, comment)). split.
  { simpl. rewrite list_lookup_imap, Hn. done. }
  destruct (Hd (issue, comment)) as [d Hdate].
  { by apply list_elem_of_lookup_2 in Hn. }
  simpl in Hdate. unfold comment_row, comment_author. simpl.
  rewrite Ha, Hdate. repeat split; vm_compute; reflexivity.
Qed.

End comments.

(** C9 on the issue with a signed and an anonymous comment. *)
Lemma comment_without_author_witness :
  ∃ df s',
    data_part_to_dataframe demo_lib (demo (demo_jira demo_issue))
      [demo_issue] "issue_comments" no_files = (Ok df, s')
    ∧ len df = length (comments_of (demo (demo_jira demo_issue)) [demo_issue])
    ∧ ∀ n issue comment,
        comments_of (demo (demo_jira demo_issue)) [demo_issue] !! n
        = Some (issue, comment) →
        Comment.author comment = None →
        ∃ row,
          body df !! n = Some (Num (Z.of_nat n + 1), row)
          ∧ cell_at "author" row = Str "Unknown"
          ∧ cell_at "issue_comments_id" row = Num (Z.of_nat n + 1)
          ∧ cell_at "issue_key" row = Str (Issue.key issue)
          ∧ Ok (cell_at "created" row)
            = string_to_datetime demo_lib (Comment.created comment)
          ∧ cell_at "body_text" row
            = Str (make_delimit_ready (Comment.body comment)).
Proof.
  apply (comment_without_author demo_lib (demo (demo_jira demo_issue))
           [demo_issue] no_files).
  - intros issue _. eexists. reflexivity.
  - unfold readable. apply Forall_forall.
    repeat constructor; eexists; vm_compute; reflexivity.
Defined.

(** ** C7: the [stakeholders] column of the [issues] table *)

Lemma with_column_in cols c : c ∈ cols → with_column cols c = cols.
Proof. intros H. unfold with_column. by rewrite decide_True. Qed.

Section issues.
Variable lib : libraries.







End issues.

(** C7 on a concrete issue.  The issue names the stakeholders Alice and Bob
    and the components ui and db: the [issues] table joins the components
    and the labels, and leaves the [stakeholders] column empty, while the
    [issue_stakeholders] table lists both names. *)
Lemma issues_stakeholders_column_empty :
  ∃ df s1 df' s2,
    data_part_to_dataframe demo_lib (demo (demo_jira demo_issue))
      [demo_issue] "issues" no_files = (Ok df, s1)
    ∧ cell_at "stakeholders" <$> rows df = [Str ""]
    ∧ cell_at "components" <$> rows df = [Str "ui,db"]
    ∧ cell_at "labels" <$> rows df = [Str "bug"]
    ∧ data_part_to_dataframe demo_lib (demo (demo_jira demo_issue))
        [demo_issue] "issue_stakeholders" no_files = (Ok df', s2)
    ∧ cell_at "stakeholder" <$> rows df' = [Str "Alice"; Str "Bob"].
Proof.
  do 4 eexists. split; [vm_compute; reflexivity|].
  split; [vm_compute; reflexivity|]. split; [vm_compute; reflexivity|].
  split; [vm_compute; reflexivity|]. split; vm_compute; reflexivity.
Qed.

(** ** Requests to the server *)

Lemma quiet_ret {A} (a : A) : quiet (mret a).
Proof. by intros s. Qed.

Lemma quiet_raise {A} e : quiet (raise (A := A) e).
Proof. by intros s. Qed.

Lemma quiet_lift {A} (r : result A) : quiet (lift r).
Proof. by intros s. Qed.

Lemma quiet_modify (f : State → State) :
  (∀ s, requests (f s) = requests s) → quiet (modify f).
Proof. intros Hf s. apply Hf. Qed.

Lemma quiet_msg text : quiet (msg text).
Proof. by apply quiet_modify. Qed.

Lemma quiet_bind {A B} (m : ST State A) (k : A → ST State B) :
  quiet m → (∀ a, quiet (k a)) → quiet (m ≫= k).
Proof.
  intros Hm Hk s. unfold mbind, ST_bind. specialize (Hm s).
  destruct (m s) as [[a|e] s1]; simpl in *; [|done].
  by rewrite Hk.
Qed.

Lemma quiet_try_except {A} (m : ST State A) (h : exn → ST State A) :
  quiet m → (∀ e, quiet (h e)) → quiet (try_except m h).
Proof.
  intros Hm Hh s. unfold try_except. specialize (Hm s).
  destruct (m s) as [[a|e] s1]; simpl in *; [done|].
  by rewrite Hh.
Qed.

Lemma quiet_for {A} (xs : list A) (f : A → ST State unit) :
  (∀ x, quiet (f x)) → quiet (for_ xs f).
Proof.
  intros Hf. induction xs as [|x xs IH]; simpl.
  - apply quiet_ret.
  - apply quiet_bind; auto.
Qed.

Lemma quiet_run_local {L} (init : L) (m : ST L unit) :
  quiet (run_local init m).
Proof. intros s. unfold run_local. by destruct (m init) as [[?|?] ?]. Qed.

Lemma quiet_file_to_dataframe file_path :
  quiet (file_to_dataframe file_path).
Proof.
  apply quiet_try_except.
  - apply quiet_bind; [|intros df; apply quiet_ret].
    intros s. unfold read_csv. by destruct (files s !! file_path).
  - intros []; try apply quiet_raise.
    apply quiet_bind; [apply quiet_msg|intros _; apply quiet_ret].
Qed.

Lemma quiet_data_part_to_dataframe lib self issues data_part_name :
  quiet (data_part_to_dataframe lib self issues data_part_name).
Proof.
  apply quiet_bind; [apply quiet_run_local|]. intros df.
  apply quiet_bind; [apply quiet_msg|intros _; apply quiet_ret].
Qed.

Lemma quiet_update_dataframe existing_df updated_df key_column :
  quiet (update_dataframe existing_df updated_df key_column).
Proof.
  unfold update_dataframe.
  destruct (dataframe_has_rows updated_df),
    (dataframe_has_rows existing_df); simpl;
    first [apply quiet_lift
          |apply quiet_bind; [apply quiet_msg|intros _; apply quiet_ret]].
Qed.

Lemma quiet_to_csv final_df file_path :
  quiet (to_csv final_df file_path).
Proof.
  destruct final_df; [|apply quiet_raise]. by apply quiet_modify.
Qed.

Lemma quiet_refresh_data_part lib self data_part_name issues :
  quiet (refresh_data_part lib self data_part_name issues).
Proof.
  unfold refresh_data_part.
  apply quiet_bind; [apply quiet_lift|]. intros key_name.
  apply quiet_bind; [apply quiet_data_part_to_dataframe|]. intros updated_df.
  apply quiet_bind; [apply quiet_file_to_dataframe|]. intros existing_df.
  apply quiet_bind; [apply quiet_update_dataframe|]. intros final_df.
  apply quiet_bind; [by apply quiet_modify|]. intros _.
  apply quiet_bind; [apply quiet_to_csv|]. intros _. apply quiet_ret.
Qed.

(** ** C6: the watermark *)

Lemma bind_ret {S A B} (a : A) (k : A → ST S B) s : (mret a ≫= k) s = k a s.
Proof. done. Qed.

Lemma bind_lift_ok {S A B} (a : A) (k : A → ST S B) s :
  (lift (Ok a) ≫= k) s = k a s.
Proof. done. Qed.

Lemma bind_msg {B} text (k : unit → ST State B) s :
  (msg text ≫= k) s = k () (set_log (log s ++ [text]) s).
Proof. done. Qed.

Lemma bind_run {S A B} (m : ST S A) (k : A → ST S B) s a s' :
  m s = (Ok a, s') → (m ≫= k) s = k a s'.
Proof. intros H. unfold mbind, ST_bind. by rewrite H. Qed.

Lemma bind_assoc {S A B C} (m : ST S A) (f : A → ST S B) (g : B → ST S C) s :
  ((m ≫= f) ≫= g) s = (m ≫= (λ a, f a ≫= g)) s.
Proof. unfold mbind, ST_bind. by destruct (m s) as [[a|e] s1]. Qed.

Lemma requests_bind_quiet {A B} (m : ST State A) (k : A → ST State B) l :
  (∀ s, requests (m s).2 = requests s ++ l) → (∀ a, quiet (k a)) →
  ∀ s, requests ((m ≫= k) s).2 = requests s ++ l.
Proof.
  intros Hm Hk s. unfold mbind, ST_bind. specialize (Hm s).
  destruct (m s) as [[a|e] s1]; simpl in *; [|done].
  by rewrite Hk.
Qed.

Lemma requests_retrieve_issues self jql max_results s :
  requests (retrieve_issues self jql max_results s).2
  = requests s ++ [(jql, max_results)].
Proof.
  unfold retrieve_issues.
  cbv beta iota zeta delta [mbind mret ST_bind ST_ret modify lift msg].
  by destruct (search_issues (jira self) jql max_results).
Qed.

Lemma strftime_Ymd_day d : strftime_Ymd d = day_string (ordinal d).
Proof. done. Qed.

Lemma day_string_truthy n : truthy (PyStr (day_string n)) = true.
Proof.
  unfold day_string, strftime_Ymd. simpl.
  destruct (ord2ymd n) as [[year month] day].
  by destruct (zfill 4 year).
Qed.

Lemma get_issues_file_mod_date_spec lib self s :
  get_issues_file_mod_date lib self s = (Ok (PyStr (watermark lib self s)), s).
Proof.
  unfold get_issues_file_mod_date, watermark.
  cbv beta iota zeta delta [mbind mret ST_bind ST_ret gets].
  destruct (files s !! _) as [f|]; [|done].
  rewrite strftime_Ymd_day. do 4 f_equal.
  unfold datetime_add, fromtimestamp, watermark_day.
  cbn [ordinal second_of_day days seconds]. rewrite Z.add_0_r.
  rewrite (Z.div_small (_ `mod` 86400)) by (apply Z.mod_pos_bound; lia).
  lia.
Qed.

Lemma quiet_tables lib self issues :
  quiet (parts ← lift data_parts;
         for_ parts (λ data_part,
           msg ("Updating data_part " +:+ data_part);;
           refresh_data_part lib self data_part issues;;
           mret ());;
         msg "Issue Information update completed...";;
         msg "###################################################";;
         mret true).
Proof.
  apply quiet_bind; [apply quiet_lift|]. intros parts.
  apply quiet_bind.
  - apply quiet_for. intros part.
    apply quiet_bind; [apply quiet_msg|]. intros _.
    apply quiet_bind; [apply quiet_refresh_data_part|].
    intros _. apply quiet_ret.
  - intros _. repeat (apply quiet_bind; [apply quiet_msg|intros _]).
    apply quiet_ret.
Qed.

(** C6, as the code has it.  Given a project key, the watermark is the empty
    string when the data directory has no file of the [issues] table, and
    the pass then searches for every issue of the project; otherwise it is
    the date of the day before the local day the file was last written, in
    the form year-month-day, and the pass searches for the issues updated
    or worked on since that date. *)
Theorem watermark_routes lib self s :
  project_key self ≠ "" →
  get_issues_file_mod_date lib self s = (Ok (PyStr (watermark lib self s)), s)
  ∧ match files s !! get_file_path_for_data_part lib self "issues" with
    | None =>
        watermark lib self s = ""
        ∧ requests (get_project_data lib self PyNone s).2
          = requests s ++ [(full_query self, 0%Z)]
    | Some f =>
        watermark lib self s = day_string (watermark_day lib (mtime f))
        ∧ requests (get_project_data lib self PyNone s).2
          = requests s
            ++ [(incremental_query lib self (watermark lib self s), 0%Z)]
    end.
Proof.
  intros Hkey. split; [apply get_issues_file_mod_date_spec|].
  assert (truthy (PyStr (project_key self)) = true) as Htrue.
  { simpl. apply negb_true_iff. by apply String.eqb_neq. }
  assert (∀ l s, watermark lib self (set_log l s) = watermark lib self s)
    as Hlog by done.
  destruct (files s !! _) as [f|] eqn:Hf.
  - assert (watermark lib self s = day_string (watermark_day lib (mtime f)))
      as Hw by (unfold watermark; by rewrite Hf).
    split; [done|].
    unfold get_project_data. rewrite Htrue. cbn [negb is_None].
    rewrite bind_ret, !bind_msg, bind_assoc, bind_msg.
    rewrite (bind_run _ _ _ _ _ (get_issues_file_mod_date_spec lib self _)).
    rewrite !Hlog, Hw, day_string_truthy. cbn [negb].
    rewrite bind_assoc, bind_lift_ok.
    rewrite bind_assoc, bind_msg.
    unfold retrieve_latest_issues.
    rewrite (requests_bind_quiet _ _
               [(incremental_query lib self
                   (day_string (watermark_day lib (mtime f))), 0%Z)]).
    + done.
    + intros s'. apply requests_retrieve_issues.
    + intros issues. apply quiet_tables.
  - assert (watermark lib self s = "") as Hw
      by (unfold watermark; by rewrite Hf).
    split; [done|].
    unfold get_project_data. rewrite Htrue. cbn [negb is_None].
    rewrite bind_ret, !bind_msg, bind_assoc, bind_msg.
    rewrite (bind_run _ _ _ _ _ (get_issues_file_mod_date_spec lib self _)).
    rewrite !Hlog, Hw. cbn [truthy String.eqb negb].
    rewrite bind_assoc, bind_msg.
    rewrite (requests_bind_quiet _ _ [(full_query self, 0%Z)]).
    + done.
    + intros s'. apply requests_retrieve_issues.
    + intros issues. apply quiet_tables.
Qed.

(** C6 fails as stated: without a file the watermark is the empty string,
    which is not [None]. *)
Lemma watermark_counterexample :
  files no_files
    !! get_file_path_for_data_part demo_lib (demo (demo_jira demo_issue))
         "issues" = None
  ∧ (get_issues_file_mod_date demo_lib (demo (demo_jira demo_issue))
       no_files).1 = Ok (PyStr "")
  ∧ is_None (PyStr "") = false.
Proof. split; [vm_compute; reflexivity|]. split; reflexivity. Qed.

(** C6 on a file written on 15 October 2019: the watermark is 14 October
    and the pass sends the incremental search. *)
Lemma watermark_routes_witness :
  get_issues_file_mod_date demo_lib (demo (demo_jira demo_issue)) synced
  = (Ok (PyStr "2019-10-14"), synced)
  ∧ watermark demo_lib (demo (demo_jira demo_issue)) synced = "2019-10-14"
  ∧ requests
      (get_project_data demo_lib (demo (demo_jira demo_issue)) PyNone
         synced).2
    = [("(project = DEMO) and (updatedDate >= 2019-10-14 "
        +:+ "or worklogDate >= 2019-10-14)", 0%Z)].
Proof.
  pose proof (watermark_routes demo_lib (demo (demo_jira demo_issue)) synced)
    as H.
  vm_compute in H. vm_compute. apply H. discriminate.
Defined.

(** ** C5 and C8: the loop over the tables *)

Lemma data_parts_tables : data_parts = Ok tables.
Proof. vm_compute. reflexivity. Qed.

Lemma bind_ext {S A B} (m : ST S A) (f g : A → ST S B) s :
  (∀ a s', f a s' = g a s') → (m ≫= f) s = (m ≫= g) s.
Proof.
  intros H. unfold mbind, ST_bind. by destruct (m s) as [[a|e] s1].
Qed.

Lemma get_project_data_split lib self from_date s :
  get_project_data lib self from_date s
  = (issues ← before_tables lib self from_date;
     for_ tables (table_step lib self issues);;
     after_tables) s.
Proof.
  unfold get_project_data, before_tables. rewrite data_parts_tables.
  symmetry.
  do 4 (rewrite bind_assoc; apply bind_ext; intros ? ?).
  apply bind_ext. intros issues s5. by rewrite bind_lift_ok.
Qed.

Lemma for_app {S A} (l1 l2 : list A) (f : A → ST S unit) s :
  for_ (l1 ++ l2) f s = (for_ l1 f;; for_ l2 f) s.
Proof.
  revert s. induction l1 as [|x l1 IH]; intros s; simpl; [done|].
  unfold mbind, ST_bind in *. destruct (f x s) as [[[]|e] s1]; [|done].
  apply IH.
Qed.

(** C8, as the code has it.  Once the issues are fetched, the pass refreshes
    the six tables in the order of the registry, each after the one before
    has returned: when all six return, the pass prints its last messages
    and returns [True]; when the refresh of a table raises, the pass ends
    there with that exception, in the state the refresh left, and the later
    tables are not refreshed. *)
Theorem get_project_data_tables lib self from_date s issues s0 :
  before_tables lib self from_date s = (Ok issues, s0) →
  (∀ s6,
     for_ tables (table_step lib self issues) s0 = (Ok (), s6) →
     get_project_data lib self from_date s = after_tables s6
     ∧ (after_tables s6).1 = Ok true)
  ∧ (∀ done part rest s1 e s2,
       tables = done ++ part :: rest →
       for_ done (table_step lib self issues) s0 = (Ok (), s1) →
       table_step lib self issues part s1 = (Raise e, s2) →
       get_project_data lib self from_date s = (Raise e, s2)).
Proof.
  intros Hb. split.
  - intros s6 H6. split; [|done].
    rewrite get_project_data_split, (bind_run _ _ _ _ _ Hb).
    by rewrite (bind_run _ _ _ _ _ H6).
  - intros done part rest s1 e s2 Ht Hd Hp.
    rewrite get_project_data_split, (bind_run _ _ _ _ _ Hb).
    unfold mbind at 1, ST_bind at 1. rewrite Ht, for_app.
    rewrite (bind_run _ _ _ _ _ Hd). cbn [for_].
    unfold mbind at 1, ST_bind at 1. by rewrite Hp.
Qed.

(** Two passes over an empty data directory.  On the server that answers,
    all six tables return and the pass returns [True]; on the server whose
    work-log request fails, four tables return, the fifth raises and the
    pass ends in the state the fifth left. *)
Lemma get_project_data_tables_witness :
  (let s0 :=
     (before_tables demo_lib (demo (demo_jira demo_issue)) PyNone
        no_files).2 in
   let s6 :=
     (for_ tables
        (table_step demo_lib (demo (demo_jira demo_issue)) [demo_issue])
        s0).2 in
   get_project_data demo_lib (demo (demo_jira demo_issue)) PyNone no_files
   = after_tables s6
   ∧ (after_tables s6).1 = Ok true)
  ∧ (let s0 :=
       (before_tables demo_lib (demo failing_jira) PyNone no_files).2 in
     let s4 :=
       (for_ ["issues"; "issue_components"; "issue_labels";
              "issue_stakeholders"]
          (table_step demo_lib (demo failing_jira) [demo_issue]) s0).2 in
     let s5 :=
       (table_step demo_lib (demo failing_jira) [demo_issue]
          "issue_worklogs" s4).2 in
     get_project_data demo_lib (demo failing_jira) PyNone no_files
     = (Raise JIRAError, s5)).
Proof.
  split.
  - apply (get_project_data_tables demo_lib (demo (demo_jira demo_issue))
             PyNone no_files [demo_issue]
             (before_tables demo_lib (demo (demo_jira demo_issue)) PyNone
                no_files).2);
      vm_compute; reflexivity.
  - apply (get_project_data_tables demo_lib (demo failing_jira) PyNone
             no_files [demo_issue]
             (before_tables demo_lib (demo failing_jira) PyNone no_files).2)
      with (done := ["issues"; "issue_components"; "issue_labels";
                     "issue_stakeholders"])
           (part := "issue_worklogs") (rest := ["issue_comments"])
           (s1 := (for_ ["issues"; "issue_components"; "issue_labels";
                         "issue_stakeholders"]
                     (table_step demo_lib (demo failing_jira) [demo_issue])
                     (before_tables demo_lib (demo failing_jira) PyNone
                        no_files).2).2);
      vm_compute; reflexivity.
Defined.

(** C8 fails as stated: the work-log request fails, the pass raises at the
    fifth table, and the sixth table is never refreshed: no message, no
    frame and no file of it. *)
Lemma get_project_data_tables_counterexample :
  (get_project_data demo_lib (demo failing_jira) PyNone no_files).1
  = Raise JIRAError
  ∧ last (log (get_project_data demo_lib (demo failing_jira) PyNone
                 no_files).2)
    = Some "Updating data_part issue_worklogs"
  ∧ ("Updating data_part issue_comments"
     ∉ log (get_project_data demo_lib (demo failing_jira) PyNone no_files).2)
  ∧ data_part_dataframes
      (get_project_data demo_lib (demo failing_jira) PyNone no_files).2
    !! "issue_comments" = None
  ∧ files (get_project_data demo_lib (demo failing_jira) PyNone no_files).2
    !! get_file_path_for_data_part demo_lib (demo failing_jira)
         "issue_comments" = None.
Proof.
  split; [vm_compute; reflexivity|]. split; [vm_compute; reflexivity|].
  split; [compute_done|]. split; vm_compute; reflexivity.
Qed.

(** C5 on a first pass over a project whose one issue has no components.
    The merge itself reports the missing data and returns [None] without
    raising, whenever neither frame has rows; [refresh_data_part] then calls
    [to_csv] on that [None], which raises [AttributeError], and the pass
    ends at the second table: the [issues] file is the only file written
    and the four tables after [issue_components] are never refreshed. *)
Lemma no_data_aborts_the_pass :
  (∀ existing_df updated_df key_column s,
     dataframe_has_rows existing_df = false →
     dataframe_has_rows updated_df = false →
     update_dataframe existing_df updated_df key_column s
     = (Ok None,
        set_log (log s ++ ["update_dataframe(): there is neither an existing "
                           +:+ "nor updated dataframe passed"]) s))
  ∧ (get_project_data demo_lib (demo (demo_jira plain_issue)) PyNone
       no_files).1 = Raise AttributeError
  ∧ last (log (get_project_data demo_lib (demo (demo_jira plain_issue))
                 PyNone no_files).2)
    = Some ("update_dataframe(): there is neither an existing "
            +:+ "nor updated dataframe passed")
  ∧ data_part_dataframes
      (get_project_data demo_lib (demo (demo_jira plain_issue)) PyNone
         no_files).2 !! "issue_components" = Some None
  ∧ dom (files (get_project_data demo_lib (demo (demo_jira plain_issue))
                  PyNone no_files).2)
    = {[ "/data/DEMO/DEMO_ISSUES.csv" ]}
  ∧ Forall (λ part,
       data_part_dataframes
         (get_project_data demo_lib (demo (demo_jira plain_issue)) PyNone
            no_files).2 !! part = None)
      ["issue_labels"; "issue_stakeholders"; "issue_worklogs";
       "issue_comments"].
Proof.
  split.
  { intros e u k s He Hu. unfold update_dataframe. by rewrite He, Hu. }
  split; [vm_compute; reflexivity|].
  split; [vm_compute; reflexivity|]. split; [vm_compute; reflexivity|].
  split; compute_done.
Qed.

(** ** [make_delimit_ready]: the text it returns *)

Lemma apart_head a t new :
  apart (String a t) new = true →
  (∀ c new', new = String c new' → a ≠ c) ∧ apart t new = true.
Proof.
  unfold apart. simpl. intros [Ha Ht]%andb_true_iff. split; [|done].
  intros c new' -> ->. simpl in Ha.
  by rewrite Ascii.eqb_refl in Ha.
Qed.

Lemma apart_tail t c new :
  apart t (String c new) = true → apart t new = true.
Proof.
  unfold apart. induction (list_ascii_of_string t) as [|a l IH]; [done|].
  simpl. intros [Ha Hl]%andb_true_iff. apply andb_true_iff. split; [|auto].
  apply negb_true_iff. apply negb_true_iff in Ha.
  by apply orb_false_iff in Ha as [_ ?].
Qed.

Lemma prefix_cons_inv t c s :
  String.prefix t (String c s) = true →
  t = "" ∨ ∃ t', t = String c t' ∧ String.prefix t' s = true.
Proof.
  destruct t as [|a t']; [by left|]. simpl.
  destruct (ascii_dec a c) as [->|]; [|done]. right. eauto.
Qed.

(** A text that shares no character with [new] and starts the result of
    a replacement starts the original text too. *)
Lemma prefix_replace old new p s :
  new ≠ "" → apart p new = true →
  String.prefix p (replace_from old new 0 s) = true →
  String.prefix p s = true.
Proof.
  intros Hnew. revert p. induction s as [|c s IH]; intros p Hp; [done|].
  destruct p as [|a p']; [done|]. cbn [replace_from].
  apply apart_head in Hp as [Ha Hp'].
  destruct (String.prefix old (String c s)).
  - destruct new as [|b new']; [done|]. simpl.
    destruct (ascii_dec a b) as [->|]; [|done]. by destruct (Ha b new').
  - simpl. destruct (ascii_dec a c); [|done]. by apply IH.
Qed.

(** A text that shares no character with [new] does not start inside it. *)
Lemma occurs_app new t o :
  t ≠ "" → apart t new = true →
  occurs t o = false → occurs t (new +:+ o) = false.
Proof.
  intros Ht Hap Ho. induction new as [|b new IH]; [done|].
  cbn [String.append occurs]. apply orb_false_iff. split.
  - destruct t as [|a t']; [done|]. simpl.
    destruct (ascii_dec a b) as [->|]; [|done].
    apply apart_head in Hap as [Ha _]. by destruct (Ha b new).
  - apply IH. by apply apart_tail in Hap.
Qed.

Lemma occurs_nil t : t ≠ "" → occurs t "" = false.
Proof. by destruct t. Qed.

(** A replacement brings in no occurrence of a text that shares no character
    with what it writes. *)
Lemma occurs_replace_from old new t n s :
  t ≠ "" → new ≠ "" → apart t new = true →
  occurs t s = false → occurs t (replace_from old new n s) = false.
Proof.
  intros Ht Hnew Hap. revert n. induction s as [|c s IH]; intros n Hs.
  { by destruct n. }
  cbn [occurs] in Hs. apply orb_false_iff in Hs as [Hpre Hs].
  destruct n as [|n]; cbn [replace_from]; [|by apply IH].
  destruct (String.prefix old (String c s)).
  - apply occurs_app; [done..|]. by apply IH.
  - cbn [occurs]. apply orb_false_iff. split; [|by apply IH].
    destruct (String.prefix t (String c (replace_from old new 0 s))) eqn:Hp;
      [|done].
    apply prefix_cons_inv in Hp as [->|(t' & -> & Hp)]; [done|].
    apply apart_head in Hap as [_ Hap].
    apply prefix_replace in Hp; [|done..].
    simpl in Hpre. destruct (ascii_dec c c); congruence.
Qed.

(** A replacement leaves no occurrence of the text it replaces. *)
Lemma occurs_replaced_from old new n s :
  old ≠ "" → new ≠ "" → apart old new = true →
  occurs old (replace_from old new n s) = false.
Proof.
  intros Hold Hnew Hap. revert n. induction s as [|c s IH]; intros n.
  { destruct n; by apply occurs_nil. }
  destruct n as [|n]; cbn [replace_from]; [|by apply IH].
  destruct (String.prefix old (String c s)) eqn:Hpre.
  - apply occurs_app; [done..|]. by apply IH.
  - cbn [occurs]. apply orb_false_iff. split; [|by apply IH].
    destruct (String.prefix old (String c (replace_from old new 0 s))) eqn:Hp;
      [|done].
    apply prefix_cons_inv in Hp as [->|(t' & -> & Hp)]; [done|].
    apply apart_head in Hap as [_ Hap].
    apply prefix_replace in Hp; [|done..].
    simpl in Hpre. destruct (ascii_dec c c); congruence.
Qed.

Lemma occurs_replace old new t s :
  t ≠ "" → new ≠ "" → apart t new = true →
  occurs t s = false → occurs t (replace old new s) = false.
Proof. apply occurs_replace_from. Qed.

Lemma occurs_replaced old new s :
  old ≠ "" → new ≠ "" → apart old new = true →
  occurs old (replace old new s) = false.
Proof. apply occurs_replaced_from. Qed.

(** A replacement changes nothing in a text without the text it replaces. *)
Lemma replace_absent old new s : occurs old s = false → replace old new s = s.
Proof.
  unfold replace. induction s as [|c s IH]; [done|].
  cbn [occurs replace_from]. intros [-> Hs]%orb_false_iff.
  by rewrite IH.
Qed.

(** Goals of the form [occurs t (replace old new s) = false], along the
    replacements of [make_delimit_ready]. *)
Ltac absent :=
  repeat first
    [ apply occurs_replaced; [done|done|vm_compute; reflexivity]
    | apply occurs_replace; [done|done|vm_compute; reflexivity|] ].

Lemma make_delimit_ready_absent x :
  Forall (λ t, occurs t (make_delimit_ready x) = false) rewritten.
Proof.
  unfold make_delimit_ready. destruct x as [s|].
  2:{ repeat constructor. }
  destruct (truthy_str (Some s)).
  2:{ repeat constructor. }
  unfold rewritten. repeat apply Forall_cons_2; [absent..|constructor].
Qed.

Lemma make_delimit_ready_fixed s :
  Forall (λ t, occurs t s = false) rewritten → make_delimit_ready (Some s) = s.
Proof.
  unfold rewritten. rewrite !Forall_cons.
  intros (H1 & H2 & H3 & H4 & H5 & H6 & H7 & H8 & H9 & _).
  unfold make_delimit_ready. destruct (truthy_str (Some s)) eqn:Hs.
  - cbv zeta. by repeat (rewrite (replace_absent _ _ s) by assumption).
  - simpl in Hs. by apply negb_false_iff, String.eqb_eq in Hs.
Qed.

(** X1.  The text [make_delimit_ready] returns holds none of the texts it
    replaces: no curly quote, no form feed, no carriage return, no line
    feed, and no backslash followed by [r]; cleaning it again therefore
    returns it as it is. *)
Theorem make_delimit_ready_clean x :
  (∀ t, t ∈ rewritten → occurs t (make_delimit_ready x) = false)
  ∧ make_delimit_ready (Some (make_delimit_ready x)) = make_delimit_ready x.
Proof.
  split.
  - apply Forall_forall, make_delimit_ready_absent.
  - apply make_delimit_ready_fixed, make_delimit_ready_absent.
Qed.

(** A text of two lines: the line feed is gone. *)
Lemma make_delimit_ready_clean_witness :
  line_feed ∈ rewritten
  ∧ occurs line_feed
      (make_delimit_ready
         (Some ("first line" +:+ line_feed +:+ "second line"))) = false.
Proof.
  split; [compute_done|].
  apply (proj1 (make_delimit_ready_clean
                  (Some ("first line" +:+ line_feed +:+ "second line")))
           line_feed).
  compute_done.
Defined.

(** X2.  [make_delimit_ready] returns a text unchanged exactly when the text
    holds none of the texts it replaces. *)
Theorem make_delimit_ready_unchanged s :
  make_delimit_ready (Some s) = s
  ↔ Forall (λ t, occurs t s = false) rewritten.
Proof.
  split.
  - intros <-. apply make_delimit_ready_absent.
  - apply make_delimit_ready_fixed.
Qed.

(** A text with a dash and an underscore is returned as it is. *)
Lemma make_delimit_ready_unchanged_witness :
  make_delimit_ready (Some "a dash - and an underscore _")
  = "a dash - and an underscore _".
Proof.
  apply (proj2 (make_delimit_ready_unchanged "a dash - and an underscore _")).
  compute_done.
Defined.

(** ** The registry of the tables *)

Lemma settings_data_part :
  getitem data_part_settings "data_part" = Ok (Str <$> tables).
Proof. vm_compute. reflexivity. Qed.

Lemma eq_mask_tables d :
  d ∉ tables → eq_mask (Str <$> tables) (Str d) = (λ _, false) <$> tables.
Proof.
  intros Hd. unfold eq_mask. rewrite <- list_fmap_compose.
  apply list_fmap_ext. intros i x Hx. simpl.
  apply bool_decide_eq_false. intros [= ->]. apply Hd.
  by apply list_elem_of_lookup_2 in Hx.
Qed.

Lemma get_data_part_element_unknown d e :
  d ∉ tables →
  get_data_part_element d e
  = if decide (e ∈ columns data_part_settings) then Raise IndexError
    else Raise (KeyError e).
Proof.
  intros Hd. unfold get_data_part_element. rewrite settings_data_part.
  cbn [mbind result_bind]. rewrite eq_mask_tables by done.
  unfold getitem. cbn [select columns].
  destruct (decide _); [|done]. reflexivity.
Qed.

Lemma get_data_part_element_known d :
  d ∈ tables →
  ∃ k f, get_data_part_element d "key_name" = Ok (Str k)
         ∧ get_data_part_element d "file_name" = Ok (Str f)
         ∧ get_data_part_element d "data_part" = Ok (Str d).
Proof.
  unfold tables. rewrite !elem_of_cons, elem_of_nil.
  intros [->|[->|[->|[->|[->|[->|[]]]]]]]; eexists _, _;
    repeat split; vm_compute; reflexivity.
Qed.

Lemma get_data_part_element_column d e :
  e ∉ columns data_part_settings →
  get_data_part_element d e = Raise (KeyError e).
Proof.
  intros He. unfold get_data_part_element. rewrite settings_data_part.
  cbn [mbind result_bind]. unfold getitem at 1. cbn [select columns].
  by rewrite decide_False.
Qed.

(** X3.  The registry answers for the six tables and its three columns only:
    a column it does not have raises [KeyError], whatever the table; a table
    it does not have raises [IndexError]. *)
Theorem get_data_part_element_registry d e :
  (e ∉ columns data_part_settings →
   get_data_part_element d e = Raise (KeyError e))
  ∧ (e ∈ columns data_part_settings → d ∉ tables →
     get_data_part_element d e = Raise IndexError)
  ∧ (e ∈ columns data_part_settings → d ∈ tables →
     ∃ v, get_data_part_element d e = Ok (Str v)).
Proof.
  split; [apply get_data_part_element_column|]. split.
  - intros He Hd. rewrite get_data_part_element_unknown by done.
    by rewrite decide_True.
  - intros He Hd. destruct (get_data_part_element_known d Hd)
      as (k & f & Hk & Hf & Hn).
    cbn [columns data_part_settings] in He.
    rewrite !elem_of_cons, elem_of_nil in He.
    destruct He as [->|[->|[->|[]]]]; eauto.
Qed.

(** The registry has no table of sprints. *)
Lemma get_data_part_element_registry_witness :
  get_data_part_element "issue_sprints" "key_name" = Raise IndexError.
Proof.
  apply (proj1 (proj2 (get_data_part_element_registry
                         "issue_sprints" "key_name"))); compute_done.
Defined.

(** X4.  The path of a table. For one of the six tables it is the absolute
    path of the file named by the project key, an underscore and the file
    name of the registry, in the data directory; for any other name the
    lookup fails, the failure is swallowed, and the path is the empty
    string. *)
Theorem get_file_path_for_data_part_spec lib self d :
  (d ∉ tables → get_file_path_for_data_part lib self d = "")
  ∧ (d ∈ tables →
     ∃ f, get_data_part_element d "file_name" = Ok (Str f)
          ∧ get_file_path_for_data_part lib self d
            = abspath lib (data_directory_path self +:+ "/"
                           +:+ project_key self +:+ "_" +:+ f)).
Proof.
  unfold get_file_path_for_data_part. split.
  - intros Hd. rewrite get_data_part_element_unknown by done.
    by rewrite decide_True by compute_done.
  - intros Hd. destruct (get_data_part_element_known d Hd)
      as (k & f & Hk & Hf & Hn).
    exists f. by rewrite Hf.
Qed.

(** The path of a table of sprints is the empty string. *)
Lemma get_file_path_for_data_part_spec_witness :
  get_file_path_for_data_part demo_lib (demo (demo_jira demo_issue))
    "issue_sprints" = "".
Proof.
  apply (proj1 (get_file_path_for_data_part_spec demo_lib
                  (demo (demo_jira demo_issue)) "issue_sprints")).
  compute_done.
Defined.

(** X5.  A table that is not one of the six.  Normalising it raises
    [ValueError] with the name of the table and prints nothing; refreshing
    it raises [IndexError] at the lookup of its key, before anything is
    read, printed or written, so that the [ValueError] of the normaliser is
    never reached from a refresh. *)
Theorem data_part_unknown lib self found d s :
  d ∉ tables →
  data_part_to_dataframe lib self found d s
  = (Raise (ValueError ("The data_part_name given: '" +:+ d
              +:+ "' does not have a dataframe definition.")), s)
  ∧ refresh_data_part lib self d found s = (Raise IndexError, s).
Proof.
  intros Hd. split.
  - unfold tables in Hd. rewrite !not_elem_of_cons in Hd.
    destruct Hd as (? & ? & ? & ? & ? & ? & _).
    unfold data_part_to_dataframe. by rewrite !decide_False.
  - unfold refresh_data_part.
    rewrite get_data_part_element_unknown by done.
    by rewrite decide_True by compute_done.
Qed.

(** Normalising and refreshing a table of sprints. *)
Lemma data_part_unknown_witness :
  data_part_to_dataframe demo_lib (demo (demo_jira demo_issue)) [demo_issue]
    "issue_sprints" no_files
  = (Raise (ValueError ("The data_part_name given: 'issue_sprints"
              +:+ "' does not have a dataframe definition.")), no_files)
  ∧ refresh_data_part demo_lib (demo (demo_jira demo_issue)) "issue_sprints"
      [demo_issue] no_files = (Raise IndexError, no_files).
Proof.
  apply (data_part_unknown demo_lib (demo (demo_jira demo_issue))
           [demo_issue] "issue_sprints" no_files).
  compute_done.
Defined.

(** ** The tables of components, labels and stakeholders *)

(** Goals about the columns of a frame: membership in a list of names. *)
Ltac columns_solver :=
  intros; rewrite ?elem_of_cons, ?elem_of_nil in *; intuition congruence.

Section child_tables.
Variables kc vc : string.
Hypothesis kc_key : kc ≠ "issue_key".
Hypothesis vc_key : vc ≠ "issue_key".
Hypothesis kc_vc : kc ≠ vc.

Lemma child_label_new (es : list (string * string)) :
  Num (Z.of_nat (length es) + 1)
  ∉ (imap (λ n e, (Num (Z.of_nat n + 1), child_row kc vc n e)) es).*1.
Proof.
  intros (p & Hp1 & Hp)%list_elem_of_fmap.
  apply list_elem_of_lookup in Hp as [j Hj].
  rewrite list_lookup_imap in Hj.
  destruct (es !! j) as [e|] eqn:He; [|done].
  apply lookup_lt_Some in He. simpl in Hj. injection Hj as <-.
  simpl in Hp1. injection Hp1 as Hp1. lia.
Qed.

Lemma lookup_child_row n e c :
  child_row kc vc n e !! c
  = if decide (c = vc) then Some (Str (make_delimit_ready (Some e.2)))
    else if decide (c = "issue_key") then Some (Str e.1)
    else if decide (c = kc) then Some (Num (Z.of_nat n + 1))
    else None.
Proof.
  unfold child_row. repeat case_decide; simplify_map_eq; done.
Qed.

Lemma child_row_reindex n e :
  reindex [kc; "issue_key"; vc] (child_row kc vc n e) = child_row kc vc n e.
Proof.
  apply map_eq. intros c. rewrite lookup_reindex. unfold cell_at.
  rewrite lookup_child_row.
  destruct (decide (c ∈ [kc; "issue_key"; vc])) as [Hc|Hc].
  - repeat case_decide; try done. columns_solver.
  - repeat case_decide; try done; columns_solver.
Qed.

Lemma child_rows_reindex (es : list (string * string)) :
  prod_map id (reindex [kc; "issue_key"; vc])
    <$> imap (λ n e, (Num (Z.of_nat n + 1), child_row kc vc n e)) es
  = imap (λ n e, (Num (Z.of_nat n + 1), child_row kc vc n e)) es.
Proof.
  rewrite fmap_imap. apply imap_ext. intros n e _. unfold prod_map. simpl.
  by rewrite child_row_reindex.
Qed.

(** The row the three assignments build, whatever columns were there. *)
Lemma child_row_built c1 c2 n e :
  kc ∈ c1 → "issue_key" ∈ c2 →
  (∀ c, c ∈ c1 → c ∈ c2) → (∀ c, c ∈ c2 → c ∈ [kc; "issue_key"; vc]) →
  <[vc := Str (make_delimit_ready (Some e.2))]>
    (reindex [kc; "issue_key"; vc]
       (<["issue_key" := Str e.1]>
          (reindex c2 (<[kc := Num (Z.of_nat n + 1)]> (reindex c1 ∅)))))
  = child_row kc vc n e.
Proof.
  intros H1 H2 H12 H23. apply map_eq. intros c. rewrite lookup_child_row.
  destruct (decide (c = vc)) as [->|Hvc]; [by rewrite lookup_insert_eq|].
  rewrite lookup_insert_ne by done. rewrite lookup_reindex.
  destruct (decide (c = "issue_key")) as [->|Hkey].
  { rewrite decide_True by columns_solver. unfold cell_at.
    by rewrite lookup_insert_eq. }
  destruct (decide (c = kc)) as [->|Hkc].
  - rewrite decide_True by columns_solver. unfold cell_at at 1.
    rewrite lookup_insert_ne by done. rewrite lookup_reindex.
    rewrite decide_True by auto. unfold cell_at.
    by rewrite lookup_insert_eq.
  - rewrite decide_False; [done|]. columns_solver.
Qed.

(** One item adds its row. *)
Lemma child_step_spec issue item es :
  child_step kc vc issue item (child_frame kc vc es)
  = (Ok (), child_frame kc vc (es ++ [(issue, item)])).
Proof.
  assert (child_frame kc vc (es ++ [(issue, item)])
          = snoc_frame [kc; "issue_key"; vc]
              (imap (λ n e, (Num (Z.of_nat n + 1), child_row kc vc n e)) es)
              (Num (Z.of_nat (length es) + 1))
              (child_row kc vc (length es) (issue, item))) as ->.
  { unfold child_frame, snoc_frame. f_equal.
    - by destruct es.
    - rewrite imap_app. simpl. by rewrite Nat.add_0_r. }
  pose proof (child_label_new es) as Hnew.
  set (i := Num (Z.of_nat (length es) + 1)) in *.
  set (old := imap (λ n e, (Num (Z.of_nat n + 1), child_row kc vc n e)) es)
    in *.
  assert (child_frame kc vc es
          = {| columns := match es with
                          | [] => []
                          | _ => [kc; "issue_key"; vc]
                          end;
               index_name := None; body := old |}) as -> by done.
  assert (length old = length es) as Hlen by (unfold old; apply length_imap).
  unfold child_step.
  cbv beta iota zeta delta [mbind mret ST_bind ST_ret modify gets next_label
                            loc len body].
  rewrite Hlen. fold i.
  rewrite loc_set_new by done.
  destruct es as [|e0 es'].
  - (* the first row of the frame: the columns appear one by one *)
    unfold old. cbn [imap fmap list_fmap].
    assert (with_column [] kc = [kc]) as -> by done.
    rewrite loc_set_last by apply not_elem_of_nil.
    assert (with_column [kc] "issue_key" = [kc; "issue_key"]) as ->.
    { unfold with_column. rewrite decide_False; [done|]. columns_solver. }
    cbn [fmap list_fmap].
    rewrite loc_set_last by apply not_elem_of_nil.
    assert (with_column [kc; "issue_key"] vc = [kc; "issue_key"; vc]) as ->.
    { unfold with_column. rewrite decide_False; [done|]. columns_solver. }
    cbn [fmap list_fmap]. do 2 f_equal. unfold snoc_frame. f_equal.
    cbn [app]. do 2 f_equal.
    apply (child_row_built [kc] [kc; "issue_key"] 0 (issue, item));
      columns_solver.
  - (* a later row: the columns are there *)
    rewrite with_column_in by columns_solver.
    unfold old at 1. rewrite child_rows_reindex. fold old.
    rewrite loc_set_last by done.
    rewrite with_column_in by columns_solver.
    unfold old at 1. rewrite child_rows_reindex. fold old.
    rewrite loc_set_last by done.
    rewrite with_column_in by columns_solver.
    unfold old at 1. rewrite child_rows_reindex. fold old.
    do 2 f_equal. unfold snoc_frame. do 3 f_equal.
    apply (child_row_built [kc; "issue_key"; vc] [kc; "issue_key"; vc]
             (length (e0 :: es')) (issue, item)); columns_solver.
Qed.

(** The items of one issue add their rows. *)
Lemma child_steps_spec issue items es :
  for_ items (child_step kc vc issue) (child_frame kc vc es)
  = (Ok (), child_frame kc vc (es ++ (pair issue <$> items))).
Proof.
  revert es. induction items as [|item items IH]; intros es.
  - simpl. by rewrite app_nil_r.
  - cbn [for_]. unfold mbind at 1, ST_bind at 1.
    rewrite child_step_spec, IH. by rewrite fmap_cons, <- app_assoc.
Qed.

(** The items of all issues add their rows. *)
Lemma child_part_spec (items : Issue.t → list string) issues es :
  for_ issues (λ issue,
    for_ (items issue) (child_step kc vc (Issue.key issue)))
    (child_frame kc vc es)
  = (Ok (), child_frame kc vc (es ++ items_of items issues)).
Proof.
  revert es. induction issues as [|issue issues IH]; intros es.
  - simpl. by rewrite app_nil_r.
  - cbn [for_]. unfold mbind at 1, ST_bind at 1.
    rewrite child_steps_spec, IH. unfold items_of.
    by rewrite bind_cons, <- app_assoc.
Qed.

End child_tables.

Lemma len_child_frame kc vc es : len (child_frame kc vc es) = length es.
Proof. unfold len. simpl. apply length_imap. Qed.

Lemma issue_stakeholders_part_spec issues es :
  issue_stakeholders_part issues
    (child_frame "issue_stakeholder_key" "stakeholder" es)
  = (Ok (), child_frame "issue_stakeholder_key" "stakeholder"
              (es ++ items_of stakeholders_of issues)).
Proof.
  unfold issue_stakeholders_part. revert es.
  induction issues as [|issue issues IH]; intros es.
  - simpl. by rewrite app_nil_r.
  - cbn [for_]. unfold mbind at 1, ST_bind at 1.
    unfold items_of. rewrite bind_cons. fold (items_of stakeholders_of issues).
    unfold stakeholders_of at 1.
    destruct (Issue.customfield_10800 (Issue.fields issue)) as [[|x l]|].
    + cbn [pyval_of_names truthy fmap list_fmap mret ST_ret default
           from_option id app].
      apply IH.
    + cbn [pyval_of_names truthy fmap list_fmap default from_option id].
      change (for_ (x :: l) _)
        with (for_ (x :: l)
                (child_step "issue_stakeholder_key" "stakeholder"
                   (Issue.key issue))).
      rewrite child_steps_spec by done. rewrite IH. by rewrite <- app_assoc.
    + cbn [pyval_of_names truthy fmap list_fmap mret ST_ret default
           from_option id app].
      apply IH.
Qed.

(** X6.  The three child tables of any list of issues.  The conversion of
    [issue_components], [issue_labels] and [issue_stakeholders] never
    raises; the table has one row for every component (label, name in the
    custom field) of every issue, in the order of the issues and of their
    items; the row of the [n]-th item (from 0) is labelled and keyed [n + 1]
    and holds the key of its issue and the cleaned text of the item.  An
    issue without items, or whose custom field is [None], adds no row. *)
Theorem child_tables_dataframes lib self issues s :
  let components :=
    items_of (λ issue, Issue.components (Issue.fields issue)) issues in
  let labels :=
    items_of (λ issue, Issue.labels (Issue.fields issue)) issues in
  let stakeholders := items_of stakeholders_of issues in
  data_part_to_dataframe lib self issues "issue_components" s
  = (Ok (child_frame "issue_component_key" "component" components),
     set_log (log s ++ [pretty (length components)
                        +:+ " records converted for issue_components"]) s)
  ∧ data_part_to_dataframe lib self issues "issue_labels" s
    = (Ok (child_frame "issue_label_key" "label" labels),
       set_log (log s ++ [pretty (length labels)
                          +:+ " records converted for issue_labels"]) s)
  ∧ data_part_to_dataframe lib self issues "issue_stakeholders" s
    = (Ok (child_frame "issue_stakeholder_key" "stakeholder" stakeholders),
       set_log (log s ++ [pretty (length stakeholders)
                          +:+ " records converted for issue_stakeholders"])
         s).
Proof.
  intros components labels stakeholders.
  unfold data_part_to_dataframe. split; [|split].
  - rewrite decide_False by done. rewrite decide_True by done.
    unfold mbind at 1, ST_bind at 1, run_local.
    change empty_frame
      with (child_frame "issue_component_key" "component" []).
    change (issue_components_part issues)
      with (for_ issues (λ issue,
              for_ (Issue.components (Issue.fields issue))
                (child_step "issue_component_key" "component"
                   (Issue.key issue)))).
    rewrite child_part_spec by done. cbn [app].
    cbv beta iota zeta delta [mbind mret ST_bind ST_ret msg modify].
    by rewrite len_child_frame.
  - do 3 (rewrite decide_False by done). rewrite decide_True by done.
    unfold mbind at 1, ST_bind at 1, run_local.
    change empty_frame with (child_frame "issue_label_key" "label" []).
    change (issue_labels_part issues)
      with (for_ issues (λ issue,
              for_ (Issue.labels (Issue.fields issue))
                (child_step "issue_label_key" "label" (Issue.key issue)))).
    rewrite child_part_spec by done. cbn [app].
    cbv beta iota zeta delta [mbind mret ST_bind ST_ret msg modify].
    by rewrite len_child_frame.
  - do 2 (rewrite decide_False by done). rewrite decide_True by done.
    unfold mbind at 1, ST_bind at 1, run_local.
    change empty_frame
      with (child_frame "issue_stakeholder_key" "stakeholder" []).
    rewrite issue_stakeholders_part_spec. cbn [app].
    cbv beta iota zeta delta [mbind mret ST_bind ST_ret msg modify].
    by rewrite len_child_frame.
Qed.

(** ** The table of the work-log *)

Lemma bind_cong {S A B} (m1 m2 : ST S A) (k1 k2 : A → ST S B) s :
  m1 s = m2 s → (∀ a s', k1 a s' = k2 a s') →
  (m1 ≫= k1) s = (m2 ≫= k2) s.
Proof.
  intros Hm Hk. unfold mbind, ST_bind. rewrite Hm.
  by destruct (m2 s) as [[a|e] s1].
Qed.

Section worklogs.
Variable lib : libraries.

Lemma worklog_label_new (es : list (Issue.t * Worklog.t)) :
  Num (Z.of_nat (length es) + 1)
  ∉ (imap (λ n e, (Num (Z.of_nat n + 1), worklog_row lib n e)) es).*1.
Proof.
  intros (p & Hp1 & Hp)%list_elem_of_fmap.
  apply list_elem_of_lookup in Hp as [j Hj].
  rewrite list_lookup_imap in Hj.
  destruct (es !! j) as [e|] eqn:He; [|done].
  apply lookup_lt_Some in He. simpl in Hj. injection Hj as <-.
  simpl in Hp1. injection Hp1 as Hp1. lia.
Qed.

Lemma worklog_row_reindex n e :
  reindex worklog_columns (worklog_row lib n e) = worklog_row lib n e.
Proof. unfold worklog_row. vm_compute. reflexivity. Qed.

Lemma worklog_rows_reindex (es : list (Issue.t * Worklog.t)) :
  prod_map id (reindex worklog_columns)
    <$> imap (λ n e, (Num (Z.of_nat n + 1), worklog_row lib n e)) es
  = imap (λ n e, (Num (Z.of_nat n + 1), worklog_row lib n e)) es.
Proof.
  rewrite fmap_imap. apply imap_ext. intros n e _. unfold prod_map. simpl.
  by rewrite worklog_row_reindex.
Qed.

(** One entry with an author adds its row. *)
Lemma worklog_step_spec e es :
  is_Some (Worklog.author e.2) → timed lib e →
  worklog_step lib e (worklogs_frame lib es)
  = (Ok (), worklogs_frame lib (es ++ [e])).
Proof.
  intros [a Ha] ([d1 H1] & [d2 H2]).
  assert (worklogs_frame lib (es ++ [e])
          = snoc_frame worklog_columns
              (imap (λ n e, (Num (Z.of_nat n + 1), worklog_row lib n e)) es)
              (Num (Z.of_nat (length es) + 1))
              (worklog_row lib (length es) e)) as ->.
  { unfold worklogs_frame, snoc_frame. f_equal.
    - by destruct es.
    - rewrite imap_app. simpl. by rewrite Nat.add_0_r. }
  pose proof (worklog_label_new es) as Hnew.
  set (i := Num (Z.of_nat (length es) + 1)) in *.
  set (old := imap (λ n e, (Num (Z.of_nat n + 1), worklog_row lib n e)) es)
    in *.
  assert (worklogs_frame lib es
          = {| columns := match es with [] => [] | _ => worklog_columns end;
               index_name := None; body := old |}) as -> by done.
  assert (length old = length es) as Hlen by (unfold old; apply length_imap).
  assert (∀ r, snoc_frame worklog_columns
                 (prod_map id (reindex worklog_columns) <$> old) i r
               = snoc_frame worklog_columns old i r) as Hold.
  { intros r. unfold old. by rewrite worklog_rows_reindex. }
  unfold worklog_step.
  cbv beta iota zeta delta [mbind mret ST_bind ST_ret modify gets lift raise
                            next_label loc len body].
  rewrite Hlen. fold i.
  unfold worklog_row, date_cell. rewrite Ha, H1, H2.
  cbv beta iota zeta delta [getattr_author from_option].
  destruct es as [|e0 es'].
  - vm_compute. reflexivity.
  - rewrite loc_set_new by done.
    rewrite with_column_in, Hold by compute_done.
    repeat (rewrite loc_set_last by done;
            rewrite with_column_in, Hold by compute_done).
    do 2 f_equal; vm_compute; reflexivity.
Qed.

(** An entry without an author raises, whatever the frame holds. *)
Lemma worklog_step_raises e df :
  Worklog.author e.2 = None →
  ∃ df', worklog_step lib e df = (Raise AttributeError, df').
Proof.
  intros Ha. unfold worklog_step.
  cbv beta iota zeta delta [mbind mret ST_bind ST_ret modify gets lift raise
                            next_label loc].
  rewrite Ha. cbv beta iota zeta delta [getattr_author]. eauto.
Qed.

Lemma worklog_steps_spec es' es :
  Forall (λ e, is_Some (Worklog.author e.2) ∧ timed lib e) es' →
  for_ es' (worklog_step lib) (worklogs_frame lib es)
  = (Ok (), worklogs_frame lib (es ++ es')).
Proof.
  intros H. revert es. induction H as [|e es' [Ha Ht] _ IH]; intros es.
  - simpl. by rewrite app_nil_r.
  - cbn [for_]. unfold mbind at 1, ST_bind at 1.
    rewrite worklog_step_spec by done. rewrite IH.
    by rewrite <- app_assoc.
Qed.

Lemma worklog_steps_raise es' es :
  Forall (timed lib) es' →
  Exists (λ e, Worklog.author e.2 = None) es' →
  ∃ df', for_ es' (worklog_step lib) (worklogs_frame lib es)
         = (Raise AttributeError, df').
Proof.
  intros Ht. revert es. induction Ht as [|e es' Ht _ IH]; intros es Hex.
  - by apply Exists_nil in Hex.
  - cbn [for_]. unfold mbind at 1, ST_bind at 1.
    destruct (Worklog.author e.2) as [a|] eqn:Ha.
    + rewrite worklog_step_spec by (rewrite ?Ha; eauto).
      apply IH. apply Exists_cons in Hex as [Hex|Hex]; [|done].
      simpl in Hex. congruence.
    + destruct (worklog_step_raises e (worklogs_frame lib es) Ha) as [df' ->].
      eauto.
Qed.

Lemma for_pairs issue logs df :
  for_ logs (λ worklog, worklog_step lib (issue, worklog)) df
  = for_ (pair issue <$> logs) (worklog_step lib) df.
Proof.
  revert df. induction logs as [|w logs IH]; intros df; [done|].
  rewrite fmap_cons. cbn [for_]. by apply bind_cong.
Qed.

(** The two loops run over the entries of all issues, when the server
    answers. *)
Lemma issue_worklogs_part_flat self issues df :
  (∀ issue, issue ∈ issues → ∃ logs, worklogs (jira self) issue = Ok logs) →
  issue_worklogs_part lib self issues df
  = for_ (worklogs_of self issues) (worklog_step lib) df.
Proof.
  unfold issue_worklogs_part. revert df.
  induction issues as [|issue issues IH]; intros df Hj; [reflexivity|].
  destruct (Hj issue) as [logs Hl]; [by left|].
  unfold worklogs_of. rewrite bind_cons, Hl.
  fold (worklogs_of self issues). rewrite for_app.
  cbn [for_]. apply bind_cong.
  - rewrite Hl, bind_lift_ok. apply for_pairs.
  - intros _ df1. apply IH. intros i Hi. apply Hj. by right.
Qed.

End worklogs.

(** X7.  The [issue_worklogs] table.  When the server returns the work-log of
    every issue, every entry has an author and the dates can be read, the
    table has one row per entry, in order, labelled and keyed from 1, with
    the key of the issue, the name of the author, the two dates and the
    seconds spent. *)
Theorem issue_worklogs_dataframe lib self issues s :
  (∀ issue, issue ∈ issues → ∃ logs, worklogs (jira self) issue = Ok logs) →
  Forall (λ e, is_Some (Worklog.author e.2) ∧ timed lib e)
    (worklogs_of self issues) →
  data_part_to_dataframe lib self issues "issue_worklogs" s
  = (Ok (worklogs_frame lib (worklogs_of self issues)),
     set_log (log s ++ [pretty (length (worklogs_of self issues))
                        +:+ " records converted for issue_worklogs"]) s).
Proof.
  intros Hj Hl. unfold data_part_to_dataframe.
  do 4 (rewrite decide_False by done). rewrite decide_True by done.
  unfold mbind at 1, ST_bind at 1, run_local.
  rewrite issue_worklogs_part_flat by done.
  change empty_frame with (worklogs_frame lib []).
  rewrite worklog_steps_spec by done. cbn [app].
  cbv beta iota zeta delta [mbind mret ST_bind ST_ret msg modify].
  unfold len. simpl. by rewrite length_imap.
Qed.

(** The work-log of one issue, with one entry. *)
Lemma issue_worklogs_dataframe_witness :
  data_part_to_dataframe demo_lib (demo (demo_jira demo_issue)) [demo_issue]
    "issue_worklogs" no_files
  = (Ok (worklogs_frame demo_lib [(demo_issue, demo_worklog)]),
     set_log ["1 records converted for issue_worklogs"] no_files).
Proof.
  apply (issue_worklogs_dataframe demo_lib (demo (demo_jira demo_issue))
           [demo_issue] no_files).
  - intros issue _. eexists. reflexivity.
  - repeat constructor; eexists; vm_compute; reflexivity.
Defined.

(** X8.  A work-log entry without an author.  Unlike the comments, the loop
    over the work-log has no handler: when the server answers and the dates
    can be read, one entry without an author makes the conversion of the
    whole table raise [AttributeError], and nothing is printed. *)
Theorem worklog_without_author lib self issues s :
  (∀ issue, issue ∈ issues → ∃ logs, worklogs (jira self) issue = Ok logs) →
  Forall (timed lib) (worklogs_of self issues) →
  Exists (λ e, Worklog.author e.2 = None) (worklogs_of self issues) →
  data_part_to_dataframe lib self issues "issue_worklogs" s
  = (Raise AttributeError, s).
Proof.
  intros Hj Ht Hex. unfold data_part_to_dataframe.
  do 4 (rewrite decide_False by done). rewrite decide_True by done.
  unfold mbind at 1, ST_bind at 1, run_local.
  rewrite issue_worklogs_part_flat by done.
  change empty_frame with (worklogs_frame lib []).
  by destruct (worklog_steps_raise lib _ [] Ht Hex) as [df' ->].
Qed.

(** An issue whose work-log holds an entry without an author. *)
Lemma worklog_without_author_witness :
  data_part_to_dataframe demo_lib (demo anonymous_jira) [demo_issue]
    "issue_worklogs" no_files = (Raise AttributeError, no_files).
Proof.
  apply (worklog_without_author demo_lib (demo anonymous_jira) [demo_issue]
           no_files).
  - intros issue _. eexists. reflexivity.
  - repeat constructor; eexists; vm_compute; reflexivity.
  - apply Exists_cons_tl, Exists_cons_hd. reflexivity.
Defined.

(** ** The dates and the missing values of the [issues] table *)

Section issues_dates.
Variable lib : libraries.



End issues_dates.







(** ** The keys, the size and the errors of a merge *)

Lemma keep_first_keys k seen l c :
  c ∈ key_of k <$> keep_first k seen l ↔ c ∈ key_of k <$> l ∧ c ∉ seen.
Proof.
  revert seen. induction l as [|x l IH]; intros seen; cbn [keep_first].
  - rewrite fmap_nil, elem_of_nil. tauto.
  - fold (key_of k x). rewrite (fmap_cons _ x l), (elem_of_cons _ c).
    destruct (decide (key_of k x ∈ seen)) as [Hx|Hx].
    + rewrite IH. split; [tauto|]. intros [[->|?] ?]; tauto.
    + rewrite fmap_cons, elem_of_cons, IH, not_elem_of_cons.
      destruct (decide (c = key_of k x)) as [->|]; tauto.
Qed.

Lemma keep_first_length k seen l :
  (length (keep_first k seen l) ≤ length l)%nat.
Proof.
  revert seen. induction l as [|x l IH]; intros seen; simpl; [done|].
  case_decide; simpl;
    [specialize (IH seen)|specialize (IH (cell_at k x.2 :: seen))]; lia.
Qed.

Lemma len_merge_frame k u e :
  (len (merge_frame k u e) ≤ len u + len e)%nat.
Proof.
  unfold len, merge_frame. simpl. rewrite length_imap, merged_Permutation.
  etransitivity; [apply keep_first_length|].
  unfold stacked, retained. rewrite length_fmap, length_app.
  pose proof (length_filter (λ p, cell_at "issue_key" p.2 ∉ parents u)
                (body e)). lia.
Qed.

(** X12.  The keys of a merge.  When both frames have rows and the merge
    returns a frame, a value is a key of that frame exactly when it is the
    key of a row of the updated frame, or of a row of the existing frame
    whose [issue_key] value does not occur in the updated frame: no key of
    the update is lost and no key is invented. *)
Theorem update_dataframe_keys e u k s r s' :
  dataframe_has_rows (Some e) = true → dataframe_has_rows (Some u) = true →
  update_dataframe (Some e) (Some u) k s = (Ok (Some r), s') →
  ∀ c, c ∈ cell_at k <$> rows r
       ↔ c ∈ cell_at k <$> rows u
         ∨ ∃ row, row ∈ rows e ∧ (cell_at "issue_key" row ∉ parents u)
                  ∧ cell_at k row = c.
Proof.
  intros He Hu Hr c.
  apply update_dataframe_both_inv in Hr as ((Hcu & Hce & Hk & Hc) & [= ->] & _);
    [|done..].
  rewrite rows_merge_frame, merged_keys, keep_first_keys.
  rewrite list_elem_of_fmap. setoid_rewrite elem_of_stacked.
  unfold rows. rewrite <- list_fmap_compose, list_elem_of_fmap.
  setoid_rewrite list_elem_of_fmap. split.
  - intros [(p & -> & q & -> & Hq) _]. unfold key_of. simpl.
    rewrite cell_at_reindex by done. destruct Hq as [Hq|[Hq Hn]].
    + left. by exists q.
    + right. exists q.2. split; [by exists q|done].
  - intros H. split; [|apply not_elem_of_nil].
    destruct H as [(q & -> & Hq)|(row & (q & -> & Hq) & Hn & <-)].
    + eexists. split; [|exists q; split; [done|by left]].
      unfold key_of. simpl. by rewrite cell_at_reindex.
    + eexists. split; [|exists q; split; [done|by right]].
      unfold key_of. simpl. by rewrite cell_at_reindex.
Qed.

(** The keys 5, of the stored components, and 1, of the update. *)
Lemma update_dataframe_keys_witness :
  Num 5 ∈ cell_at "issue_component_key" <$> rows merged_components
  ∧ Num 1 ∈ cell_at "issue_component_key" <$> rows merged_components.
Proof.
  pose proof (update_dataframe_keys stored_components updated_components
                "issue_component_key" no_files merged_components no_files)
    as H.
  split; apply H; try (vm_compute; reflexivity).
  - right. exists (component_row 5 "Q" "api"). compute_done.
  - left. compute_done.
Defined.

(** X13.  The size of a merge.  Whatever the two frames are, a frame that the
    merge returns has at least one row and at most as many rows as the two
    frames together: the merge returns [None], never an empty frame. *)
Theorem update_dataframe_size e u k s r s' :
  update_dataframe e u k s = (Ok (Some r), s') →
  (0 < len r ≤ len_or_0 e + len_or_0 u)%nat.
Proof.
  intros Hr. destruct (dataframe_has_rows u) eqn:Hu,
    (dataframe_has_rows e) eqn:He.
  - destruct e as [e|]; [|done]. destruct u as [u|]; [|done].
    apply update_dataframe_both_inv in Hr as (_ & [= ->] & _); [|done..].
    pose proof (merge_frame_has_rows k u e Hu) as H.
    apply Nat.ltb_lt in H. pose proof (len_merge_frame k u e).
    unfold len_or_0. simpl. lia.
  - unfold update_dataframe in Hr. rewrite Hu, He in Hr.
    injection Hr as -> _. apply Nat.ltb_lt in Hu.
    unfold len_or_0. simpl. lia.
  - unfold update_dataframe in Hr. rewrite Hu, He in Hr.
    injection Hr as -> _. apply Nat.ltb_lt in He.
    unfold len_or_0. simpl. lia.
  - unfold update_dataframe in Hr. rewrite Hu, He in Hr. discriminate.
Qed.

(** The merge of the stored and the updated components. *)
Lemma update_dataframe_size_witness :
  (0 < len merged_components
   ≤ len_or_0 (Some stored_components)
     + len_or_0 (Some updated_components))%nat.
Proof.
  apply (update_dataframe_size (Some stored_components)
           (Some updated_components) "issue_component_key" no_files
           merged_components no_files).
  vm_compute. reflexivity.
Defined.

(** X14.  How the merge fails.  With rows in both frames the merge leaves the
    state as it is; it raises [KeyError] when one of the frames has no
    [issue_key] column, or when neither has the key column; otherwise it
    returns the merged frame or raises [TypeError], which it does exactly
    when the keys it keeps mix kinds. *)
Theorem update_dataframe_errors e u k s :
  dataframe_has_rows (Some e) = true → dataframe_has_rows (Some u) = true →
  (update_dataframe (Some e) (Some u) k s).2 = s
  ∧ ("issue_key" ∉ columns u ∨ "issue_key" ∉ columns e →
     (update_dataframe (Some e) (Some u) k s).1
     = Raise (KeyError "issue_key"))
  ∧ ("issue_key" ∈ columns u → "issue_key" ∈ columns e →
     k ∉ columns u → k ∉ columns e →
     (update_dataframe (Some e) (Some u) k s).1 = Raise (KeyError k))
  ∧ ("issue_key" ∈ columns u → "issue_key" ∈ columns e →
     k ∈ columns u ∨ k ∈ columns e →
     (update_dataframe (Some e) (Some u) k s).1
     = if comparable (key_of k <$> keep_first k [] (stacked u e))
       then Ok (Some (merge_frame k u e)) else Raise TypeError).
Proof.
  intros He Hu. rewrite update_dataframe_both by done.
  split; [done|]. split; [|split].
  - intros [H|H]; repeat case_decide; done.
  - intros Hcu Hce Hku Hke. rewrite !decide_True by done.
    rewrite decide_False; [done|].
    intros [?|[_ ?]%list_elem_of_filter]%elem_of_app; done.
  - intros Hcu Hce Hk. rewrite !decide_True by done.
    rewrite decide_True; [done|].
    destruct Hk; [by apply union_columns_l|by apply union_columns_r].
Qed.

(** A merge of two frames that have the columns it reads. *)
Lemma update_dataframe_errors_witness :
  (update_dataframe (Some sorted_issues) (Some updated_components)
     "issue_component_key" no_files).1
  = if comparable
         (key_of "issue_component_key"
            <$> keep_first "issue_component_key" []
                  (stacked updated_components sorted_issues))
    then Ok (Some (merge_frame "issue_component_key" updated_components
                     sorted_issues))
    else Raise TypeError.
Proof.
  apply (update_dataframe_errors sorted_issues updated_components
           "issue_component_key" no_files); compute_done.
Defined.

Lemma keep_first_first k l1 l2 p :
  p ∈ keep_first k [] (l1 ++ l2) → key_of k p ∈ key_of k <$> l1 → p ∈ l1.
Proof.
  rewrite keep_first_app. intros [Hp|Hp]%elem_of_app Hk.
  - by apply keep_first_elem in Hp as [? _].
  - apply keep_first_elem in Hp as [_ Hn]. destruct Hn.
    apply elem_of_app. by left.
Qed.

(** X15.  A key that both frames use.  When both frames have rows and the
    merge returns a frame, a row of that frame whose key is the key of a row
    of the updated frame is a row of the updated frame, whatever issue the
    existing row with that key belongs to: on equal keys the update wins. *)
Theorem update_dataframe_update_wins e u k s r s' :
  dataframe_has_rows (Some e) = true → dataframe_has_rows (Some u) = true →
  update_dataframe (Some e) (Some u) k s = (Ok (Some r), s') →
  ∀ row, row ∈ rows r → cell_at k row ∈ cell_at k <$> rows u →
    ∃ row_u, row_u ∈ rows u ∧ row = reindex (columns r) row_u
             ∧ cell_at k row_u = cell_at k row.
Proof.
  intros He Hu Hr row Hrow Hkey.
  apply update_dataframe_both_inv in Hr as ((Hcu & Hce & Hk & Hc) & [= ->] & _);
    [|done..].
  rewrite rows_merge_frame in Hrow.
  apply list_elem_of_fmap in Hrow as (p & -> & Hp).
  rewrite merged_Permutation in Hp. unfold stacked in Hp.
  rewrite fmap_app in Hp. apply keep_first_first in Hp.
  - apply list_elem_of_fmap in Hp as (q & -> & Hq).
    exists q.2. split; [by apply list_elem_of_fmap_2|]. simpl. split.
    + apply reindex_ext. intros c. symmetry. by apply merge_columns_equiv.
    + by rewrite cell_at_reindex.
  - unfold rows in Hkey. rewrite <- list_fmap_compose in Hkey.
    apply list_elem_of_fmap in Hkey as (q & Hq1 & Hq).
    apply list_elem_of_fmap. exists (prod_map id
      (reindex (union_columns (columns u) (columns e))) q).
    split; [|by apply list_elem_of_fmap_2].
    unfold key_of. simpl. by rewrite cell_at_reindex.
Qed.

(** The key 1 is used by both frames: the row of the update is kept. *)
Lemma update_dataframe_update_wins_witness :
  ∃ row_u,
    row_u ∈ rows updated_components
    ∧ component_row 1 "P" "db" = reindex (columns merged_components) row_u
    ∧ cell_at "issue_component_key" row_u
      = cell_at "issue_component_key" (component_row 1 "P" "db").
Proof.
  apply (update_dataframe_update_wins stored_components updated_components
           "issue_component_key" no_files merged_components no_files);
    try (vm_compute; reflexivity); compute_done.
Defined.

(** ** C2: the stored rows of an issue that a pass does not fetch *)

(** A row of the merge whose key is the key of a row of the update refers to
    a parent of the update. *)
Lemma merged_update_parent k u e p :
  "issue_key" ∈ columns u → k ∈ union_columns (columns u) (columns e) →
  p ∈ merged k u e → key_of k p ∈ cell_at k <$> rows u →
  cell_at "issue_key" p.2 ∈ parents u.
Proof.
  intros Hcu Hk Hp Hkey.
  rewrite merged_Permutation in Hp. unfold stacked in Hp.
  rewrite fmap_app in Hp. apply keep_first_first in Hp.
  - apply list_elem_of_fmap in Hp as (q & -> & Hq). simpl.
    rewrite cell_at_reindex by (by apply union_columns_l).
    by apply elem_of_parents.
  - unfold rows in Hkey. rewrite <- list_fmap_compose in Hkey.
    apply list_elem_of_fmap in Hkey as (q & Hq1 & Hq).
    apply list_elem_of_fmap. exists (prod_map id
      (reindex (union_columns (columns u) (columns e))) q).
    split; [|by apply list_elem_of_fmap_2].
    unfold key_of. simpl. by rewrite cell_at_reindex.
Qed.

(** The keys of a child table are 1, 2, ... in every frame of it. *)
Lemma child_frame_keys kc vc es :
  kc ≠ "issue_key" → vc ≠ "issue_key" → kc ≠ vc →
  cell_at kc <$> rows (child_frame kc vc es)
  = (λ n, Num (Z.of_nat n + 1)) <$> seq 0 (length es).
Proof.
  intros Hkey Hvkey Hvc. unfold rows, child_frame. cbn [body].
  apply list_eq. intros i.
  rewrite !list_lookup_fmap, list_lookup_imap.
  destruct (es !! i) as [e|] eqn:He.
  - rewrite lookup_seq_lt by (by eapply lookup_lt_Some). simpl.
    unfold cell_at. rewrite lookup_child_row by done.
    rewrite decide_False by done. rewrite decide_False by done.
    by rewrite decide_True.
  - apply lookup_ge_None in He. by rewrite lookup_seq_ge.
Qed.

(** The table of the components of any list of issues. *)
Lemma issue_components_dataframe lib self found s :
  data_part_to_dataframe lib self found "issue_components" s
  = (Ok (child_frame "issue_component_key" "component"
           (items_of (λ issue, Issue.components (Issue.fields issue)) found)),
     set_log (log s
              ++ [pretty (length (items_of
                                    (λ issue,
                                       Issue.components (Issue.fields issue))
                                    found))
                  +:+ " records converted for issue_components"]) s).
Proof.
  unfold data_part_to_dataframe.
  rewrite decide_False by done. rewrite decide_True by done.
  unfold mbind at 1, ST_bind at 1, run_local.
  change empty_frame with (child_frame "issue_component_key" "component" []).
  change (issue_components_part found)
    with (for_ found (λ issue,
            for_ (Issue.components (Issue.fields issue))
              (child_step "issue_component_key" "component"
                 (Issue.key issue)))).
  rewrite child_part_spec by done. cbn [app].
  cbv beta iota zeta delta [mbind mret ST_bind ST_ret msg modify].
  by rewrite len_child_frame.
Qed.

(** C2 does not hold of the code: the merge loses stored rows of issues that
    the update does not mention.  Every call of the normaliser keys the rows
    of a child table 1, 2, ... again.  The merge takes the rows of the
    issues of the update out of the stored frame, which spares the other
    issues, and then drops duplicate keys with the rows of the update
    first: a stored row of
    an issue that the update does not mention, whose key is the key of a row
    of the update, is not in the result, and the row that has its key
    belongs to an issue of the update.  On a server with the issues DEMO-1
    and DEMO-2, a first pass stores the components ui and db of DEMO-1 under
    the keys 1 and 2 and those of DEMO-2 under 3 and 4; the next pass
    fetches DEMO-2 alone, keys its two components 1 and 2, and leaves a
    file without any component of DEMO-1.  (The components are numbers and
    plain words, which a file gives back as they were written.) *)
Theorem untouched_rows_lost :
  (∀ lib self found s u s1,
     data_part_to_dataframe lib self found "issue_components" s = (Ok u, s1) →
     cell_at "issue_component_key" <$> rows u
     = (λ n, Num (Z.of_nat n + 1)) <$> seq 0 (len u))
  ∧ (∀ e u k s r s' row,
       dataframe_has_rows (Some e) = true →
       dataframe_has_rows (Some u) = true →
       update_dataframe (Some e) (Some u) k s = (Ok (Some r), s') →
       row ∈ rows e →
       cell_at "issue_key" row ∉ parents u →
       cell_at k row ∈ cell_at k <$> rows u →
       (reindex (columns r) row ∉ rows r)
       ∧ ∀ row', row' ∈ rows r → cell_at k row' = cell_at k row →
           cell_at "issue_key" row' ∈ parents u)
  ∧ (get_project_data demo_lib (demo busy_jira) PyNone no_files).1 = Ok true
  ∧ issues first_pass = [demo_issue; second_issue]
  ∧ (rows ∘ content)
      <$> files first_pass
          !! get_file_path_for_data_part demo_lib (demo busy_jira)
               "issue_components"
    = Some [component_row 1 "DEMO-1" "ui"; component_row 2 "DEMO-1" "db";
            component_row 3 "DEMO-2" "cache"; component_row 4 "DEMO-2" "api"]
  ∧ (get_project_data demo_lib (demo busy_jira) PyNone first_pass).1
    = Ok true
  ∧ issues second_pass = [second_issue]
  ∧ (rows ∘ content)
      <$> files second_pass
          !! get_file_path_for_data_part demo_lib (demo busy_jira)
               "issue_components"
    = Some [component_row 1 "DEMO-2" "cache"; component_row 2 "DEMO-2" "api"].
Proof.
  split.
  { intros lib self found s u s1 H.
    rewrite issue_components_dataframe in H. injection H as <- _.
    rewrite len_child_frame. by apply child_frame_keys. }
  split.
  { intros e u k s r s' row He Hu Hr Hrow Hfk Hkey.
    apply update_dataframe_both_inv in Hr
      as ((Hcu & Hce & Hk & Hc) & [= ->] & _); [|done..].
    assert (∀ row', row' ∈ rows (merge_frame k u e) →
              cell_at k row' = cell_at k row →
              cell_at "issue_key" row' ∈ parents u) as Hwins.
    { intros row' Hrow' Heq. rewrite rows_merge_frame in Hrow'.
      apply list_elem_of_fmap in Hrow' as (p & -> & Hp).
      apply (merged_update_parent k u e p); try done.
      unfold key_of. by rewrite Heq. }
    split; [|done]. intros Hin. apply Hfk.
    assert (k ∈ columns (merge_frame k u e)) as Hkr by (by left).
    assert ("issue_key" ∈ columns (merge_frame k u e)) as Hir.
    { apply merge_columns_equiv; [done|]. by apply union_columns_l. }
    rewrite <- (cell_at_reindex (columns (merge_frame k u e)) row) by done.
    apply Hwins; [done|]. by apply cell_at_reindex. }
  split; [vm_compute; reflexivity|]. split; [vm_compute; reflexivity|].
  split; [vm_compute; reflexivity|]. split; [vm_compute; reflexivity|].
  split; vm_compute; reflexivity.
Qed.

(** ** What a computation may change *)

Section steps.
Context (R : State → State → Prop) `{!Reflexive R} `{!Transitive R}.

Lemma steps_ret {A} (a : A) : steps R (mret a).
Proof. intros s. simpl. reflexivity. Qed.

Lemma steps_raise {A} e : steps R (raise (A := A) e).
Proof. intros s. simpl. reflexivity. Qed.

Lemma steps_lift {A} (r : result A) : steps R (lift r).
Proof. intros s. simpl. reflexivity. Qed.

Lemma steps_gets {A} (f : State → A) : steps R (gets f).
Proof. intros s. simpl. reflexivity. Qed.

Lemma steps_modify (g : State → State) :
  (∀ s, R s (g s)) → steps R (modify g).
Proof. intros Hg s. apply Hg. Qed.

Lemma steps_bind {A B} (m : ST State A) (k : A → ST State B) :
  steps R m → (∀ a, steps R (k a)) → steps R (m ≫= k).
Proof.
  intros Hm Hk s. unfold mbind, ST_bind. specialize (Hm s).
  destruct (m s) as [[a|e] s1]; simpl in *; [|done].
  etransitivity; [exact Hm|apply Hk].
Qed.

Lemma steps_try_except {A} (m : ST State A) (h : exn → ST State A) :
  steps R m → (∀ e, steps R (h e)) → steps R (try_except m h).
Proof.
  intros Hm Hh s. unfold try_except. specialize (Hm s).
  destruct (m s) as [[a|e] s1]; simpl in *; [done|].
  etransitivity; [exact Hm|apply Hh].
Qed.

Lemma steps_for {A} (xs : list A) (f : A → ST State unit) :
  (∀ x, x ∈ xs → steps R (f x)) → steps R (for_ xs f).
Proof.
  induction xs as [|x xs IH]; intros Hf; simpl.
  - apply steps_ret.
  - apply steps_bind; [apply Hf; by left|]. intros _. apply IH.
    intros y Hy. apply Hf. by right.
Qed.

Lemma steps_run_local {L} (init : L) (m : ST L unit) :
  steps R (run_local init m).
Proof.
  intros s. unfold run_local. destruct (m init) as [[?|?] ?]; reflexivity.
Qed.

Hypothesis R_log : ∀ l s, R s (set_log (log s ++ l) s).

Lemma steps_msg text : steps R (msg text).
Proof. apply steps_modify. intros s. apply R_log. Qed.

Lemma steps_file_to_dataframe file_path :
  steps R (file_to_dataframe file_path).
Proof.
  apply steps_try_except.
  - apply steps_bind; [|intros df; apply steps_ret].
    intros s. unfold read_csv. destruct (files s !! file_path); reflexivity.
  - intros []; try apply steps_raise.
    apply steps_bind; [apply steps_msg|intros _; apply steps_ret].
Qed.

Lemma steps_data_part_to_dataframe lib self issues data_part_name :
  steps R (data_part_to_dataframe lib self issues data_part_name).
Proof.
  apply steps_bind; [apply steps_run_local|]. intros df.
  apply steps_bind; [apply steps_msg|intros _; apply steps_ret].
Qed.

Lemma steps_update_dataframe existing_df updated_df key_column :
  steps R (update_dataframe existing_df updated_df key_column).
Proof.
  unfold update_dataframe.
  destruct (dataframe_has_rows updated_df),
    (dataframe_has_rows existing_df); simpl;
    first [apply steps_lift
          |apply steps_bind; [apply steps_msg|intros _; apply steps_ret]].
Qed.

Lemma steps_get_issues_file_mod_date lib self :
  steps R (get_issues_file_mod_date lib self).
Proof.
  apply steps_bind; [apply steps_gets|].
  intros [f|]; apply steps_ret.
Qed.

Lemma steps_retrieve_issues self jql max_results :
  (∀ r s, R s (set_requests r s)) → (∀ i s, R s (set_issues i s)) →
  steps R (retrieve_issues self jql max_results).
Proof.
  intros Hr Hi. unfold retrieve_issues.
  apply steps_bind; [apply steps_modify; intros s; apply Hr|]. intros _.
  apply steps_bind; [apply steps_lift|]. intros found.
  apply steps_bind; [apply steps_modify; intros s; apply Hi|]. intros _.
  apply steps_bind; [apply steps_msg|]. intros _. apply steps_ret.
Qed.

Lemma steps_refresh_data_part lib self d issues :
  (∀ v s, R s (set_data_part_dataframes
                 (<[d := v]> (data_part_dataframes s)) s)) →
  (∀ f s, R s (set_files
                 (<[get_file_path_for_data_part lib self d := f]> (files s))
                 s)) →
  steps R (refresh_data_part lib self d issues).
Proof.
  intros Hd Hf. unfold refresh_data_part.
  apply steps_bind; [apply steps_lift|]. intros key_name.
  apply steps_bind; [apply steps_data_part_to_dataframe|]. intros updated_df.
  apply steps_bind; [apply steps_file_to_dataframe|]. intros existing_df.
  apply steps_bind; [apply steps_update_dataframe|]. intros final_df.
  apply steps_bind; [apply steps_modify; intros s; apply Hd|]. intros _.
  apply steps_bind; [|intros _; apply steps_ret].
  destruct final_df as [df|]; [|apply steps_raise].
  apply steps_modify. intros s. apply Hf.
Qed.

Lemma steps_before_tables lib self from_date :
  (∀ r s, R s (set_requests r s)) → (∀ i s, R s (set_issues i s)) →
  steps R (before_tables lib self from_date).
Proof.
  intros Hr Hi. unfold before_tables.
  apply steps_bind; [case_match; [apply steps_raise|apply steps_ret]|].
  intros _. do 2 (apply steps_bind; [apply steps_msg|intros _]).
  apply steps_bind.
  { case_match; [|apply steps_ret].
    apply steps_bind; [apply steps_msg|intros _].
    apply steps_get_issues_file_mod_date. }
  intros date. case_match.
  - apply steps_bind; [apply steps_msg|intros _].
    by apply steps_retrieve_issues.
  - apply steps_bind; [apply steps_lift|intros text].
    apply steps_bind; [apply steps_msg|intros _].
    by apply steps_retrieve_issues.
Qed.

Lemma steps_get_project_data lib self from_date :
  (∀ r s, R s (set_requests r s)) → (∀ i s, R s (set_issues i s)) →
  (∀ d v s, d ∈ tables →
     R s (set_data_part_dataframes (<[d := v]> (data_part_dataframes s)) s)) →
  (∀ d f s, d ∈ tables →
     R s (set_files
            (<[get_file_path_for_data_part lib self d := f]> (files s)) s)) →
  steps R (get_project_data lib self from_date).
Proof.
  intros Hr Hi Hd Hf.
  assert (steps R (issues ← before_tables lib self from_date;
                   for_ tables (table_step lib self issues);;
                   after_tables)) as H.
  { apply steps_bind; [by apply steps_before_tables|].
    intros found. apply steps_bind.
      + apply steps_for. intros d Hin. unfold table_step.
        apply steps_bind; [apply steps_msg|intros _].
        apply steps_bind; [|intros _; apply steps_ret].
        apply steps_refresh_data_part; intros; [by apply Hd|by apply Hf].
      + intros _. unfold after_tables.
        do 2 (apply steps_bind; [apply steps_msg|intros _]).
        apply steps_ret. }
  intros s. rewrite get_project_data_split. apply H.
Qed.

End steps.

Global Instance only_printed_refl : Reflexive only_printed.
Proof. by intros s. Qed.

Global Instance only_printed_trans : Transitive only_printed.
Proof.
  intros s1 s2 s3 (? & ? & ? & ? & ? & ?) (? & ? & ? & ? & ? & ?).
  repeat split; try congruence. by etransitivity.
Qed.

Lemma only_printed_log l s : only_printed s (set_log (log s ++ l) s).
Proof. repeat split. by apply prefix_app_r. Qed.

Lemma bind_ok_inv {S A B} (m : ST S A) (k : A → ST S B) s b s' :
  (m ≫= k) s = (Ok b, s') → ∃ a s1, m s = (Ok a, s1) ∧ k a s1 = (Ok b, s').
Proof.
  unfold mbind, ST_bind. destruct (m s) as [[a|e] s1]; [eauto|done].
Qed.

(** The merge returns [None] or a frame with rows, never an empty frame. *)
Lemma update_dataframe_has_rows e u k s r s' :
  update_dataframe e u k s = (Ok (Some r), s') →
  dataframe_has_rows (Some r) = true.
Proof.
  intros Hr. destruct (dataframe_has_rows u) eqn:Hu,
    (dataframe_has_rows e) eqn:He.
  - destruct e as [e|]; [|done]. destruct u as [u|]; [|done].
    apply update_dataframe_both_inv in Hr as (_ & [= ->] & _); [|done..].
    by apply merge_frame_has_rows.
  - unfold update_dataframe in Hr. rewrite Hu, He in Hr.
    by injection Hr as -> _.
  - unfold update_dataframe in Hr. rewrite Hu, He in Hr.
    by injection Hr as -> _.
  - unfold update_dataframe in Hr. rewrite Hu, He in Hr. discriminate.
Qed.

(** What a refresh that returns has done. *)
Lemma refresh_data_part_ok lib self d found s r s' :
  refresh_data_part lib self d found s = (Ok r, s') →
  ∃ final,
    r = Some final ∧ dataframe_has_rows (Some final) = true
    ∧ data_part_dataframes s'
      = <[d := Some final]> (data_part_dataframes s)
    ∧ files s'
      = <[get_file_path_for_data_part lib self d :=
            {| content := without_index final; mtime := clock s |}]>
          (files s)
    ∧ clock s' = clock s ∧ requests s' = requests s ∧ issues s' = issues s.
Proof.
  unfold refresh_data_part. intros H.
  apply bind_ok_inv in H as (key_name & s0 & H0 & H).
  apply bind_ok_inv in H as (updated_df & s1 & H1 & H).
  apply bind_ok_inv in H as (existing_df & s2 & H2 & H).
  apply bind_ok_inv in H as (final_df & s3 & H3 & H).
  apply bind_ok_inv in H as ([] & s4 & H4 & H).
  apply bind_ok_inv in H as ([] & s5 & H5 & H).
  injection H as <- <-.
  assert (s0 = s) as -> by (unfold lift in H0; congruence).
  pose proof (steps_data_part_to_dataframe only_printed only_printed_log
                lib self found d s) as P1.
  pose proof (steps_file_to_dataframe only_printed only_printed_log
                (get_file_path_for_data_part lib self d) s1) as P2.
  pose proof (steps_update_dataframe only_printed only_printed_log
                existing_df (Some updated_df) key_name s2) as P3.
  rewrite H1 in P1. rewrite H2 in P2. rewrite H3 in P3.
  assert (only_printed s s3) as (Hf & Hc & Hq & Hi & Hd & _).
  { etransitivity; [exact P1|]. etransitivity; [exact P2|exact P3]. }
  injection H4 as <-.
  destruct final_df as [final|]; [|done]. injection H5 as <-.
  exists final. split; [done|].
  split; [by eapply update_dataframe_has_rows|].
  cbn [data_part_dataframes files clock requests issues
       set_data_part_dataframes set_files].
  by rewrite Hf, Hc, Hq, Hi, Hd.
Qed.

(** X16.  What a refresh that returns has done.  It returns a frame, never
    [None], and the frame has rows; the frame is stored under the name of
    the table, and the file of the table holds the same rows without their
    index, stamped with the clock; nothing else of the files and of the
    stored frames has changed, and no search was sent. *)
Theorem refresh_data_part_returns lib self d found s r s' :
  refresh_data_part lib self d found s = (Ok r, s') →
  ∃ final,
    r = Some final ∧ (0 < len final)%nat
    ∧ data_part_dataframes s'
      = <[d := Some final]> (data_part_dataframes s)
    ∧ files s'
      = <[get_file_path_for_data_part lib self d :=
            {| content := without_index final; mtime := clock s |}]>
          (files s)
    ∧ clock s' = clock s ∧ requests s' = requests s ∧ issues s' = issues s.
Proof.
  intros H. apply refresh_data_part_ok in H as (final & -> & Hrows & H).
  exists final. split; [done|]. split; [|done].
  by apply Nat.ltb_lt in Hrows.
Qed.

(** The first refresh of the labels of one issue. *)
Lemma refresh_data_part_returns_witness :
  ∃ final,
    Some (child_frame "issue_label_key" "label" [("DEMO-1", "bug")])
    = Some final
    ∧ (0 < len final)%nat
    ∧ files (refresh_data_part demo_lib (demo (demo_jira demo_issue))
               "issue_labels" [demo_issue] no_files).2
      = <[ "/data/DEMO/DEMO_ISSUES_LABELS.csv" :=
             {| content := without_index final; mtime := 0 |} ]> ∅.
Proof.
  destruct (refresh_data_part_returns demo_lib (demo (demo_jira demo_issue))
              "issue_labels" [demo_issue] no_files
              (Some (child_frame "issue_label_key" "label"
                       [("DEMO-1", "bug")]))
              (refresh_data_part demo_lib (demo (demo_jira demo_issue))
                 "issue_labels" [demo_issue] no_files).2)
    as (final & Hr & Hlen & _ & Hfiles & _).
  { vm_compute. reflexivity. }
  exists final. split; [exact Hr|]. split; [exact Hlen|]. exact Hfiles.
Defined.

Section touches.
Context (paths names : list string).

Global Instance touches_refl : Reflexive (touches paths names).
Proof. by intros s. Qed.

Global Instance touches_trans : Transitive (touches paths names).
Proof.
  intros s1 s2 s3 (Hf & Hs & Hd & Hc & Hl) (Hf' & Hs' & Hd' & Hc' & Hl').
  split; [|split; [|split; [|split]]].
  - intros p Hp. by rewrite Hf', Hf.
  - intros p Hp. by apply Hs', Hs.
  - intros d Hn. by rewrite Hd', Hd.
  - congruence.
  - by etransitivity.
Qed.

Lemma touches_log l s : touches paths names s (set_log (log s ++ l) s).
Proof. repeat split; try done. by apply prefix_app_r. Qed.

Lemma touches_requests r s : touches paths names s (set_requests r s).
Proof. by repeat split. Qed.

Lemma touches_issues i s : touches paths names s (set_issues i s).
Proof. by repeat split. Qed.

Lemma touches_frame d v s :
  d ∈ names →
  touches paths names s
    (set_data_part_dataframes (<[d := v]> (data_part_dataframes s)) s).
Proof.
  intros Hd. repeat split; try done. intros d' Hn. simpl.
  apply lookup_insert_ne. by intros ->.
Qed.

Lemma touches_file p f s :
  p ∈ paths → touches paths names s (set_files (<[p := f]> (files s)) s).
Proof.
  intros Hp. split; [|split; [|done]].
  - intros p' Hn. simpl. apply lookup_insert_ne. by intros ->.
  - intros p' Hs. simpl. destruct (decide (p = p')) as [->|].
    + rewrite lookup_insert_eq. eauto.
    + by rewrite lookup_insert_ne.
Qed.

End touches.

(** The refresh of some tables writes the files and stores the frames of
    those tables only. *)
Lemma tables_touched lib self found ds :
  steps (touches (get_file_path_for_data_part lib self <$> ds) ds)
    (for_ ds (table_step lib self found)).
Proof.
  apply steps_for; [apply _..|]. intros d Hd. unfold table_step.
  apply steps_bind; [apply _|apply steps_msg, touches_log; apply _|].
  intros _. apply steps_bind; [apply _| |intros _; apply steps_ret; apply _].
  apply steps_refresh_data_part; [apply _..|apply touches_log| |].
  - intros v s. by apply touches_frame.
  - intros f s. apply touches_file. by apply list_elem_of_fmap_2.
Qed.

(** X17.  What a refresh may change, whether it returns or raises: the file of
    its table and the frame stored under its name.  Every other file and
    frame is as before, no file is deleted, no search is sent, and the
    issues and the clock are untouched. *)
Theorem refresh_data_part_touches lib self d found s :
  touches [get_file_path_for_data_part lib self d] [d] s
    (refresh_data_part lib self d found s).2
  ∧ requests (refresh_data_part lib self d found s).2 = requests s
  ∧ issues (refresh_data_part lib self d found s).2 = issues s.
Proof.
  split; [|split].
  - apply steps_refresh_data_part; [apply _..|apply touches_log| |].
    + intros v s0. apply touches_frame. by left.
    + intros f s0. apply touches_file. by left.
  - apply quiet_refresh_data_part.
  - assert (steps (λ s s', issues s' = issues s)
              (refresh_data_part lib self d found)) as H; [|exact (H s)].
    apply steps_refresh_data_part;
      [by intros s0|intros s1 s2 s3 H1 H2; congruence|by intros..].
Qed.

(** X18.  What a pass may change, whether it returns or raises: the files of
    the six tables and the frames stored under their names.  Every other
    file is as before, no file is deleted, and the clock is untouched. *)
Theorem get_project_data_touches lib self from_date s :
  touches (get_file_path_for_data_part lib self <$> tables) tables s
    (get_project_data lib self from_date s).2.
Proof.
  apply steps_get_project_data; [apply _..|apply touches_log| | | |].
  - apply touches_requests.
  - apply touches_issues.
  - intros d v s0 Hd. by apply touches_frame.
  - intros d f s0 Hd. apply touches_file. by apply list_elem_of_fmap_2.
Qed.

Section stamped.
Context (p : string).

Global Instance stamped_refl : Reflexive (stamped p).
Proof. by intros s. Qed.

Global Instance stamped_trans : Transitive (stamped p).
Proof.
  intros s1 s2 s3 [Hc H] [Hc' H']. split; [congruence|]. auto.
Qed.

Lemma stamped_log l s : stamped p s (set_log (log s ++ l) s).
Proof. by split. Qed.

Lemma stamped_file q f s :
  mtime f = clock s → stamped p s (set_files (<[q := f]> (files s)) s).
Proof.
  intros Hf. split; [done|]. intros (f0 & H0 & Hm). simpl.
  destruct (decide (q = p)) as [->|].
  - rewrite lookup_insert_eq. eauto.
  - rewrite lookup_insert_ne by done. eauto.
Qed.

Lemma steps_stamped lib self found ds :
  steps (stamped p) (for_ ds (table_step lib self found)).
Proof.
  apply steps_for; [apply _..|]. intros d Hd. unfold table_step.
  apply steps_bind; [apply _|apply steps_msg, stamped_log; apply _|].
  intros _. apply steps_bind; [apply _| |intros _; apply steps_ret; apply _].
  unfold refresh_data_part.
  apply steps_bind; [apply _|apply steps_lift; apply _|]. intros key_name.
  apply steps_bind;
    [apply _
    |apply steps_data_part_to_dataframe; [apply _..|apply stamped_log]|].
  intros updated_df.
  apply steps_bind;
    [apply _|apply steps_file_to_dataframe; [apply _..|apply stamped_log]|].
  intros existing_df.
  apply steps_bind;
    [apply _|apply steps_update_dataframe; [apply _..|apply stamped_log]|].
  intros final_df.
  apply steps_bind; [apply _|by apply steps_modify|]. intros _.
  apply steps_bind; [apply _| |intros _; apply steps_ret; apply _].
  destruct final_df as [df|]; [|apply steps_raise; apply _].
  apply steps_modify. intros s. by apply stamped_file.
Qed.

End stamped.

Lemma tables_refreshed lib self found ds s0 s6 :
  NoDup ds →
  for_ ds (table_step lib self found) s0 = (Ok (), s6) →
  clock s6 = clock s0
  ∧ ∀ d, d ∈ ds →
      ∃ df f, dataframe_has_rows (Some df) = true
              ∧ data_part_dataframes s6 !! d = Some (Some df)
              ∧ files s6 !! get_file_path_for_data_part lib self d = Some f
              ∧ mtime f = clock s0.
Proof.
  intros Hnd H. split.
  { pose proof (steps_stamped "" lib self found ds s0) as [Hc _].
    by rewrite H in Hc. }
  revert s0 H. induction Hnd as [|d0 ds Hd0 Hnd IH]; intros s0 H d Hd.
  { by apply elem_of_nil in Hd. }
  cbn [for_] in H. apply bind_ok_inv in H as ([] & s1 & H1 & H).
  unfold table_step in H1.
  apply bind_ok_inv in H1 as ([] & sa & Ha & H1).
  apply bind_ok_inv in H1 as (r & sb & Hb & H1).
  injection H1 as <-. injection Ha as <-.
  apply refresh_data_part_ok in Hb
    as (final & -> & Hrows & Hframes & Hfiles & Hclock & _).
  cbn [clock set_log] in Hclock.
  apply elem_of_cons in Hd as [->|Hd].
  2:{ destruct (IH sb H d Hd) as (df & f & ? & ? & ? & ?).
      exists df, f. repeat split; try done. congruence. }
  pose proof (tables_touched lib self found ds sb) as (_ & _ & Hf & _).
  pose proof (steps_stamped (get_file_path_for_data_part lib self d0)
                lib self found ds sb) as [Hc Hs].
  rewrite H in Hf, Hc, Hs. cbn [snd] in Hf, Hc, Hs.
  destruct Hs as (f & Hfile & Hm).
  { eexists. rewrite Hfiles, lookup_insert_eq. split; [done|].
    simpl. done. }
  exists final, f. split; [done|]. split.
  - rewrite Hf by done. rewrite Hframes. apply lookup_insert_eq.
  - split; [done|]. congruence.
Qed.

(** What a pass that returns has done. *)
Lemma get_project_data_ok lib self from_date s b s' :
  get_project_data lib self from_date s = (Ok b, s') →
  b = true
  ∧ ∀ d, d ∈ tables →
      ∃ df f, (0 < len df)%nat
              ∧ data_part_dataframes s' !! d = Some (Some df)
              ∧ files s' !! get_file_path_for_data_part lib self d = Some f
              ∧ mtime f = clock s.
Proof.
  intros H. rewrite get_project_data_split in H.
  apply bind_ok_inv in H as (found & s0 & H0 & H).
  pose proof (steps_before_tables (touches [] []) (touches_log [] [])
                lib self from_date (touches_requests [] [])
                (touches_issues [] []) s) as (_ & _ & _ & Hc0 & _).
  rewrite H0 in Hc0. cbn [snd] in Hc0.
  apply bind_ok_inv in H as ([] & s6 & H6 & H).
  unfold after_tables in H. rewrite !bind_msg in H. injection H as <- <-.
  split; [done|]. intros d Hd.
  destruct (tables_refreshed lib self found tables s0 s6) as [Hc Hall];
    [compute_done|done|].
  destruct (Hall d Hd) as (df & f & Hrows & Hframe & Hfile & Hm).
  exists df, f. split; [by apply Nat.ltb_lt in Hrows|].
  split; [done|]. split; [done|]. congruence.
Qed.

(** X19.  What a pass that returns has done.  It returns [True]; every one of
    the six tables is stored as a frame with at least one row, and has its
    file, stamped with the clock of the pass. *)
Theorem get_project_data_returns lib self from_date s b s' :
  get_project_data lib self from_date s = (Ok b, s') →
  b = true
  ∧ ∀ d, d ∈ tables →
      ∃ df f, (0 < len df)%nat
              ∧ data_part_dataframes s' !! d = Some (Some df)
              ∧ files s' !! get_file_path_for_data_part lib self d = Some f
              ∧ mtime f = clock s.
Proof. apply get_project_data_ok. Qed.

(** A first pass over one issue on the server that answers. *)
Lemma get_project_data_returns_witness :
  ∃ df f,
    (0 < len df)%nat
    ∧ data_part_dataframes
        (get_project_data demo_lib (demo (demo_jira demo_issue)) PyNone
           no_files).2 !! "issue_comments" = Some (Some df)
    ∧ files
        (get_project_data demo_lib (demo (demo_jira demo_issue)) PyNone
           no_files).2
      !! get_file_path_for_data_part demo_lib (demo (demo_jira demo_issue))
           "issue_comments" = Some f
    ∧ mtime f = clock no_files.
Proof.
  apply (get_project_data_returns demo_lib (demo (demo_jira demo_issue))
           PyNone no_files true
           (get_project_data demo_lib (demo (demo_jira demo_issue)) PyNone
              no_files).2).
  - vm_compute. reflexivity.
  - compute_done.
Defined.

(** ** A pass without a key, with a date, with a failing search *)

(** X20.  A pass without a project key.  When the project key is empty the
    pass raises [ValueError] at once, whatever date it is given: nothing is
    printed, searched, read or written. *)
Theorem get_project_data_without_key lib self from_date s :
  project_key self = "" →
  get_project_data lib self from_date s
  = (Raise (ValueError ("A project_key is required to refresh the project "
              +:+ "information. Update the project_key attribute and rerun.")),
     s).
Proof. intros Hkey. unfold get_project_data. by rewrite Hkey. Qed.

(** The pass of an instance without a project key. *)
Lemma get_project_data_without_key_witness :
  get_project_data demo_lib keyless PyNone synced
  = (Raise (ValueError ("A project_key is required to refresh the project "
              +:+ "information. Update the project_key attribute and rerun.")),
     synced).
Proof.
  apply (get_project_data_without_key demo_lib keyless PyNone synced).
  reflexivity.
Defined.

Lemma retrieve_issues_fails self jql max_results e s :
  search_issues (jira self) jql max_results = Raise e →
  retrieve_issues self jql max_results s
  = (Raise e, set_requests (requests s ++ [(jql, max_results)]) s).
Proof.
  intros H. unfold retrieve_issues.
  cbv beta iota zeta delta [mbind mret ST_bind ST_ret modify lift msg].
  by rewrite H.
Qed.

(** X21.  A pass with a date of its own.  Given a project key and a date as a
    string, the pass does not look at the files: it sends one search, the
    incremental one from that date, or the full one when the string is
    empty.  Given a value that is true and not a string, it raises
    [TypeError] before it sends any search. *)
Theorem get_project_data_from_date lib self s :
  project_key self ≠ "" →
  (∀ date,
     requests (get_project_data lib self (PyStr date) s).2
     = requests s
       ++ [(if String.eqb date "" then full_query self
            else incremental_query lib self date, 0%Z)])
  ∧ (∀ v, is_None v = false → truthy v = true → (∀ date, v ≠ PyStr date) →
       (get_project_data lib self v s).1 = Raise TypeError
       ∧ requests (get_project_data lib self v s).2 = requests s).
Proof.
  intros Hkey.
  assert (truthy (PyStr (project_key self)) = true) as Htrue.
  { simpl. apply negb_true_iff. by apply String.eqb_neq. }
  split.
  - intros date. unfold get_project_data. rewrite Htrue. cbn [negb is_None].
    rewrite bind_ret, !bind_msg, bind_ret. cbn [truthy].
    destruct (String.eqb date "") eqn:Hd; cbn [negb].
    + rewrite bind_assoc, bind_msg.
      rewrite (requests_bind_quiet _ _ [(full_query self, 0%Z)]);
        [done| |intros found; apply quiet_tables].
      intros s'. apply requests_retrieve_issues.
    + rewrite bind_assoc, bind_lift_ok, bind_assoc, bind_msg.
      unfold retrieve_latest_issues.
      rewrite (requests_bind_quiet _ _
                 [(incremental_query lib self date, 0%Z)]);
        [done| |intros found; apply quiet_tables].
      intros s'. apply requests_retrieve_issues.
  - intros v Hnone Htruthy Hstr. unfold get_project_data.
    rewrite Htrue, Hnone. cbn [negb].
    rewrite bind_ret, !bind_msg, bind_ret. rewrite Htruthy. cbn [negb].
    destruct v as [|z|date|l|t]; try done. by destruct (Hstr date).
Qed.

(** A pass from 1 October 2019. *)
Lemma get_project_data_from_date_witness :
  requests
    (get_project_data demo_lib (demo (demo_jira demo_issue))
       (PyStr "2019-10-01") synced).2
  = [("(project = DEMO) and (updatedDate >= 2019-10-01 "
      +:+ "or worklogDate >= 2019-10-01)", 0%Z)].
Proof.
  apply (proj1 (get_project_data_from_date demo_lib
                  (demo (demo_jira demo_issue)) synced ltac:(discriminate))
           "2019-10-01").
Defined.

(** With a project key and no date, or a date as a string, the statements
    before the loop print their messages and end with one search. *)
Lemma before_tables_search lib self from_date s :
  project_key self ≠ "" →
  from_date = PyNone ∨ (∃ date, from_date = PyStr date) →
  ∃ jql s1,
    before_tables lib self from_date s = retrieve_issues self jql 0 s1
    ∧ only_printed s s1.
Proof.
  intros Hkey Hdate.
  assert (truthy (PyStr (project_key self)) = true) as Htrue.
  { simpl. apply negb_true_iff. by apply String.eqb_neq. }
  unfold before_tables. rewrite Htrue. cbn [negb].
  rewrite bind_ret, !bind_msg.
  destruct Hdate as [->|[date ->]]; cbn [is_None].
  - rewrite bind_assoc, bind_msg.
    rewrite (bind_run _ _ _ _ _ (get_issues_file_mod_date_spec lib self _)).
    destruct (negb (truthy (PyStr _))).
    + rewrite bind_msg. eexists _, _. split; [reflexivity|].
      do 3 (etransitivity; [|apply only_printed_log]).
      apply only_printed_log.
    + rewrite bind_lift_ok, bind_msg. unfold retrieve_latest_issues.
      eexists _, _. split; [reflexivity|].
      do 3 (etransitivity; [|apply only_printed_log]).
      apply only_printed_log.
  - rewrite bind_ret. destruct (negb (truthy (PyStr _))).
    + rewrite bind_msg. eexists _, _. split; [reflexivity|].
      do 2 (etransitivity; [|apply only_printed_log]).
      apply only_printed_log.
    + rewrite bind_lift_ok, bind_msg. unfold retrieve_latest_issues.
      eexists _, _. split; [reflexivity|].
      do 2 (etransitivity; [|apply only_printed_log]).
      apply only_printed_log.
Qed.

(** X22.  A pass whose search fails.  Given a project key and no date, or a
    date as a string, a search that the server rejects ends the pass with
    the error of the server: no file is written, no frame is stored and the
    issues of the last search are kept. *)
Theorem get_project_data_search_fails lib self from_date e s :
  project_key self ≠ "" →
  from_date = PyNone ∨ (∃ date, from_date = PyStr date) →
  (∀ jql max_results, search_issues (jira self) jql max_results = Raise e) →
  (get_project_data lib self from_date s).1 = Raise e
  ∧ files (get_project_data lib self from_date s).2 = files s
  ∧ data_part_dataframes (get_project_data lib self from_date s).2
    = data_part_dataframes s
  ∧ issues (get_project_data lib self from_date s).2 = issues s.
Proof.
  intros Hkey Hdate Hfail.
  destruct (before_tables_search lib self from_date s Hkey Hdate)
    as (jql & s1 & Hb & Hf & _ & _ & Hi & Hd & _).
  rewrite (retrieve_issues_fails _ _ _ e) in Hb by apply Hfail.
  assert (get_project_data lib self from_date s
          = (Raise e, set_requests (requests s1 ++ [(jql, 0%Z)]) s1)) as ->.
  { rewrite get_project_data_split. unfold mbind at 1, ST_bind at 1.
    by rewrite Hb. }
  by simpl.
Qed.

(** A pass on a server that rejects every search. *)
Lemma get_project_data_search_fails_witness :
  (get_project_data demo_lib (demo closed_jira) PyNone synced).1
  = Raise JIRAError
  ∧ files (get_project_data demo_lib (demo closed_jira) PyNone synced).2
    = files synced.
Proof.
  destruct (get_project_data_search_fails demo_lib (demo closed_jira)
              PyNone JIRAError synced) as (H1 & H2 & _);
    [discriminate|by left|reflexivity|].
  by split.
Defined.

(** ** A refresh with rows on one side and on no side *)

Lemma file_to_dataframe_found file_path f s :
  files s !! file_path = Some f →
  file_to_dataframe file_path s = (Ok (Some (content f)), s).
Proof.
  intros Hf. unfold file_to_dataframe, try_except, read_csv.
  unfold mbind, ST_bind. by rewrite Hf.
Qed.

Lemma file_to_dataframe_missing file_path s :
  files s !! file_path = None →
  file_to_dataframe file_path s
  = (Ok None,
     set_log (log s ++ ["file_to_dataframe(): data file was not found: '"
                        +:+ file_path +:+ "'"]) s).
Proof.
  intros Hf. unfold file_to_dataframe, try_except, read_csv.
  unfold mbind at 1, ST_bind at 1. by rewrite Hf.
Qed.

Lemma key_name_known d :
  d ∈ tables →
  ∃ k, get_data_part_element d "key_name" ≫= as_str = Ok k.
Proof.
  intros Hd. destruct (get_data_part_element_known d Hd) as (k & _ & -> & _).
  by exists k.
Qed.

(** X23.  A refresh that brings no rows.  When the normaliser returns a frame
    without rows for one of the six tables and the file of the table holds
    rows, the refresh returns the rows of the file as they are and writes
    them back: the stored table is kept. *)
Theorem refresh_data_part_keeps_stored lib self d found s updated s1 f :
  d ∈ tables →
  data_part_to_dataframe lib self found d s = (Ok updated, s1) →
  len updated = 0%nat →
  files s !! get_file_path_for_data_part lib self d = Some f →
  (0 < len (content f))%nat →
  ∃ s',
    refresh_data_part lib self d found s = (Ok (Some (content f)), s')
    ∧ files s'
      = <[get_file_path_for_data_part lib self d :=
            {| content := without_index (content f); mtime := clock s |}]>
          (files s)
    ∧ data_part_dataframes s'
      = <[d := Some (content f)]> (data_part_dataframes s).
Proof.
  intros Hd H1 Hu Hf He. destruct (key_name_known d Hd) as [k Hk].
  pose proof (steps_data_part_to_dataframe only_printed only_printed_log
                lib self found d s) as (Hf1 & Hc1 & _ & _ & Hd1 & _).
  rewrite H1 in Hf1, Hc1, Hd1. cbn [snd] in Hf1, Hc1, Hd1.
  unfold refresh_data_part. rewrite Hk, bind_lift_ok.
  rewrite (bind_run _ _ _ _ _ H1).
  rewrite (bind_run _ _ _ _ _
             (file_to_dataframe_found _ f s1 ltac:(by rewrite Hf1))).
  unfold update_dataframe. cbn [dataframe_has_rows]. rewrite Hu.
  apply Nat.ltb_lt in He. rewrite He. cbn [Nat.ltb Nat.leb andb negb].
  rewrite bind_assoc, bind_msg, bind_ret.
  eexists. split; [reflexivity|].
  cbn [files data_part_dataframes clock set_files set_log
       set_data_part_dataframes]. by rewrite Hf1, Hc1, Hd1.
Qed.

(** A refresh of the [issues] table that brings no issue. *)
Lemma refresh_data_part_keeps_stored_witness :
  ∃ s',
    refresh_data_part demo_lib (demo (demo_jira demo_issue)) "issues" []
      synced = (Ok (Some sorted_issues), s')
    ∧ files s'
      = {[ "/data/DEMO/DEMO_ISSUES.csv" :=
             {| content := sorted_issues; mtime := 1571227200 |} ]}.
Proof.
  destruct (refresh_data_part_keeps_stored demo_lib
              (demo (demo_jira demo_issue)) "issues" [] synced empty_frame
              (set_log ["0 records converted for issues"] synced)
              {| content := sorted_issues; mtime := 1571140800 |})
    as (s' & Hr & Hf & _).
  - compute_done.
  - reflexivity.
  - reflexivity.
  - reflexivity.
  - compute_done.
  - exists s'. split; [exact Hr|]. rewrite Hf. vm_compute. reflexivity.
Defined.

(** X24.  The first refresh of a table.  When the normaliser returns a frame
    with rows for one of the six tables and the table has no file, the
    refresh returns that frame as it is, stores it, and writes its rows to
    the file of the table. *)
Theorem refresh_data_part_first_write lib self d found s updated s1 :
  d ∈ tables →
  data_part_to_dataframe lib self found d s = (Ok updated, s1) →
  (0 < len updated)%nat →
  files s !! get_file_path_for_data_part lib self d = None →
  ∃ s',
    refresh_data_part lib self d found s = (Ok (Some updated), s')
    ∧ files s'
      = <[get_file_path_for_data_part lib self d :=
            {| content := without_index updated; mtime := clock s |}]>
          (files s)
    ∧ data_part_dataframes s'
      = <[d := Some updated]> (data_part_dataframes s).
Proof.
  intros Hd H1 Hu Hf. destruct (key_name_known d Hd) as [k Hk].
  pose proof (steps_data_part_to_dataframe only_printed only_printed_log
                lib self found d s) as (Hf1 & Hc1 & _ & _ & Hd1 & _).
  rewrite H1 in Hf1, Hc1, Hd1. cbn [snd] in Hf1, Hc1, Hd1.
  unfold refresh_data_part. rewrite Hk, bind_lift_ok.
  rewrite (bind_run _ _ _ _ _ H1).
  rewrite (bind_run _ _ _ _ _
             (file_to_dataframe_missing _ s1 ltac:(by rewrite Hf1))).
  unfold update_dataframe. cbn [dataframe_has_rows].
  apply Nat.ltb_lt in Hu. rewrite Hu. cbn [andb negb].
  rewrite bind_assoc, bind_msg, bind_ret.
  eexists. split; [reflexivity|].
  cbn [files data_part_dataframes clock set_files set_log
       set_data_part_dataframes]. by rewrite Hf1, Hc1, Hd1.
Qed.

(** The first refresh of the labels of one issue writes its one label. *)
Lemma refresh_data_part_first_write_witness :
  ∃ s',
    refresh_data_part demo_lib (demo (demo_jira demo_issue)) "issue_labels"
      [demo_issue] no_files
    = (Ok (Some (child_frame "issue_label_key" "label" [("DEMO-1", "bug")])),
       s')
    ∧ files s'
      = <[ "/data/DEMO/DEMO_ISSUES_LABELS.csv" :=
             {| content :=
                  without_index
                    (child_frame "issue_label_key" "label"
                       [("DEMO-1", "bug")]);
                mtime := 0 |} ]> ∅.
Proof.
  destruct (refresh_data_part_first_write demo_lib
              (demo (demo_jira demo_issue)) "issue_labels" [demo_issue]
              no_files
              (child_frame "issue_label_key" "label" [("DEMO-1", "bug")])
              (set_log ["1 records converted for issue_labels"] no_files))
    as (s' & Hr & Hf & _).
  - compute_done.
  - vm_compute. reflexivity.
  - compute_done.
  - reflexivity.
  - exists s'. split; [exact Hr|exact Hf].
Defined.

(** X25.  A refresh without any rows.  When the normaliser returns a frame
    without rows for one of the six tables and the table has no file, or a
    file without rows, the refresh raises [AttributeError]: it has stored
    [None] under the name of the table and has written no file. *)
Theorem refresh_data_part_no_rows lib self d found s updated s1 :
  d ∈ tables →
  data_part_to_dataframe lib self found d s = (Ok updated, s1) →
  len updated = 0%nat →
  dataframe_has_rows
    (content <$> files s !! get_file_path_for_data_part lib self d) = false →
  (refresh_data_part lib self d found s).1 = Raise AttributeError
  ∧ files (refresh_data_part lib self d found s).2 = files s
  ∧ data_part_dataframes (refresh_data_part lib self d found s).2
    = <[d := None]> (data_part_dataframes s).
Proof.
  intros Hd H1 Hu He. destruct (key_name_known d Hd) as [k Hk].
  pose proof (steps_data_part_to_dataframe only_printed only_printed_log
                lib self found d s) as (Hf1 & Hc1 & _ & _ & Hd1 & _).
  rewrite H1 in Hf1, Hc1, Hd1. cbn [snd] in Hf1, Hc1, Hd1.
  unfold refresh_data_part. rewrite Hk, bind_lift_ok.
  rewrite (bind_run _ _ _ _ _ H1).
  destruct (files s !! get_file_path_for_data_part lib self d) as [f|] eqn:Hf.
  - rewrite (bind_run _ _ _ _ _
               (file_to_dataframe_found _ f s1 ltac:(by rewrite Hf1))).
    unfold update_dataframe. cbn [dataframe_has_rows fmap option_fmap
                                  option_map] in He |- *.
    rewrite Hu, He. cbn [Nat.ltb Nat.leb andb negb].
    rewrite bind_assoc, bind_msg, bind_ret.
    unfold mbind, ST_bind, modify, raise. simpl. by rewrite Hf1, Hd1.
  - rewrite (bind_run _ _ _ _ _
               (file_to_dataframe_missing _ s1 ltac:(by rewrite Hf1))).
    unfold update_dataframe. cbn [dataframe_has_rows]. rewrite Hu.
    cbn [Nat.ltb Nat.leb andb negb].
    rewrite bind_assoc, bind_msg, bind_ret.
    unfold mbind, ST_bind, modify, raise. simpl. by rewrite Hf1, Hd1.
Qed.

(** The first refresh of the components of an issue that has none. *)
Lemma refresh_data_part_no_rows_witness :
  (refresh_data_part demo_lib (demo (demo_jira plain_issue))
     "issue_components" [plain_issue] no_files).1 = Raise AttributeError
  ∧ files (refresh_data_part demo_lib (demo (demo_jira plain_issue))
             "issue_components" [plain_issue] no_files).2 = ∅.
Proof.
  destruct (refresh_data_part_no_rows demo_lib (demo (demo_jira plain_issue))
              "issue_components" [plain_issue] no_files empty_frame
              (set_log ["0 records converted for issue_components"]
                 no_files)) as (H1 & H2 & _).
  - compute_done.
  - vm_compute. reflexivity.
  - reflexivity.
  - reflexivity.
  - by split.
Defined.

(** A refresh, from the results of its four steps. *)
Lemma refresh_data_part_run lib self d found s k u sa ex sb r0 sc :
  get_data_part_element d "key_name" ≫= as_str = Ok k →
  data_part_to_dataframe lib self found d s = (Ok u, sa) →
  file_to_dataframe (get_file_path_for_data_part lib self d) sa
  = (Ok ex, sb) →
  update_dataframe ex (Some u) k sb = (Ok (Some r0), sc) →
  refresh_data_part lib self d found s
  = (Ok (Some r0),
     set_files
       (<[get_file_path_for_data_part lib self d :=
            {| content := without_index r0; mtime := clock sc |}]>
          (files sc))
       (set_data_part_dataframes
          (<[d := Some r0]> (data_part_dataframes sc)) sc)).
Proof.
  intros Hk H1 H2 H3. unfold refresh_data_part.
  rewrite Hk, bind_lift_ok. rewrite (bind_run _ _ _ _ _ H1).
  rewrite (bind_run _ _ _ _ _ H2). by rewrite (bind_run _ _ _ _ _ H3).
Qed.

(** ** The pass after a pass *)

(** With a project key and a file of the [issues] table, a pass without a
    date sends the incremental search from the day before the file was
    written. *)
Lemma requests_incremental lib self s f :
  project_key self ≠ "" →
  files s !! get_file_path_for_data_part lib self "issues" = Some f →
  requests (get_project_data lib self PyNone s).2
  = requests s
    ++ [(incremental_query lib self
           (day_string (watermark_day lib (mtime f))), 0%Z)].
Proof.
  intros Hkey Hf.
  assert (truthy (PyStr (project_key self)) = true) as Htrue.
  { simpl. apply negb_true_iff. by apply String.eqb_neq. }
  assert (∀ l s, watermark lib self (set_log l s) = watermark lib self s)
    as Hlog by done.
  assert (watermark lib self s = day_string (watermark_day lib (mtime f)))
    as Hw by (unfold watermark; by rewrite Hf).
  unfold get_project_data. rewrite Htrue. cbn [negb is_None].
  rewrite bind_ret, !bind_msg, bind_assoc, bind_msg.
  rewrite (bind_run _ _ _ _ _ (get_issues_file_mod_date_spec lib self _)).
  rewrite !Hlog, Hw, day_string_truthy. cbn [negb].
  rewrite bind_assoc, bind_lift_ok.
  rewrite bind_assoc, bind_msg.
  unfold retrieve_latest_issues.
  rewrite (requests_bind_quiet _ _
             [(incremental_query lib self
                 (day_string (watermark_day lib (mtime f))), 0%Z)]).
  - done.
  - intros s'. apply requests_retrieve_issues.
  - intros found. apply quiet_tables.
Qed.

(** X27.  The pass after a pass.  After a pass that returns, a pass without a
    date finds the file of the [issues] table and sends the incremental
    search, from the day before the local day of the clock of the first
    pass. *)
Theorem get_project_data_next lib self from_date s b s' :
  get_project_data lib self from_date s = (Ok b, s') →
  requests (get_project_data lib self PyNone s').2
  = requests s'
    ++ [(incremental_query lib self
           (day_string (watermark_day lib (clock s))), 0%Z)].
Proof.
  intros H.
  assert (project_key self ≠ "") as Hkey.
  { intros Hk. unfold get_project_data in H. by rewrite Hk in H. }
  apply get_project_data_ok in H as [_ H].
  destruct (H "issues") as (df & f & _ & _ & Hf & Hm); [compute_done|].
  rewrite (requests_incremental lib self s' f) by done. by rewrite Hm.
Qed.

(** Two passes in a row: the second one is incremental. *)
Lemma get_project_data_next_witness :
  requests
    (get_project_data demo_lib (demo (demo_jira demo_issue)) PyNone
       (get_project_data demo_lib (demo (demo_jira demo_issue)) PyNone
          synced).2).2
  = requests
      (get_project_data demo_lib (demo (demo_jira demo_issue)) PyNone
         synced).2
    ++ [("(project = DEMO) and (updatedDate >= 2019-10-15 "
         +:+ "or worklogDate >= 2019-10-15)", 0%Z)].
Proof.
  apply (get_project_data_next demo_lib (demo (demo_jira demo_issue)) PyNone
           synced true).
  vm_compute. reflexivity.
Defined.

(** ** Where the rows of a merge come from *)

(** X28.  Where the rows of a merge come from.  When both frames have rows and
    the merge returns a frame, its columns are those of the two frames, and
    every one of its rows is a row of the updated frame, or a row of the
    existing frame whose [issue_key] value does not occur in the updated
    frame, laid out on these columns: no row is invented and no two rows
    are mixed. *)
Theorem update_dataframe_rows_from e u k s r s' :
  dataframe_has_rows (Some e) = true → dataframe_has_rows (Some u) = true →
  update_dataframe (Some e) (Some u) k s = (Ok (Some r), s') →
  (∀ c, c ∈ columns r ↔ c ∈ columns u ∨ c ∈ columns e)
  ∧ ∀ row, row ∈ rows r →
      ∃ row0, (row0 ∈ rows u
               ∨ row0 ∈ rows e ∧ (cell_at "issue_key" row0 ∉ parents u))
              ∧ row = reindex (columns r) row0.
Proof.
  intros He Hu Hr.
  apply update_dataframe_both_inv in Hr as ((Hcu & Hce & Hk & Hc) & [= ->] & _);
    [|done..].
  split.
  - intros c. cbn [merge_frame columns]. rewrite merge_columns_equiv by done.
    split.
    + intros [?|[_ ?]%list_elem_of_filter]%elem_of_app; auto.
    + intros [?|?]; [by apply union_columns_l|by apply union_columns_r].
  - intros row Hrow. rewrite rows_merge_frame in Hrow.
    apply list_elem_of_fmap in Hrow as (p & -> & Hp).
    apply merged_elem, elem_of_stacked in Hp as (q & -> & Hq).
    exists q.2. split.
    + destruct Hq as [Hq|[Hq Hn]]; [left|right; split; [|done]];
        by apply list_elem_of_fmap_2.
    + simpl. apply reindex_ext. intros c. symmetry.
      by apply merge_columns_equiv.
Qed.

(** The row keyed 5 of the merged components is a stored row. *)
Lemma update_dataframe_rows_from_witness :
  ∃ row0,
    (row0 ∈ rows updated_components
     ∨ row0 ∈ rows stored_components
       ∧ (cell_at "issue_key" row0 ∉ parents updated_components))
    ∧ component_row 5 "Q" "api" = reindex (columns merged_components) row0.
Proof.
  apply (update_dataframe_rows_from stored_components updated_components
           "issue_component_key" no_files merged_components no_files);
    try (vm_compute; reflexivity); compute_done.
Defined.

(** ** When the table of the comments is returned *)

Section comments_needs.
Variable lib : libraries.

(** A row of the comments table is added only when the date of the comment
    can be read, with or without an author. *)
Lemma issue_comment_row_dated issue comment df u df' :
  issue_comment_row lib issue comment df = (Ok u, df') →
  ∃ d, string_to_datetime lib (Comment.created comment) = Ok d.
Proof.
  unfold issue_comment_row.
  cbv beta iota zeta delta [mbind mret ST_bind ST_ret modify gets lift raise
                            try_except next_label loc].
  destruct (Comment.author comment) as [a|];
    cbv beta iota zeta delta [getattr_author];
    destruct (string_to_datetime lib (Comment.created comment)) as [d|e];
    try done; eauto.
  by destruct e.
Qed.

Lemma issue_comment_rows_dated issue remarks df u df' :
  for_ remarks (issue_comment_row lib issue) df = (Ok u, df') →
  readable lib (pair issue <$> remarks).
Proof.
  revert df. induction remarks as [|comment remarks IH]; intros df H.
  { intros e He. by apply elem_of_nil in He. }
  cbn [for_] in H. unfold mbind at 1, ST_bind at 1 in H.
  destruct (issue_comment_row lib issue comment df) as [[[]|e] df1] eqn:Hrow;
    [|done].
  rewrite fmap_cons. apply (readable_app lib [_]). split; [|by eapply IH].
  intros e [->|He%elem_of_nil]%elem_of_cons; [|done].
  by eapply issue_comment_row_dated.
Qed.

Lemma issue_comments_part_needs self issues df u df' :
  issue_comments_part lib self issues df = (Ok u, df') →
  (∀ issue, issue ∈ issues →
            ∃ remarks, comments (jira self) issue = Ok remarks)
  ∧ readable lib (comments_of self issues).
Proof.
  unfold issue_comments_part. revert df.
  induction issues as [|issue issues IH]; intros df H.
  { split; [by intros i ?%elem_of_nil|by intros e ?%elem_of_nil]. }
  cbn [for_] in H. unfold mbind at 1, ST_bind at 1 in H.
  unfold mbind at 1, ST_bind at 1, lift at 1 in H.
  destruct (comments (jira self) issue) as [remarks|e] eqn:Hr; [|done].
  destruct (for_ remarks (issue_comment_row lib issue) df)
    as [[[]|e] df1] eqn:Hrows; [|done].
  apply IH in H as [Hj Hd]. split.
  - intros i [->|Hi]%elem_of_cons; eauto.
  - unfold comments_of. rewrite bind_cons, Hr.
    apply readable_app. split; [by eapply issue_comment_rows_dated|done].
Qed.

End comments_needs.

(** X29.  When the comments table is returned.  The conversion returns a
    frame exactly when the server returns the comments of every issue and
    the date of every comment can be read: the handler absorbs a missing
    author and nothing else. *)
Theorem issue_comments_dataframe_iff lib self issues s :
  (∃ df s',
     data_part_to_dataframe lib self issues "issue_comments" s = (Ok df, s'))
  ↔ (∀ issue, issue ∈ issues →
              ∃ remarks, comments (jira self) issue = Ok remarks)
    ∧ readable lib (comments_of self issues).
Proof.
  split.
  - intros (df & s' & H). unfold data_part_to_dataframe in H.
    repeat (rewrite decide_False in H by done).
    rewrite decide_True in H by done.
    unfold mbind at 1, ST_bind at 1, run_local in H.
    destruct (issue_comments_part lib self issues empty_frame)
      as [[[]|e] df1] eqn:Hp; [|done].
    by eapply issue_comments_part_needs.
  - intros [Hj Hd]. rewrite (comments_dataframe lib self issues s Hj Hd).
    eauto.
Qed.

(** The comments of one issue are returned. *)
Lemma issue_comments_dataframe_iff_witness :
  (∀ issue, issue ∈ [demo_issue] →
            ∃ remarks,
              comments (jira (demo (demo_jira demo_issue))) issue
              = Ok remarks)
  ∧ readable demo_lib (comments_of (demo (demo_jira demo_issue)) [demo_issue]).
Proof.
  apply (proj1 (issue_comments_dataframe_iff demo_lib
                  (demo (demo_jira demo_issue)) [demo_issue] no_files)).
  eexists _, _. vm_compute. reflexivity.
Defined.

(** ** A pass that finds nothing new *)

Global Instance same_rows_refl : Reflexive same_rows.
Proof. intros s p f Hf. eauto. Qed.

Global Instance same_rows_trans : Transitive same_rows.
Proof.
  intros s1 s2 s3 H12 H23 p f Hf.
  destruct (H12 p f Hf) as (f2 & Hf2 & Hc2 & Hr2).
  destruct (H23 p f2 Hf2) as (f3 & Hf3 & Hc3 & Hr3).
  exists f3. split; [done|]. split; congruence.
Qed.

Lemma rows_without_index df : rows (without_index df) = rows df.
Proof.
  unfold rows, without_index. cbn [body]. rewrite fmap_imap.
  by rewrite <- (imap_const snd).
Qed.

Lemma has_rows_rows df1 df2 :
  rows df1 = rows df2 →
  dataframe_has_rows (Some df1) = dataframe_has_rows (Some df2).
Proof.
  intros H. unfold dataframe_has_rows, len.
  assert (length (body df1) = length (body df2)) as ->; [|done].
  unfold rows in H. by rewrite <- (length_fmap snd), H, length_fmap.
Qed.

Lemma all_stored_same_rows lib self s s' :
  all_stored lib self s → same_rows s s' → all_stored lib self s'.
Proof.
  intros Ha Hs d Hd. destruct (Ha d Hd) as (f & Hf & Hr).
  destruct (Hs _ f Hf) as (f' & Hf' & _ & Hrows).
  exists f'. split; [done|]. by rewrite (has_rows_rows _ _ Hrows).
Qed.

(** Without issues the normaliser returns a frame without rows. *)
Lemma data_part_to_dataframe_nil lib self d s :
  d ∈ tables →
  data_part_to_dataframe lib self [] d s
  = (Ok empty_frame,
     set_log (log s ++ ["0 records converted for " +:+ d]) s).
Proof.
  unfold tables. rewrite !elem_of_cons, elem_of_nil.
  intros [->|[->|[->|[->|[->|[->|[]]]]]]]; reflexivity.
Qed.

(** Without issues the refresh of a table that has rows keeps them. *)
Lemma table_step_nil lib self d s :
  d ∈ tables → all_stored lib self s →
  ∃ s', table_step lib self [] d s = (Ok (), s') ∧ same_rows s s'.
Proof.
  intros Hd Ha. destruct (Ha d Hd) as (f & Hf & Hr).
  destruct (key_name_known d Hd) as [k Hk].
  unfold table_step. rewrite bind_msg.
  set (s0 := set_log (log s ++ ["Updating data_part " +:+ d]) s).
  set (sa := set_log (log s0 ++ ["0 records converted for " +:+ d]) s0).
  assert (update_dataframe (Some (content f)) (Some empty_frame) k sa
          = (Ok (Some (content f)),
             set_log (log sa ++ ["updated_dataframe(): missing updated "
                                 +:+ "dataframe; returning existing "
                                 +:+ "dataframe"]) sa)) as Hu.
  { unfold update_dataframe. cbn [dataframe_has_rows] in Hr |- *.
    rewrite Hr. cbn [len body empty_frame length Nat.ltb Nat.leb andb negb].
    by rewrite bind_msg. }
  rewrite (bind_run _ _ _ _ _
             (refresh_data_part_run lib self d [] s0 k empty_frame sa
                (Some (content f)) sa (content f) _ Hk
                (data_part_to_dataframe_nil lib self d s0 Hd)
                (file_to_dataframe_found _ f sa Hf) Hu)).
  eexists. split; [reflexivity|].
  intros p f0 Hf0. cbn [files set_files set_log set_data_part_dataframes
                         clock].
  destruct (decide (get_file_path_for_data_part lib self d = p)) as [<-|].
  - rewrite lookup_insert_eq. eexists. split; [done|].
    assert (f0 = f) as -> by congruence.
    cbn [content]. split; [done|apply rows_without_index].
  - rewrite lookup_insert_ne by done. eauto.
Qed.

Lemma tables_nil lib self ds s :
  (∀ d, d ∈ ds → d ∈ tables) → all_stored lib self s →
  ∃ s', for_ ds (table_step lib self []) s = (Ok (), s') ∧ same_rows s s'.
Proof.
  revert s. induction ds as [|d ds IH]; intros s Hds Ha.
  { exists s. by split. }
  destruct (table_step_nil lib self d s) as (s1 & H1 & Hs1);
    [apply Hds; by left|done|].
  destruct (IH s1) as (s2 & H2 & Hs2).
  { intros d' Hd'. apply Hds. by right. }
  { by eapply all_stored_same_rows. }
  exists s2. split; [|by etransitivity].
  cbn [for_]. by rewrite (bind_run _ _ _ _ _ H1).
Qed.

(** X30.  A pass that finds nothing new.  Given a project key, no date or a
    date as a string, and rows in the file of every table, a pass whose
    search returns no issue returns [True] and leaves every file with the
    columns and the rows it had. *)
Theorem get_project_data_nothing_new lib self from_date s :
  project_key self ≠ "" →
  from_date = PyNone ∨ (∃ date, from_date = PyStr date) →
  (∀ jql max_results, search_issues (jira self) jql max_results = Ok []) →
  all_stored lib self s →
  (get_project_data lib self from_date s).1 = Ok true
  ∧ same_rows s (get_project_data lib self from_date s).2.
Proof.
  intros Hkey Hdate Hnone Ha.
  destruct (before_tables_search lib self from_date s Hkey Hdate)
    as (jql & s1 & Hb & Hf & _).
  assert (retrieve_issues self jql 0 s1
          = (Ok [],
             set_log (log s1 ++ ["0 issues retrieved"])
               (set_issues []
                  (set_requests (requests s1 ++ [(jql, 0%Z)]) s1)))) as Hr.
  { unfold retrieve_issues.
    cbv beta iota zeta delta [mbind mret ST_bind ST_ret modify lift msg].
    by rewrite Hnone. }
  rewrite Hr in Hb.
  assert (same_rows s (set_log (log s1 ++ ["0 issues retrieved"])
                         (set_issues []
                            (set_requests (requests s1 ++ [(jql, 0%Z)])
                               s1)))) as Hs0.
  { intros p f Hp. exists f. cbn [files set_log set_issues set_requests].
    by rewrite Hf. }
  destruct (tables_nil lib self tables _ ltac:(done)
              (all_stored_same_rows _ _ _ _ Ha Hs0)) as (s6 & H6 & Hs6).
  assert (get_project_data lib self from_date s
          = (Ok true,
             set_log (log (set_log (log s6
                                    ++ ["Issue Information update completed..."])
                             s6)
                      ++ ["###################################################"])
               (set_log (log s6 ++ ["Issue Information update completed..."])
                  s6))) as ->.
  { rewrite get_project_data_split, (bind_run _ _ _ _ _ Hb).
    by rewrite (bind_run _ _ _ _ _ H6). }
  split; [done|]. etransitivity; [exact Hs0|]. etransitivity; [exact Hs6|].
  intros p f Hp. exists f. by cbn [files set_log].
Qed.

(** A pass over the six tables of one issue, on a server that finds no
    issue any more. *)
Lemma get_project_data_nothing_new_witness :
  (get_project_data demo_lib (demo idle_jira) PyNone filled).1 = Ok true
  ∧ same_rows filled
      (get_project_data demo_lib (demo idle_jira) PyNone filled).2.
Proof.
  apply (get_project_data_nothing_new demo_lib (demo idle_jira) PyNone
           filled).
  - discriminate.
  - by left.
  - reflexivity.
  - intros d Hd. unfold tables in Hd.
    rewrite !elem_of_cons, elem_of_nil in Hd.
    destruct Hd as [->|[->|[->|[->|[->|[->|[]]]]]]];
      eexists; split; vm_compute; reflexivity.
Defined.
